(** * pytest-cassandra: the CCM cluster fixture

    A shallow embedding of [pytest_cassandra.py]: the platform adapters
    ([CCMPlatformDarwin], [CCMPlatformLinux]), the [CCMCluster] controller
    with its loopback checks, process finder, cluster creation and removal,
    and the [setup] / [teardown] life cycle.

    The host (network interfaces, shell, process table, clock) is an
    interface, [Host]; the controller is written once against it, in a small
    monad that threads the cluster object and the host and records what the
    code writes and runs. *)

From Stdlib Require Import ZArith List String Ascii Bool Lia FinFun.
From Stdlib Require Import Decimal DecimalPos DecimalString DecimalZ.
Import ListNotations.

Open Scope string_scope.
Open Scope Z_scope.

(** ** Python primitives used by the module *)

Module Py.

(** [s.startswith(p)] *)
Fixpoint startswith (s p : string) {struct p} : bool :=
  match p with
  | EmptyString => true
  | String c p' =>
      match s with
      | EmptyString => false
      | String d s' => Ascii.eqb d c && startswith s' p'
      end
  end.

(** [s.find(sub)]: the lowest offset at which [sub] occurs, else [-1].
    [find_from] carries the offset of the suffix being scanned. *)
Fixpoint find_from (s sub : string) (i : Z) : Z :=
  if startswith s sub then i
  else match s with
       | EmptyString => -1
       | String _ s' => find_from s' sub (i + 1)
       end.

Definition find (s sub : string) : Z := find_from s sub 0.

(** [x in l] for a list of strings, and for a list of pairs of strings *)
Definition str_in (x : string) (l : list string) : bool :=
  existsb (String.eqb x) l.

Definition pair_eqb (p q : string * string) : bool :=
  String.eqb (fst p) (fst q) && String.eqb (snd p) (snd q).

Definition pair_in (p : string * string) (l : list (string * string)) : bool :=
  existsb (pair_eqb p) l.

(** ['{}'.format(n)] for an int: decimal digits, a leading minus sign for
    negative numbers *)
Definition str_of_int (n : Z) : string :=
  NilZero.string_of_int (Z.to_int n).

(** [range(n)] *)
Definition range (n : Z) : list Z :=
  map Z.of_nat (seq 0 (Z.to_nat n)).

(** [sep.join(l)] *)
Definition join (sep : string) (l : list string) : string :=
  String.concat sep l.

(** [bool(s)] for a string: the empty string is false *)
Definition truthy (s : string) : bool :=
  match s with EmptyString => false | _ => true end.

End Py.

(** ** Module constants *)

Definition CCM_KILLALL : bool := false.
Definition IP_PREFIX : string := "127.0.5.".
Definition NUM_NODES : Z := 3.

Definition CassandraDaemon : string :=
  "org.apache.cassandra.service.CassandraDaemon".

(** ** Platform adapters

    [CCMPlatform] is abstract in the source (every method raises
    [NotImplementedError]) and is never instantiated; the two concrete
    subclasses are the variants. *)

Inductive CCMPlatform : Type :=
| CCMPlatformDarwin (lo_prefix : string)
| CCMPlatformLinux (lo_prefix : string).

Module Platform.

Definition _mkiface (p : CCMPlatform) (node : Z) : string :=
  match p with
  | CCMPlatformDarwin lo_prefix => lo_prefix
  | CCMPlatformLinux lo_prefix => lo_prefix ++ Py.str_of_int node
  end.

Definition _add_ip_cmd (p : CCMPlatform) (iface ip_addr : string) : string :=
  match p with
  | CCMPlatformDarwin _ =>
      "sudo ifconfig " ++ iface ++ " alias " ++ ip_addr
  | CCMPlatformLinux _ =>
      "sudo ifconfig " ++ iface ++ " " ++ ip_addr ++ " netmask 255.0.0.0 up"
  end.

(** the command run by [_rm_ip_addr] *)
Definition _rm_ip_cmd (p : CCMPlatform) (iface ip_addr : string) : string :=
  match p with
  | CCMPlatformDarwin _ => "sudo ifconfig lo0 -alias " ++ ip_addr
  | CCMPlatformLinux _ => "sudo ifconfig " ++ iface ++ " down"
  end.

End Platform.

Definition platforms : list (string * CCMPlatform) :=
  [ ("darwin", CCMPlatformDarwin "lo0");
    ("linux", CCMPlatformLinux "lo:auth_test") ].

(** ** The cluster object *)

Record CCMCluster : Type := mkCCMCluster {
  name : string;
  nodes : Z;
  debug : bool;
  initialized : bool;
  manage_cluster : bool;
  manage_interfaces : bool;
  killall : bool;
  ip_prefix : string;
  cluster_platforms : list (string * CCMPlatform)
}.

(** [CCMCluster()] with the defaults of [__init__] *)
Definition CCMCluster_default : CCMCluster :=
  {| name := EmptyString;
     nodes := NUM_NODES;
     debug := true;
     initialized := false;
     manage_cluster := false;
     manage_interfaces := false;
     killall := CCM_KILLALL;
     ip_prefix := IP_PREFIX;
     cluster_platforms := platforms |}.

Definition set_name (c : CCMCluster) (n : string) : CCMCluster :=
  {| name := n;
     nodes := nodes c;
     debug := debug c;
     initialized := initialized c;
     manage_cluster := manage_cluster c;
     manage_interfaces := manage_interfaces c;
     killall := killall c;
     ip_prefix := ip_prefix c;
     cluster_platforms := cluster_platforms c |}.

Definition set_initialized (c : CCMCluster) (b : bool) : CCMCluster :=
  {| name := name c;
     nodes := nodes c;
     debug := debug c;
     initialized := b;
     manage_cluster := manage_cluster c;
     manage_interfaces := manage_interfaces c;
     killall := killall c;
     ip_prefix := ip_prefix c;
     cluster_platforms := cluster_platforms c |}.

(** ** Pure methods of [CCMCluster] *)

Definition _mkaddr (c : CCMCluster) (node_num : Z) : string :=
  ip_prefix c ++ Py.str_of_int (node_num + 1).

(** the list [hosts] built by the loop of [hosts_cfg] *)
Definition hosts (c : CCMCluster) : list string :=
  map (_mkaddr c) (Py.range (nodes c)).

Definition hosts_cfg (c : CCMCluster) : string :=
  Py.join ", " (hosts c).

(** the loop of [_cmdline_matches], with its [break] *)
Fixpoint _cmdline_scan (c : CCMCluster) (args : list string) : bool :=
  match args with
  | [] => false
  | arg :: rest =>
      if negb (Py.find arg (name c) =? -1) then true
      else _cmdline_scan c rest
  end.

Definition _cmdline_matches (c : CCMCluster) (cmdline : list string) : bool :=
  if Py.str_in CassandraDaemon cmdline
  then _cmdline_scan c cmdline
  else false.

(** ** Specification predicates *)

(** [sub] occurs in [s] *)
Definition contains (s sub : string) : Prop :=
  exists pre post, s = pre ++ sub ++ post.

(** the binding node [x] needs on platform [p] *)
Definition required_binding (p : CCMPlatform) (c : CCMCluster) (x : Z)
  : string * string :=
  (Platform._mkiface p x, _mkaddr c x).

Definition is_missing (p : CCMPlatform) (c : CCMCluster)
  (loopbacks : list (string * string)) (x : Z) : bool :=
  negb (Py.pair_in (required_binding p c x) loopbacks).

(** the node indices whose binding is not among [loopbacks], in order *)
Definition missing_nodes (p : CCMPlatform) (c : CCMCluster)
  (loopbacks : list (string * string)) : list Z :=
  filter (is_missing p c loopbacks) (Py.range (nodes c)).

(** the add-address command for node [x] *)
Definition remediation (p : CCMPlatform) (c : CCMCluster) (x : Z) : string :=
  Platform._add_ip_cmd p (Platform._mkiface p x) (_mkaddr c x).

(** the remove-address command for node [x] *)
Definition removal (p : CCMPlatform) (c : CCMCluster) (x : Z) : string :=
  Platform._rm_ip_cmd p (Platform._mkiface p x) (_mkaddr c x).

(** ** Outcomes and events

    A call returns, raises, leaves through [pytest.exit] (the [Exit]
    exception of pytest, which no handler of this module catches), or is
    still inside the polling loop of [_remove_cluster] when the fuel given to
    the model runs out. *)

Inductive exn : Type :=
| Exception (msg : string) (arg : option Z)
| NameError (var : string)
| UnboundLocalError (var : string)
| KeyError (key : string)
| AttributeError (attr : string)
| UnicodeDecodeError.

Inductive outcome (A : Type) : Type :=
| Return (a : A)
| Raise (e : exn)
| PytestExit (code : Z)
| OutOfFuel.

Arguments Return {A} a.
Arguments Raise {A} e.
Arguments PytestExit {A} code.
Arguments OutOfFuel {A}.

(** What a run does to the outside: writes, log records, commands, kills,
    sleeps. [Enter] is a ghost event that marks the entry of a method, so
    that statements can count calls. *)
Inductive event : Type :=
| StdoutWrite (s : string)
| StdoutFlush
| StderrWrite (s : string)
| StderrFlush
| Log (level msg : string)
| SubprocessCall (cmd : string)
| Popen (cmd : string)
| PopenKill
| PopenWait
| ProcessKill (pid : Z)
| Sleep
| Enter (method : string).

(** ** The host *)

(** a [psutil] process: [pcmdline = None] when reading the command line
    raises [AccessDenied]. The other exceptions of psutil ([NoSuchProcess],
    [ZombieProcess], and [AccessDenied] from [kill()]) are not modelled:
    what is stated about the finder and about [_kill_all] is stated for the
    runs in which these calls return. *)
Record Process : Type := mkProcess {
  pid : Z;
  pname : string;
  pcmdline : option (list string)
}.

(** [Popen(cmd, stdout=PIPE, stderr=PIPE, shell=True)] followed by
    [communicate()] and [wait()]: the captured bytes and the exit code, or
    [CommunicateRaised] when one of the two calls raises *)
Inductive communicated : Type :=
| Completed (stdout stderr : string) (ret : Z)
| CommunicateRaised.

Class Host (W : Type) : Type := {
  (** [sys.platform], a constant of the interpreter *)
  sys_platform : string;
  (** [netifaces.interfaces()] *)
  netifaces_interfaces : W -> list string;
  (** [netifaces.ifaddresses(iface)[AF_INET]], the ['addr'] of each entry;
      [None] when the interface has no [AF_INET] key *)
  netifaces_inet : W -> string -> option (list string);
  (** [subprocess.call(cmd, shell=True)]: exit code and host afterwards *)
  subprocess_call : string -> W -> Z * W;
  popen_communicate : string -> W -> communicated * W;
  (** [b.decode()] with the interpreter's default codec; [None] when it
      raises [UnicodeDecodeError] *)
  bytes_decode : string -> option string;
  (** [psutil.process_iter()] *)
  process_iter : W -> list Process;
  (** [p.kill()] *)
  process_kill : Z -> W -> W;
  (** [time.sleep(.5)] *)
  time_sleep : W -> W
}.

Definition nl : string := String (ascii_of_nat 10) EmptyString.
Definition tab : string := String (ascii_of_nat 9) EmptyString.

(** ** The monad of the controller *)

Section Controller.

Context {W : Type} {HW : Host W}.

Record St : Type := mkSt {
  self : CCMCluster;
  host : W
}.

Definition M (A : Type) : Type := St -> outcome A * St * list event.

Definition outcome_of {A} (r : outcome A * St * list event) : outcome A :=
  fst (fst r).
Definition state_of {A} (r : outcome A * St * list event) : St :=
  snd (fst r).
Definition trace_of {A} (r : outcome A * St * list event) : list event :=
  snd r.

Definition ret {A} (a : A) : M A := fun s => (Return a, s, []).

Definition bind {A B} (m : M A) (f : A -> M B) : M B :=
  fun s =>
    match m s with
    | (Return a, s1, t1) =>
        match f a s1 with
        | (o, s2, t2) => (o, s2, (t1 ++ t2)%list)
        end
    | (Raise e, s1, t1) => (Raise e, s1, t1)
    | (PytestExit code, s1, t1) => (PytestExit code, s1, t1)
    | (OutOfFuel, s1, t1) => (OutOfFuel, s1, t1)
    end.

Definition raise {A} (e : exn) : M A := fun s => (Raise e, s, []).

(** [pytest.exit(code)] *)
Definition pytest_exit {A} (code : Z) : M A := fun s => (PytestExit code, s, []).

Definition out_of_fuel {A} : M A := fun s => (OutOfFuel, s, []).

Definition emit (e : event) : M unit := fun s => (Return tt, s, [e]).

Definition get_self : M CCMCluster := fun s => (Return (self s), s, []).

Definition put_self (c : CCMCluster) : M unit :=
  fun s => (Return tt, {| self := c; host := host s |}, []).

Definition get_host : M W := fun s => (Return (host s), s, []).

(** an operation of the host, with the event it leaves *)
Definition on_host {A} (e : event) (f : W -> A * W) : M A :=
  fun s =>
    match f (host s) with
    | (a, w) => (Return a, {| self := self s; host := w |}, [e])
    end.

(** [try: body finally: fin]. The handler runs on every way out of the
    body; when it does not return itself, its own way out replaces the
    body's. *)
Definition try_finally {A} (body : M A) (fin : M unit) : M A :=
  fun s =>
    match body s with
    | (OutOfFuel, s1, t1) => (OutOfFuel, s1, t1)
    | (o, s1, t1) =>
        match fin s1 with
        | (Return _, s2, t2) => (o, s2, (t1 ++ t2)%list)
        | (Raise e, s2, t2) => (Raise e, s2, (t1 ++ t2)%list)
        | (PytestExit code, s2, t2) => (PytestExit code, s2, (t1 ++ t2)%list)
        | (OutOfFuel, s2, t2) => (OutOfFuel, s2, (t1 ++ t2)%list)
        end
    end.

(** [for x in l: acc = body(x, acc)] *)
Fixpoint for_in {A S} (l : list A) (acc : S) (body : A -> S -> M S) : M S :=
  match l with
  | [] => ret acc
  | x :: rest => bind (body x acc) (fun acc' => for_in rest acc' body)
  end.

Notation "x <- m ;; k" := (bind m (fun x => k))
  (at level 61, m at next level, right associativity).
Notation "m ;; k" := (bind m (fun _ => k))
  (at level 61, right associativity).

(** ** Interface discovery *)

Definition _loopback_interfaces (prefix : string) : M (list string) :=
  w <- get_host ;;
  for_in (netifaces_interfaces w) [] (fun iface ifaces =>
    if Py.startswith iface prefix then ret (ifaces ++ [iface])%list
    else ret ifaces).

Definition _loopbacks : M (list (string * string)) :=
  ifaces <- _loopback_interfaces "lo" ;;
  for_in ifaces [] (fun iface addrs =>
    w <- get_host ;;
    match netifaces_inet w iface with
    | None => raise (KeyError "AF_INET")
    | Some netaddrs =>
        for_in netaddrs addrs (fun b addrs => ret (addrs ++ [(iface, b)])%list)
    end).

(** ** Platform dispatch *)

(** the loop of the [_platform] property; [None] when no key of
    [self.platforms] is a prefix of [sys.platform] *)
Fixpoint _platform_lookup (sysplat : string) (ps : list (string * CCMPlatform))
  : option CCMPlatform :=
  match ps with
  | [] => None
  | (key, p) :: rest =>
      if Py.startswith sysplat key then Some p
      else _platform_lookup sysplat rest
  end.

Definition _platform : M (option CCMPlatform) :=
  c <- get_self ;;
  ret (_platform_lookup sys_platform (cluster_platforms c)).

(** [subprocess.call(cmd, shell=True)] *)
Definition call (cmd : string) : M Z :=
  on_host (SubprocessCall cmd) (subprocess_call cmd).

Definition stderr_write (s : string) : M unit := emit (StderrWrite s).
Definition stderr_flush : M unit := emit StderrFlush.
Definition stdout_write (s : string) : M unit := emit (StdoutWrite s).
Definition stdout_flush : M unit := emit StdoutFlush.

Definition Platform_add_ip_addr (p : CCMPlatform) (iface ip_addr : string)
  : M unit :=
  let cmd := Platform._add_ip_cmd p iface ip_addr in
  stderr_write ("Running: " ++ cmd ++ nl) ;;
  stderr_flush ;;
  exit_code <- call cmd ;;
  if negb (exit_code =? 0) then
    match p with
    | CCMPlatformDarwin _ => raise (Exception "Failed to add IP" (Some exit_code))
    | CCMPlatformLinux _ => raise (Exception "Failed to add IP" None)
    end
  else ret tt.

Definition Platform_rm_ip_addr (p : CCMPlatform) (iface ip_addr : string)
  : M unit :=
  let cmd := Platform._rm_ip_cmd p iface ip_addr in
  stderr_write ("Running: " ++ cmd ++ nl) ;;
  stderr_flush ;;
  exit_code <- call cmd ;;
  if negb (exit_code =? 0) then raise (Exception "Failed to remove IP" None)
  else ret tt.

(** the methods of [CCMCluster] that forward to [self._platform]; with no
    platform the attribute access on [None] raises *)
Definition _add_ip_cmd (iface ip_addr : string) : M string :=
  p <- _platform ;;
  match p with
  | None => raise (AttributeError "_add_ip_cmd")
  | Some p => ret (Platform._add_ip_cmd p iface ip_addr)
  end.

Definition _add_ip_addr (iface ip_addr : string) : M unit :=
  p <- _platform ;;
  match p with
  | None => raise (AttributeError "_add_ip_addr")
  | Some p => Platform_add_ip_addr p iface ip_addr
  end.

Definition _rm_ip_addr (iface ip_addr : string) : M unit :=
  p <- _platform ;;
  match p with
  | None => raise (AttributeError "_rm_ip_addr")
  | Some p => Platform_rm_ip_addr p iface ip_addr
  end.

Definition _mkiface (node_num : Z) : M string :=
  p <- _platform ;;
  match p with
  | None => raise (AttributeError "_mkiface")
  | Some p => ret (Platform._mkiface p node_num)
  end.

(** ** Loopback checks *)

Definition _check_loopbacks : M unit :=
  loopbacks <- _loopbacks ;;
  c <- get_self ;;
  missing <- for_in (Py.range (nodes c)) [] (fun x missing =>
    iface <- _mkiface x ;;
    c <- get_self ;;
    let ip_addr := _mkaddr c x in
    if negb (Py.pair_in (iface, ip_addr) loopbacks) then
      stderr_write ("Ip check failed " ++ Py.str_of_int x ++ "." ++ nl) ;;
      cmd <- _add_ip_cmd iface ip_addr ;;
      ret (missing ++ [cmd])%list
    else ret missing) ;;
  match missing with
  | [] => ret tt
  | _ :: _ =>
      stderr_write ("Missing network addresses." ++ nl ++
                    "You can run the following commands to resolve this:" ++
                    nl ++ nl) ;;
      for_in missing tt (fun cmd _ => stderr_write (tab ++ cmd ++ nl)) ;;
      stderr_flush ;;
      pytest_exit 1
  end.

(** the name [a] of the second pass of [_setup_loopbacks]: no local and no
    module-level binding exists, so evaluating it raises *)
Definition lookup_a : M string := raise (NameError "a").

Definition _setup_loopbacks : M unit :=
  loopbacks <- _loopbacks ;;
  c <- get_self ;;
  for_in (Py.range (nodes c)) tt (fun x _ =>
    iface <- _mkiface x ;;
    c <- get_self ;;
    let ip_addr := _mkaddr c x in
    if negb (Py.pair_in (iface, ip_addr) loopbacks) then
      stderr_write ("Ip check failed " ++ Py.str_of_int x ++ "." ++ nl) ;;
      stderr_write ("Add ip address to loopback: " ++ Py.str_of_int x ++ nl) ;;
      stderr_flush ;;
      _add_ip_addr iface ip_addr
    else ret tt) ;;
  loopbacks <- _loopbacks ;;
  c <- get_self ;;
  missing <- for_in (Py.range (nodes c)) [] (fun x missing =>
    iface <- _mkiface x ;;
    c <- get_self ;;
    let ip_addr := _mkaddr c x in
    if negb (Py.pair_in (iface, ip_addr) loopbacks) then
      stderr_write ("Ip check failed " ++ Py.str_of_int x ++ "." ++ nl) ;;
      a <- lookup_a ;;
      ret (missing ++ [a])%list
    else ret missing) ;;
  match missing with
  | [] => ret tt
  | _ :: _ =>
      stderr_write ("Missing network addresses: " ++ Py.join ", " missing ++ nl) ;;
      raise (Exception "CCM setup exception: missing address" None)
  end.

Definition _teardown_loopbacks (nodes : Z) : M unit :=
  for_in (Py.range nodes) tt (fun x _ =>
    iface <- _mkiface x ;;
    c <- get_self ;;
    let ip_addr := _mkaddr c x in
    _rm_ip_addr iface ip_addr).

(** ** Process finder *)

(** the body of the loop of [_cassandra_processes] up to the test: the
    command line inspected for process [p] *)
Definition _inspect (p : Process) : M (list string) :=
  if String.eqb (pname p) "java" then
    match pcmdline p with
    | Some cmdline => ret cmdline
    | None =>
        emit (Log "debug" "Unable to access commandline of java process") ;;
        ret []
    end
  else ret [].

(** [list(self._cassandra_processes())] *)
Definition _cassandra_processes : M (list Process) :=
  w <- get_host ;;
  for_in (process_iter w) [] (fun p found =>
    cmdline <- _inspect p ;;
    c <- get_self ;;
    if _cmdline_matches c cmdline then ret (found ++ [p])%list
    else ret found).

(** the generator is consumed one process at a time, so each kill happens
    before the next process is inspected *)
Definition _kill_all : M unit :=
  w <- get_host ;;
  for_in (process_iter w) tt (fun p _ =>
    cmdline <- _inspect p ;;
    c <- get_self ;;
    if _cmdline_matches c cmdline then
      emit (Log "warn" ("Kill process " ++ Py.str_of_int (pid p))) ;;
      on_host (ProcessKill (pid p)) (fun w => (tt, process_kill (pid p) w))
    else ret tt).

(** ** State check *)

Definition _check_state : M unit :=
  emit (Enter "_check_state") ;;
  c <- get_self ;;
  (if manage_interfaces c then _setup_loopbacks else _check_loopbacks) ;;
  c <- get_self ;;
  if killall c then
    ps <- _cassandra_processes ;;
    if negb (Z.of_nat (List.length ps) =? 0) then
      emit (Log "warn"
              ("Killing all cassandra processess, disable this by " ++
               "setting CCMCluster.killall to False")) ;;
      _kill_all
    else ret tt
  else ret tt.

(** ** Cluster creation and removal *)

(** [b.decode()] on captured output *)
Definition decode (b : string) : M string :=
  match bytes_decode b with
  | Some s => ret s
  | None => raise UnicodeDecodeError
  end.

(** the command line [popenargs] of [_create_cluster] *)
Definition popenargs (c : CCMCluster) : string :=
  "ccm create " ++ name c ++ " --nodes 3 -v 3.7 -i '" ++ ip_prefix c ++
  "' --start --no-switch".

(** When [communicate()] or [wait()] raises, the handler kills the process
    and logs; the name [e] it bound is unbound again when the handler ends
    (Python 3), so the test [if e or ret != 0] that follows raises
    [UnboundLocalError]. *)
Definition _create_cluster : M unit :=
  emit (Enter "_create_cluster") ;;
  c <- get_self ;;
  if negb (Py.truthy (name c)) then
    raise (Exception "Set name before calling create cluster" None)
  else
    let cmd := popenargs c in
    r <- on_host (Popen cmd) (popen_communicate cmd) ;;
    match r with
    | Completed stdout stderr ret_ =>
        if negb (ret_ =? 0) then
          out <- decode stdout ;;
          stdout_write out ;;
          stdout_flush ;;
          err <- decode stderr ;;
          stderr_write err ;;
          stderr_flush ;;
          pytest_exit ret_
        else ret tt
    | CommunicateRaised =>
        emit PopenKill ;;
        emit PopenWait ;;
        emit (Log "exception" "Exception waiting for sub-process") ;;
        raise (UnboundLocalError "e")
    end.

(** the polling loop of [_remove_cluster]; [fuel] bounds the number of
    times its condition is evaluated *)
Fixpoint _wait_gone (fuel : nat) : M unit :=
  match fuel with
  | O => out_of_fuel
  | S fuel' =>
      ps <- _cassandra_processes ;;
      if 0 <? Z.of_nat (List.length ps) then
        on_host Sleep (fun w => (tt, time_sleep w)) ;;
        _wait_gone fuel'
      else ret tt
  end.

Definition _remove_cluster (fuel : nat) : M unit :=
  c <- get_self ;;
  ret_ <- call ("ccm remove " ++ name c) ;;
  if negb (ret_ =? 0) then
    raise (Exception "Problem removing test cluster" None)
  else _wait_gone fuel.

(** ** Life cycle *)

(** [setup], called with its variable arguments as a list: [Some true]
    stands for [return True], [None] for falling off the end *)
Definition setup (args : list string) : M (option bool) :=
  c <- get_self ;;
  if initialized c then ret (Some true)
  else
    match args with
    | [] => ret tt
    | arg0 :: _ => put_self (set_name c arg0)
    end ;;
    _check_state ;;
    try_finally _create_cluster
      (c <- get_self ;; put_self (set_initialized c true)) ;;
    ret None.

Definition teardown (fuel : nat) : M (option bool) :=
  c <- get_self ;;
  if negb (initialized c) then ret (Some true)
  else
    try_finally
      (_remove_cluster fuel ;;
       c <- get_self ;;
       if manage_interfaces c then _teardown_loopbacks NUM_NODES
       else ret tt)
      (c <- get_self ;;
       put_self (set_initialized c true) ;;
       _check_state) ;;
    ret None.

(** ** Reading a trace *)

Definition is_creation (e : event) : bool :=
  match e with
  | Enter method => String.eqb method "_create_cluster"
  | _ => false
  end.

Definition is_state_check (e : event) : bool :=
  match e with
  | Enter method => String.eqb method "_check_state"
  | _ => false
  end.

(** how many times a run entered [_create_cluster] *)
Definition creations (t : list event) : nat :=
  List.length (filter is_creation t).

Definition is_shell (e : event) : bool :=
  match e with
  | SubprocessCall _ => true
  | _ => false
  end.

(** the shell commands of a run, in order *)
Fixpoint commands (t : list event) : list string :=
  match t with
  | [] => []
  | SubprocessCall cmd :: rest => cmd :: commands rest
  | _ :: rest => commands rest
  end.

(** the lines written to [stderr] by a run, in order *)
Fixpoint stderr_lines (t : list event) : list string :=
  match t with
  | [] => []
  | StderrWrite s :: rest => s :: stderr_lines rest
  | _ :: rest => stderr_lines rest
  end.

End Controller.

Arguments St W : clear implicits.
Arguments M W A : clear implicits.

(** ** Shapes of what a run leaves

    The events the theorems talk about, and the derived
    readings of a state and of an outcome. *)

Definition ip_check_failed (x : Z) : event :=
  StderrWrite ("Ip check failed " ++ Py.str_of_int x ++ "." ++ nl).

Definition missing_header : event :=
  StderrWrite ("Missing network addresses." ++ nl ++
               "You can run the following commands to resolve this:" ++
               nl ++ nl).

Definition remediation_line (cmd : string) : event :=
  StderrWrite (tab ++ cmd ++ nl).

(** the three events of one [_rm_ip_addr] *)
Definition removal_events (cmd : string) : list event :=
  [StderrWrite ("Running: " ++ cmd ++ nl); StderrFlush; SubprocessCall cmd].

(** events that are not an entry of [_create_cluster] *)
Definition not_creation (e : event) : Prop := is_creation e = false.

(** the exception of the last branch of [_setup_loopbacks] *)
Definition missing_address : exn :=
  Exception "CCM setup exception: missing address" None.

(** character [c] occurs in [s] *)
Fixpoint mentions (c : ascii) (s : string) : Prop :=
  match s with
  | EmptyString => False
  | String d s' => d = c \/ mentions c s'
  end.

(** the command line [_cassandra_processes] sees for a process *)
Definition seen_cmdline (p : Process) : list string :=
  if String.eqb (pname p) "java" then
    match pcmdline p with
    | Some cmdline => cmdline
    | None => []
    end
  else [].

(** the processes of a table that match the cluster *)
Definition matching (c : CCMCluster) (ps : list Process) : list Process :=
  filter (fun p => _cmdline_matches c (seen_cmdline p)) ps.

Section Readings.

Context {W : Type} {HW : Host W}.

(** the state in which [setup] runs its state check: the name recorded *)
Definition record_name (args : list string) (s : St W) : St W :=
  match args with
  | [] => s
  | arg0 :: _ => {| self := set_name (self s) arg0; host := host s |}
  end.

(** [setup]'s result for the outcome of its [try] statement *)
Definition falls_off (o : outcome unit) : outcome (option bool) :=
  match o with
  | Return _ => Return None
  | Raise e => Raise e
  | PytestExit code => PytestExit code
  | OutOfFuel => OutOfFuel
  end.

Definition mark_initialized (s : St W) : St W :=
  {| self := set_initialized (self s) true; host := host s |}.

(** the [try] statement of [setup] and what follows it *)
Definition setup_create : M W (option bool) :=
  bind (try_finally _create_cluster
          (bind get_self (fun c => put_self (set_initialized c true))))
       (fun _ => ret None).

(** the host after [k] sleeps *)
Definition after_sleeps (k : nat) (s : St W) : St W :=
  {| self := self s; host := Nat.iter k time_sleep (host s) |}.

(** *** Frames

    [quiet P m]: the run of [m] leaves the cluster object as it found it and
    emits only events that satisfy [P]. [halts m]: the run never ends by
    exhausting fuel. [avoids e m]: the run never raises [e]. *)

Definition quiet {A} (P : event -> Prop) (m : M W A) : Prop :=
  forall s, self (state_of (m s)) = self s /\ Forall P (trace_of (m s)).

Definition halts {A} (m : M W A) : Prop :=
  forall s, outcome_of (m s) <> OutOfFuel.

Definition avoids {A} (e : exn) (m : M W A) : Prop :=
  forall s, outcome_of (m s) <> Raise e.

(** [query m]: the run of [m] changes nothing and emits nothing *)
Definition query {A} (m : M W A) : Prop :=
  forall s, state_of (m s) = s /\ trace_of (m s) = [].

End Readings.

(** ** A simulated host

    A host given by tables: the interfaces with their IPv4 addresses, what
    each shell command returns and the interfaces it leaves, what each
    [Popen] command communicates, and the process table now and after each
    sleep. Commands that are not in a table exit with 127. The codec is
    strict ASCII. *)

Definition iface_table : Type := list (string * option (list string)).

Record SimHost (platform : string) : Type := mkSimHost {
  sim_ifaces : iface_table;
  sim_shell : list (string * (Z * iface_table));
  sim_popen : list (string * communicated);
  sim_procs : list (list Process)
}.

Arguments mkSimHost {platform} _ _ _ _.
Arguments sim_ifaces {platform} _.
Arguments sim_shell {platform} _.
Arguments sim_popen {platform} _.
Arguments sim_procs {platform} _.

Fixpoint assoc {A} (k : string) (l : list (string * A)) : option A :=
  match l with
  | [] => None
  | (k', v) :: rest => if String.eqb k k' then Some v else assoc k rest
  end.

Definition ascii_decode (b : string) : option string :=
  if forallb (fun a => Nat.ltb (nat_of_ascii a) 128) (list_ascii_of_string b)
  then Some b else None.

Definition sim_call {platform} (cmd : string) (w : SimHost platform)
  : Z * SimHost platform :=
  match assoc cmd (sim_shell w) with
  | Some (code, ifaces) =>
      (code, mkSimHost ifaces (sim_shell w) (sim_popen w) (sim_procs w))
  | None => (127, w)
  end.

Definition sim_communicate {platform} (cmd : string) (w : SimHost platform)
  : communicated * SimHost platform :=
  match assoc cmd (sim_popen w) with
  | Some r => (r, w)
  | None => (Completed EmptyString EmptyString 127, w)
  end.

Definition sim_inet {platform} (w : SimHost platform) (iface : string)
  : option (list string) :=
  match assoc iface (sim_ifaces w) with
  | Some (Some addrs) => Some addrs
  | _ => None
  end.

Definition sim_kill {platform} (victim : Z) (w : SimHost platform)
  : SimHost platform :=
  mkSimHost (sim_ifaces w) (sim_shell w) (sim_popen w)
    (map (filter (fun p => negb (pid p =? victim))) (sim_procs w)).

Definition sim_sleep {platform} (w : SimHost platform) : SimHost platform :=
  mkSimHost (sim_ifaces w) (sim_shell w) (sim_popen w) (tl (sim_procs w)).

#[export] Instance SimHost_Host (platform : string) : Host (SimHost platform) :=
  {| sys_platform := platform;
     netifaces_interfaces := fun w => map fst (sim_ifaces w);
     netifaces_inet := sim_inet;
     subprocess_call := sim_call;
     popen_communicate := sim_communicate;
     bytes_decode := ascii_decode;
     process_iter := fun w => hd [] (sim_procs w);
     process_kill := sim_kill;
     time_sleep := sim_sleep |}.

(** *** Scenarios *)

(** the three aliases of the default cluster, as Linux shows them *)
Definition linux_aliases : iface_table :=
  [ ("lo", Some ["127.0.0.1"]);
    ("lo:auth_test0", Some ["127.0.5.1"]);
    ("lo:auth_test1", Some ["127.0.5.2"]);
    ("lo:auth_test2", Some ["127.0.5.3"]);
    ("eth0", Some ["10.0.0.7"]) ].

(** a loopback without aliases *)
Definition bare_loopback : iface_table :=
  [ ("lo", Some ["127.0.0.1"]); ("eth0", Some ["10.0.0.7"]) ].

(** the second alias is missing *)
Definition linux_aliases_gap : iface_table :=
  [ ("lo", Some ["127.0.0.1"]);
    ("lo:auth_test0", Some ["127.0.5.1"]);
    ("lo:auth_test2", Some ["127.0.5.3"]) ].

Definition cassandra_node (n : Z) (cluster : string) : Process :=
  {| pid := 4000 + n;
     pname := "java";
     pcmdline := Some ["java"; "-Dcassandra.config=/home/t/.ccm/" ++ cluster;
                       CassandraDaemon] |}.

Definition ccm_create_sess : string :=
  "ccm create sess --nodes 3 -v 3.7 -i '127.0.5.' --start --no-switch".

(** a Linux host on which everything works: aliases in place, [ccm create]
    and [ccm remove] succeed, the node processes are gone after one sleep *)
Definition linux_ready : SimHost "linux" :=
  mkSimHost linux_aliases
    [ ("ccm remove sess", (0, linux_aliases));
      ("sudo ifconfig lo:auth_test0 down", (0, linux_aliases));
      ("sudo ifconfig lo:auth_test1 down", (0, linux_aliases));
      ("sudo ifconfig lo:auth_test2 down", (0, linux_aliases)) ]
    [ (ccm_create_sess, Completed EmptyString EmptyString 0) ]
    [ [cassandra_node 1 "sess"; cassandra_node 2 "sess"]; [] ].

(** the same host with [ccm create] failing with exit code 2 *)
Definition linux_ccm_fails : SimHost "linux" :=
  mkSimHost linux_aliases []
    [ (ccm_create_sess, Completed "starting" "node1: address in use" 2) ]
    [ [] ].

(** a Linux host without the aliases *)
Definition linux_bare : SimHost "linux" :=
  mkSimHost bare_loopback [] [ (ccm_create_sess, Completed EmptyString EmptyString 0) ] [ [] ].

Definition linux_gap : SimHost "linux" :=
  mkSimHost linux_aliases_gap [] [] [ [] ].

(** a Linux host on which [ifconfig] exits with 0 and the alias still does
    not show under the name the check looks for *)
Definition linux_silent_ifconfig : SimHost "linux" :=
  mkSimHost bare_loopback
    [ ("sudo ifconfig lo:auth_test0 127.0.5.1 netmask 255.0.0.0 up",
       (0, bare_loopback));
      ("sudo ifconfig lo:auth_test1 127.0.5.2 netmask 255.0.0.0 up",
       (0, bare_loopback));
      ("sudo ifconfig lo:auth_test2 127.0.5.3 netmask 255.0.0.0 up",
       (0, bare_loopback)) ]
    [] [ [] ].

Definition sess_cluster : CCMCluster := set_name CCMCluster_default "sess".

Definition with_manage_interfaces (c : CCMCluster) (b : bool) : CCMCluster :=
  {| name := name c;
     nodes := nodes c;
     debug := debug c;
     initialized := initialized c;
     manage_cluster := manage_cluster c;
     manage_interfaces := b;
     killall := killall c;
     ip_prefix := ip_prefix c;
     cluster_platforms := cluster_platforms c |}.

Definition with_nodes (c : CCMCluster) (n : Z) : CCMCluster :=
  {| name := name c;
     nodes := n;
     debug := debug c;
     initialized := initialized c;
     manage_cluster := manage_cluster c;
     manage_interfaces := manage_interfaces c;
     killall := killall c;
     ip_prefix := ip_prefix c;
     cluster_platforms := cluster_platforms c |}.

(** the module-level singleton, [CCMCluster(manage_interfaces=False)] *)
Definition ccm_cluster : CCMCluster :=
  with_manage_interfaces CCMCluster_default false.

(** ** The exit status of the test run

    [pytest.exit(msg, returncode=None)]: the first positional argument is
    the message shown to the operator; the run ends with [returncode] when
    one is given and with pytest's [INTERRUPTED] status, 2, otherwise. Every
    call in this module passes one positional argument and no [returncode];
    that argument is what [PytestExit] carries. *)

Definition EXIT_INTERRUPTED : Z := 2.

(** the status the test run ends with, for an outcome that ends it *)
Definition session_exit_status {A} (o : outcome A) : option Z :=
  match o with
  | PytestExit _ => Some EXIT_INTERRUPTED
  | _ => None
  end.

(** ** Further readings of a run *)

(** the command lines a run started through [Popen], in order *)
Fixpoint popens (t : list event) : list string :=
  match t with
  | [] => []
  | Popen cmd :: rest => cmd :: popens rest
  | _ :: rest => popens rest
  end.

Definition not_popen (e : event) : Prop :=
  match e with
  | Popen _ => False
  | _ => True
  end.

(** the kill of the [ccm create] subprocess *)
Definition not_popen_kill (e : event) : Prop := e <> PopenKill.

(** the pids killed by a run, in order *)
Fixpoint kills (t : list event) : list Z :=
  match t with
  | [] => []
  | ProcessKill victim :: rest => victim :: kills rest
  | _ :: rest => kills rest
  end.

(** how many times a run slept *)
Fixpoint sleeps (t : list event) : nat :=
  match t with
  | [] => O
  | Sleep :: rest => S (sleeps rest)
  | _ :: rest => sleeps rest
  end.

Definition not_kill (e : event) : Prop :=
  match e with
  | ProcessKill _ => False
  | _ => True
  end.

Definition not_shell (e : event) : Prop :=
  match e with
  | SubprocessCall _ => False
  | _ => True
  end.

Definition is_debug_log (e : event) : Prop :=
  match e with
  | Log level _ => level = "debug"
  | _ => False
  end.

(** the pairs the loops of [_loopbacks] collect over [ifaces], or [None]
    when one of the interfaces has no [AF_INET] entry *)
Fixpoint bound_pairs (inet : string -> option (list string))
  (ifaces : list string) : option (list (string * string)) :=
  match ifaces with
  | [] => Some []
  | iface :: rest =>
      match inet iface with
      | None => None
      | Some netaddrs =>
          match bound_pairs inet rest with
          | None => None
          | Some pairs => Some (map (pair iface) netaddrs ++ pairs)%list
          end
      end
  end.

(** invariants of the cluster object: the two opt-in switches are off *)
Definition killall_off (c : CCMCluster) : Prop := killall c = false.
Definition unmanaged (c : CCMCluster) : Prop := manage_interfaces c = false.


Section Invariants.

Context {W : Type} {HW : Host W}.

(** the host's interfaces of the loopback family *)
Definition lo_interfaces (w : W) : list string :=
  filter (fun iface => Py.startswith iface "lo") (netifaces_interfaces w).

(** [keeps I P m]: a run of [m] from a cluster object that satisfies [I]
    ends in one that satisfies [I] and emits only events that satisfy [P] *)
Definition keeps {A} (I : CCMCluster -> Prop) (P : event -> Prop)
  (m : M W A) : Prop :=
  forall s, I (self s) ->
            I (self (state_of (m s))) /\ Forall P (trace_of (m s)).

End Invariants.

(** *** More scenarios *)


(** a loopback-family interface without an IPv4 address *)
Definition linux_lo_without_inet : SimHost "linux" :=
  mkSimHost [ ("lo", Some ["127.0.0.1"]); ("lo1", None) ] [] [] [ [] ].

(** the daemon of another cluster, a node whose command line cannot be
    read, and a process that is not [java] *)
Definition mixed_table : list Process :=
  [ cassandra_node 1 "sess";
    cassandra_node 2 "other";
    {| pid := 4100; pname := "java"; pcmdline := None |};
    {| pid := 4200; pname := "python";
       pcmdline := Some ["python"; "sess"; CassandraDaemon] |};
    cassandra_node 3 "sess" ].

Definition linux_mixed : SimHost "linux" :=
  mkSimHost linux_aliases
    [ ("ccm remove sess", (1, linux_aliases)) ]
    [ (ccm_create_sess, Completed EmptyString EmptyString 0) ]
    [ mixed_table; [] ].

Definition with_killall (c : CCMCluster) (b : bool) : CCMCluster :=
  {| name := name c;
     nodes := nodes c;
     debug := debug c;
     initialized := initialized c;
     manage_cluster := manage_cluster c;
     manage_interfaces := manage_interfaces c;
     killall := b;
     ip_prefix := ip_prefix c;
     cluster_platforms := cluster_platforms c |}.

(** [ccm create] fails with exit code 1 *)
Definition linux_ccm_exits_1 : SimHost "linux" :=
  mkSimHost linux_aliases []
    [ (ccm_create_sess, Completed "starting" "node1: address in use" 1) ]
    [ [] ].

(** waiting for [ccm create] raises *)
Definition linux_ccm_wait_raises : SimHost "linux" :=
  mkSimHost linux_aliases [] [ (ccm_create_sess, CommunicateRaised) ] [ [] ].

(** a Linux host on which [ifconfig] works: each add command leaves the
    aliases created so far; the third removal fails *)
Definition linux_ifconfig_works : SimHost "linux" :=
  mkSimHost bare_loopback
    [ ("sudo ifconfig lo:auth_test0 127.0.5.1 netmask 255.0.0.0 up",
       (0, [ ("lo", Some ["127.0.0.1"]);
             ("lo:auth_test0", Some ["127.0.5.1"]) ]));
      ("sudo ifconfig lo:auth_test1 127.0.5.2 netmask 255.0.0.0 up",
       (0, [ ("lo", Some ["127.0.0.1"]);
             ("lo:auth_test0", Some ["127.0.5.1"]);
             ("lo:auth_test1", Some ["127.0.5.2"]) ]));
      ("sudo ifconfig lo:auth_test2 127.0.5.3 netmask 255.0.0.0 up",
       (0, linux_aliases));
      ("sudo ifconfig lo:auth_test0 down", (0, linux_aliases));
      ("sudo ifconfig lo:auth_test1 down", (3, linux_aliases)) ]
    [] [ [] ].

(** * Verification *)

(** ** Facts about the primitives *)

Section PyFacts.

Lemma startswith_spec s p :
  Py.startswith s p = true <-> exists post, s = p ++ post.
Proof.
  revert s; induction p as [|c p IH]; intros s; simpl.
  - split; [intros _; now exists s | reflexivity].
  - destruct s as [|d s].
    + split; [discriminate | intros [post H]; discriminate].
    + rewrite andb_true_iff, Ascii.eqb_eq, IH. split.
      * intros [-> [post ->]]. now exists post.
      * intros [post H]. injection H as -> ->. split; [reflexivity | now exists post].
Qed.

Lemma find_from_unfold s sub i :
  Py.find_from s sub i =
  if Py.startswith s sub then i
  else match s with
       | EmptyString => -1
       | String _ s' => Py.find_from s' sub (i + 1)
       end.
Proof. destruct s; reflexivity. Qed.

Lemma find_from_hit s sub i :
  0 <= i -> Py.find_from s sub i <> -1 -> contains s sub.
Proof.
  revert i; induction s as [|a s IH]; intros i Hi; simpl.
  - destruct sub as [|c sub]; simpl.
    + intros _. exists EmptyString, EmptyString. reflexivity.
    + intros H. now contradiction H.
  - destruct (Py.startswith (String a s) sub) eqn:E.
    + intros _. apply startswith_spec in E as [post E].
      exists EmptyString, post. exact E.
    + intros H. apply IH in H; [|lia].
      destruct H as (pre & post & ->). exists (String a pre), post. reflexivity.
Qed.

Lemma find_from_range s sub i :
  0 <= i -> Py.find_from s sub i = -1 \/ i <= Py.find_from s sub i.
Proof.
  revert i; induction s as [|a s IH]; intros i Hi; simpl.
  - destruct (Py.startswith EmptyString sub); [right; lia | now left].
  - destruct (Py.startswith (String a s) sub); [right; lia|].
    destruct (IH (i + 1)) as [H|H]; [lia | now left | right; lia].
Qed.

Lemma find_from_miss s sub i :
  0 <= i -> contains s sub -> Py.find_from s sub i <> -1.
Proof.
  intros Hi (pre & post & ->). revert i Hi.
  induction pre as [|a pre IH]; intros i Hi.
  - assert (E : Py.startswith (sub ++ post) sub = true)
      by (apply startswith_spec; now exists post).
    rewrite find_from_unfold. simpl. rewrite E. lia.
  - simpl. destruct (Py.startswith _ sub); [lia|].
    apply IH. lia.
Qed.

Lemma find_spec s sub : Py.find s sub <> -1 <-> contains s sub.
Proof.
  unfold Py.find. split.
  - apply find_from_hit. lia.
  - apply find_from_miss. lia.
Qed.

Lemma str_in_spec x l : Py.str_in x l = true <-> In x l.
Proof.
  unfold Py.str_in. rewrite existsb_exists. split.
  - intros (y & Hy & E). apply String.eqb_eq in E. now subst.
  - intros H. exists x. split; [exact H | apply String.eqb_refl].
Qed.

Lemma pair_in_spec p l : Py.pair_in p l = true <-> In p l.
Proof.
  unfold Py.pair_in, Py.pair_eqb. rewrite existsb_exists. split.
  - intros ([a b] & Hy & E). destruct p as [x y]. simpl in E.
    apply andb_true_iff in E as [E1 E2].
    apply String.eqb_eq in E1, E2. now subst.
  - intros H. exists p. split; [exact H|].
    now rewrite !String.eqb_refl.
Qed.

Lemma range_spec n i : In i (Py.range n) <-> 0 <= i < n.
Proof.
  unfold Py.range. rewrite in_map_iff. split.
  - intros (k & <- & Hk). apply in_seq in Hk. lia.
  - intros H. exists (Z.to_nat i). split; [lia|]. apply in_seq. lia.
Qed.

Lemma range_NoDup n : NoDup (Py.range n).
Proof.
  unfold Py.range. apply Injective_map_NoDup.
  - intros a b H. lia.
  - apply seq_NoDup.
Qed.

Lemma range_nth n i :
  0 <= i < n -> nth_error (Py.range n) (Z.to_nat i) = Some i.
Proof.
  intros H. unfold Py.range.
  rewrite nth_error_map, nth_error_seq.
  destruct (Nat.ltb_spec (Z.to_nat i) (Z.to_nat n)); [|lia].
  simpl. f_equal. lia.
Qed.

Lemma range_length n : List.length (Py.range n) = Z.to_nat n.
Proof. unfold Py.range. now rewrite length_map, length_seq. Qed.

(** the decimal rendering can be read back: distinct numbers print
    differently *)
Lemma str_of_int_inj a b : Py.str_of_int a = Py.str_of_int b -> a = b.
Proof.
  unfold Py.str_of_int. intros H.
  assert (E : NilZero.int_of_string (NilZero.string_of_int (Z.to_int a))
              = NilZero.int_of_string (NilZero.string_of_int (Z.to_int b)))
    by now rewrite H.
  assert (N : forall z, Z.to_int z <> Pos Nil /\ Z.to_int z <> Neg Nil).
  { intros z. destruct z; simpl; split; try discriminate;
      intros C; injection C as C;
      now apply Unsigned.to_uint_nonnil in C. }
  rewrite !NilZero.isi in E by apply N.
  injection E as E. rewrite <- (of_to a), <- (of_to b). now rewrite E.
Qed.

Lemma append_inv_head (p a b : string) : p ++ a = p ++ b -> a = b.
Proof.
  induction p as [|c p IH]; simpl; intros H; [exact H|].
  injection H as H. now apply IH.
Qed.

Lemma append_assoc (a b c : string) : (a ++ b) ++ c = a ++ (b ++ c).
Proof. induction a as [|x a IH]; simpl; [reflexivity | now rewrite IH]. Qed.

(** two strings free of [c] that are followed by [c] in equal texts are
    equal *)
Lemma split_at_first (c : ascii) (a b r1 r2 : string) :
  ~ mentions c a -> ~ mentions c b ->
  a ++ String c r1 = b ++ String c r2 -> a = b.
Proof.
  revert b. induction a as [|x a IH]; intros [|y b] Ha Hb H; simpl in *.
  - reflexivity.
  - injection H as H _. contradiction Hb. left. now symmetry.
  - injection H as H _. contradiction Ha. now left.
  - injection H as -> H. f_equal. apply IH; auto.
Qed.

Lemma string_of_uint_no_space u :
  ~ mentions " " (NilEmpty.string_of_uint u).
Proof.
  induction u; simpl; intros C; try exact C;
    destruct C as [C | C]; try discriminate; now apply IHu.
Qed.

(** the decimal rendering of an integer holds no space *)
Lemma str_of_int_no_space n : ~ mentions " " (Py.str_of_int n).
Proof.
  unfold Py.str_of_int, NilZero.string_of_int, NilZero.string_of_uint.
  destruct (Z.to_int n) as [u | u]; destruct u; simpl; intros C;
    repeat (destruct C as [C | C]; try discriminate);
    try exact C; now apply (string_of_uint_no_space _ C).
Qed.

End PyFacts.

(** ** Node addresses *)

Example mkaddr_default_0 : _mkaddr CCMCluster_default 0 = "127.0.5.1".
Proof. reflexivity. Qed.

Example hosts_cfg_default :
  hosts_cfg CCMCluster_default = "127.0.5.1, 127.0.5.2, 127.0.5.3".
Proof. reflexivity. Qed.

Example cmdline_matches_ex :
  _cmdline_matches (set_name CCMCluster_default "sess")
    ["java"; "-Dcassandra.config=/tmp/sess/node1"; CassandraDaemon] = true.
Proof. reflexivity. Qed.

Example cmdline_no_daemon_ex :
  _cmdline_matches (set_name CCMCluster_default "sess")
    ["java"; "-Dcassandra.config=/tmp/sess/node1"] = false.
Proof. reflexivity. Qed.

Example cmdline_no_name_ex :
  _cmdline_matches (set_name CCMCluster_default "sess")
    ["java"; "-Dcassandra.config=/tmp/other/node1"; CassandraDaemon] = false.
Proof. reflexivity. Qed.
(** ** Running the monad *)

Section Verification.

Context {W : Type} {HW : Host W}.

Local Abbreviation quiet := (quiet (W:=W)).
Local Abbreviation halts := (halts (W:=W)).
Local Abbreviation avoids := (avoids (W:=W)).

Lemma run_bind {A B} (m : M W A) (f : A -> M W B) s a s1 t1 :
  m s = (Return a, s1, t1) ->
  bind m f s =
  (outcome_of (f a s1), state_of (f a s1), (t1 ++ trace_of (f a s1))%list).
Proof.
  intros E. unfold bind. rewrite E.
  destruct (f a s1) as [[o s2] t2]. reflexivity.
Qed.

Lemma run_bind_pure {A B} (m : M W A) (f : A -> M W B) s a :
  m s = (Return a, s, []) -> bind m f s = f a s.
Proof.
  intros E. unfold bind. rewrite E.
  destruct (f a s) as [[o s2] t2]. reflexivity.
Qed.

Lemma triple_eta {A} (r : outcome A * St W * list event) :
  r = (outcome_of r, state_of r, trace_of r).
Proof. destruct r as [[o s] t]. reflexivity. Qed.

Lemma set_initialized_id c :
  initialized c = true -> set_initialized c true = c.
Proof. destruct c; simpl; intros ->; reflexivity. Qed.

(** ** Frames *)

Lemma quiet_ret {A} P (a : A) : quiet P (ret a).
Proof. intros s. split; [reflexivity | constructor]. Qed.

Lemma quiet_raise {A} P e : quiet P (@raise W A e).
Proof. intros s. split; [reflexivity | constructor]. Qed.

Lemma quiet_pytest_exit {A} P code : quiet P (@pytest_exit W A code).
Proof. intros s. split; [reflexivity | constructor]. Qed.

Lemma quiet_out_of_fuel {A} P : quiet P (@out_of_fuel W A).
Proof. intros s. split; [reflexivity | constructor]. Qed.

Lemma quiet_get_self P : quiet P get_self.
Proof. intros s. split; [reflexivity | constructor]. Qed.

Lemma quiet_get_host P : quiet P get_host.
Proof. intros s. split; [reflexivity | constructor]. Qed.

Lemma quiet_emit (P : event -> Prop) e : P e -> quiet P (emit e).
Proof. intros H s. split; [reflexivity | repeat constructor; exact H]. Qed.

Lemma quiet_on_host {A} (P : event -> Prop) e (f : W -> A * W) :
  P e -> quiet P (on_host e f).
Proof.
  intros H s. unfold on_host. destruct (f (host s)) as [a w].
  split; [reflexivity | repeat constructor; exact H].
Qed.

Lemma quiet_bind {A B} P (m : M W A) (f : A -> M W B) :
  quiet P m -> (forall a, quiet P (f a)) -> quiet P (bind m f).
Proof.
  intros Hm Hf s. unfold bind.
  destruct (Hm s) as [E1 T1]. destruct (m s) as [[o s1] t1].
  unfold state_of, trace_of in *; simpl in *.
  destruct o; try (split; assumption).
  destruct (Hf a s1) as [E2 T2]. destruct (f a s1) as [[o2 s2] t2].
  unfold state_of, trace_of in *; simpl in *.
  split; [congruence | apply Forall_app; split; assumption].
Qed.

Lemma quiet_for_in {A S} P (l : list A) (body : A -> S -> M W S) :
  (forall x acc, quiet P (body x acc)) ->
  forall acc, quiet P (for_in l acc body).
Proof.
  intros Hb. induction l as [|x l IH]; intros acc; simpl.
  - apply quiet_ret.
  - apply quiet_bind; [apply Hb | intros a; apply IH].
Qed.

Lemma quiet_try_finally {A} P (body : M W A) (fin : M W unit) :
  quiet P body -> quiet P fin -> quiet P (try_finally body fin).
Proof.
  intros Hb Hf s. unfold try_finally.
  destruct (Hb s) as [E1 T1]. destruct (body s) as [[o s1] t1].
  unfold state_of, trace_of in *; simpl in *.
  destruct (Hf s1) as [E2 T2].
  destruct o; try (split; assumption);
    destruct (fin s1) as [[o2 s2] t2];
    unfold state_of, trace_of in *; simpl in *;
    destruct o2; simpl;
    (split; [congruence | apply Forall_app; split; assumption]).
Qed.

Lemma halts_ret {A} (a : A) : halts (ret a).
Proof. intros s; discriminate. Qed.

Lemma halts_raise {A} e : halts (@raise W A e).
Proof. intros s; discriminate. Qed.

Lemma halts_pytest_exit {A} code : halts (@pytest_exit W A code).
Proof. intros s; discriminate. Qed.

Lemma halts_get_self : halts get_self.
Proof. intros s; discriminate. Qed.

Lemma halts_get_host : halts get_host.
Proof. intros s; discriminate. Qed.

Lemma halts_put_self c : halts (put_self c).
Proof. intros s; discriminate. Qed.

Lemma halts_emit e : halts (emit e).
Proof. intros s; discriminate. Qed.

Lemma halts_on_host {A} e (f : W -> A * W) : halts (on_host e f).
Proof.
  intros s. unfold on_host. destruct (f (host s)). discriminate.
Qed.

Lemma halts_bind {A B} (m : M W A) (f : A -> M W B) :
  halts m -> (forall a, halts (f a)) -> halts (bind m f).
Proof.
  intros Hm Hf s. unfold bind.
  specialize (Hm s). destruct (m s) as [[o s1] t1].
  unfold outcome_of in *; simpl in *.
  destruct o; try discriminate; [|contradiction].
  specialize (Hf a s1). destruct (f a s1) as [[o2 s2] t2]. exact Hf.
Qed.

Lemma halts_for_in {A S} (l : list A) (body : A -> S -> M W S) :
  (forall x acc, halts (body x acc)) ->
  forall acc, halts (for_in l acc body).
Proof.
  intros Hb. induction l as [|x l IH]; intros acc; simpl.
  - apply halts_ret.
  - apply halts_bind; [apply Hb | intros a; apply IH].
Qed.

Lemma halts_try_finally {A} (body : M W A) (fin : M W unit) :
  halts body -> halts fin -> halts (try_finally body fin).
Proof.
  intros Hb Hf s. unfold try_finally.
  specialize (Hb s). destruct (body s) as [[o s1] t1].
  specialize (Hf s1).
  unfold outcome_of in *; simpl in *.
  destruct o; try contradiction;
    destruct (fin s1) as [[o2 s2] t2]; simpl in *;
    destruct o2; simpl; (discriminate || contradiction).
Qed.

(** one step of a frame proof: split the program at its head, case on the
    tests it makes *)
Ltac frame_step :=
  match goal with
  | |- quiet _ (bind _ _) => apply quiet_bind; [|intros ?]
  | |- quiet _ (for_in _ _ _) => apply quiet_for_in; intros ? ?
  | |- quiet _ (try_finally _ _) => apply quiet_try_finally
  | |- quiet _ (ret _) => apply quiet_ret
  | |- quiet _ (raise _) => apply quiet_raise
  | |- quiet _ (pytest_exit _) => apply quiet_pytest_exit
  | |- quiet _ out_of_fuel => apply quiet_out_of_fuel
  | |- quiet _ get_self => apply quiet_get_self
  | |- quiet _ get_host => apply quiet_get_host
  | |- quiet _ (emit _) => apply quiet_emit; try reflexivity
  | |- quiet _ (on_host _ _) => apply quiet_on_host; try reflexivity
  | |- halts (bind _ _) => apply halts_bind; [|intros ?]
  | |- halts (for_in _ _ _) => apply halts_for_in; intros ? ?
  | |- halts (try_finally _ _) => apply halts_try_finally
  | |- halts (ret _) => apply halts_ret
  | |- halts (raise _) => apply halts_raise
  | |- halts (pytest_exit _) => apply halts_pytest_exit
  | |- halts get_self => apply halts_get_self
  | |- halts get_host => apply halts_get_host
  | |- halts (put_self _) => apply halts_put_self
  | |- halts (emit _) => apply halts_emit
  | |- halts (on_host _ _) => apply halts_on_host
  | |- quiet _ (if ?b then _ else _) => destruct b
  | |- halts (if ?b then _ else _) => destruct b
  | |- quiet _ (match ?x with _ => _ end) => destruct x
  | |- halts (match ?x with _ => _ end) => destruct x
  end.

Ltac frame := repeat frame_step; auto.

Create HintDb frames.

Lemma quiet__loopback_interfaces P prefix : quiet P (_loopback_interfaces prefix).
Proof. unfold _loopback_interfaces. frame. Qed.

Lemma halts__loopback_interfaces prefix : halts (_loopback_interfaces prefix).
Proof. unfold _loopback_interfaces. frame. Qed.

Lemma quiet__loopbacks P : quiet P _loopbacks.
Proof.
  unfold _loopbacks. frame_step; [apply quiet__loopback_interfaces|]. frame.
Qed.

Lemma halts__loopbacks : halts _loopbacks.
Proof.
  unfold _loopbacks. frame_step; [apply halts__loopback_interfaces|]. frame.
Qed.

Lemma quiet__platform P : quiet P _platform.
Proof. unfold _platform. frame. Qed.

Lemma halts__platform : halts _platform.
Proof. unfold _platform. frame. Qed.

Hint Resolve quiet__loopbacks halts__loopbacks quiet__platform halts__platform
  : frames.

Lemma quiet__mkiface x : quiet not_creation (_mkiface x).
Proof. unfold _mkiface. frame_step; [auto with frames|]. frame. Qed.

Lemma halts__mkiface x : halts (_mkiface x).
Proof. unfold _mkiface. frame_step; [auto with frames|]. frame. Qed.

Lemma quiet__add_ip_cmd i a : quiet not_creation (_add_ip_cmd i a).
Proof. unfold _add_ip_cmd. frame_step; [auto with frames|]. frame. Qed.

Lemma halts__add_ip_cmd i a : halts (_add_ip_cmd i a).
Proof. unfold _add_ip_cmd. frame_step; [auto with frames|]. frame. Qed.

Lemma quiet__add_ip_addr i a : quiet not_creation (_add_ip_addr i a).
Proof.
  unfold _add_ip_addr. frame_step; [auto with frames|].
  unfold Platform_add_ip_addr, call, stderr_write, stderr_flush. frame.
Qed.

Lemma halts__add_ip_addr i a : halts (_add_ip_addr i a).
Proof.
  unfold _add_ip_addr. frame_step; [auto with frames|].
  unfold Platform_add_ip_addr, call, stderr_write, stderr_flush. frame.
Qed.

Lemma quiet__rm_ip_addr i a : quiet not_creation (_rm_ip_addr i a).
Proof.
  unfold _rm_ip_addr. frame_step; [auto with frames|].
  unfold Platform_rm_ip_addr, call, stderr_write, stderr_flush. frame.
Qed.

Lemma halts__rm_ip_addr i a : halts (_rm_ip_addr i a).
Proof.
  unfold _rm_ip_addr. frame_step; [auto with frames|].
  unfold Platform_rm_ip_addr, call, stderr_write, stderr_flush. frame.
Qed.

Hint Resolve quiet__mkiface halts__mkiface quiet__add_ip_cmd halts__add_ip_cmd
  quiet__add_ip_addr halts__add_ip_addr quiet__rm_ip_addr halts__rm_ip_addr
  : frames.

Lemma quiet__check_loopbacks : quiet not_creation _check_loopbacks.
Proof.
  unfold _check_loopbacks, stderr_write, stderr_flush.
  frame_step; [auto with frames|].
  repeat (frame_step; auto with frames).
Qed.

Lemma halts__check_loopbacks : halts _check_loopbacks.
Proof.
  unfold _check_loopbacks, stderr_write, stderr_flush.
  frame_step; [auto with frames|].
  repeat (frame_step; auto with frames).
Qed.

Lemma quiet__setup_loopbacks : quiet not_creation _setup_loopbacks.
Proof.
  unfold _setup_loopbacks, lookup_a, stderr_write, stderr_flush.
  frame_step; [auto with frames|].
  repeat (frame_step; auto with frames).
Qed.

Lemma halts__setup_loopbacks : halts _setup_loopbacks.
Proof.
  unfold _setup_loopbacks, lookup_a, stderr_write, stderr_flush.
  frame_step; [auto with frames|].
  repeat (frame_step; auto with frames).
Qed.

Lemma quiet__teardown_loopbacks n : quiet not_creation (_teardown_loopbacks n).
Proof.
  unfold _teardown_loopbacks. repeat (frame_step; auto with frames).
Qed.

Lemma halts__teardown_loopbacks n : halts (_teardown_loopbacks n).
Proof.
  unfold _teardown_loopbacks. repeat (frame_step; auto with frames).
Qed.

Lemma quiet__inspect p : quiet not_creation (_inspect p).
Proof. unfold _inspect. frame. Qed.

Lemma halts__inspect p : halts (_inspect p).
Proof. unfold _inspect. frame. Qed.

Hint Resolve quiet__inspect halts__inspect : frames.

Lemma quiet__cassandra_processes : quiet not_creation _cassandra_processes.
Proof.
  unfold _cassandra_processes. repeat (frame_step; auto with frames).
Qed.

Lemma halts__cassandra_processes : halts _cassandra_processes.
Proof.
  unfold _cassandra_processes. repeat (frame_step; auto with frames).
Qed.

Lemma quiet__kill_all : quiet not_creation _kill_all.
Proof. unfold _kill_all. repeat (frame_step; auto with frames). Qed.

Lemma halts__kill_all : halts _kill_all.
Proof. unfold _kill_all. repeat (frame_step; auto with frames). Qed.

Hint Resolve quiet__check_loopbacks halts__check_loopbacks
  quiet__setup_loopbacks halts__setup_loopbacks
  quiet__teardown_loopbacks halts__teardown_loopbacks
  quiet__cassandra_processes halts__cassandra_processes
  quiet__kill_all halts__kill_all : frames.

Lemma quiet__check_state : quiet not_creation _check_state.
Proof. unfold _check_state. repeat (frame_step; auto with frames). Qed.

Lemma halts__check_state : halts _check_state.
Proof. unfold _check_state. repeat (frame_step; auto with frames). Qed.

Lemma halts__create_cluster : halts _create_cluster.
Proof.
  unfold _create_cluster, decode, stdout_write, stdout_flush,
    stderr_write, stderr_flush.
  frame.
Qed.

Lemma creations_quiet t : Forall not_creation t -> creations t = 0%nat.
Proof.
  unfold creations. induction 1 as [|e t He _ IH]; simpl; [reflexivity|].
  unfold not_creation in He. rewrite He. exact IH.
Qed.

Lemma creations_cons e t :
  creations (e :: t) =
  ((if is_creation e then 1 else 0) + creations t)%nat.
Proof. unfold creations. simpl. destruct (is_creation e); reflexivity. Qed.

Lemma creations_app t1 t2 :
  creations (t1 ++ t2) = (creations t1 + creations t2)%nat.
Proof. unfold creations. now rewrite filter_app, length_app. Qed.

Lemma enter_creation_then {A} (k : M W A) s :
  quiet not_creation k ->
  let r := bind (emit (Enter "_create_cluster")) (fun _ => k) s in
  self (state_of r) = self s /\ creations (trace_of r) = 1%nat.
Proof.
  intros Q. unfold bind, emit. destruct (Q s) as [E T].
  destruct (k s) as [[o s1] t1].
  unfold state_of, trace_of in *; simpl in *.
  split; [exact E|].
  rewrite creations_cons, (creations_quiet _ T). reflexivity.
Qed.

(** [_create_cluster] keeps the cluster object and enters exactly once *)
Lemma _create_cluster_frame s :
  self (state_of (_create_cluster s)) = self s /\
  creations (trace_of (_create_cluster s)) = 1%nat.
Proof.
  unfold _create_cluster. apply enter_creation_then.
  unfold decode, stdout_write, stdout_flush, stderr_write, stderr_flush.
  frame.
Qed.

Lemma quiet__wait_gone fuel : quiet not_creation (_wait_gone fuel).
Proof.
  induction fuel as [|fuel IH]; simpl.
  - frame.
  - repeat (frame_step; auto with frames).
Qed.

Lemma quiet__remove_cluster fuel : quiet not_creation (_remove_cluster fuel).
Proof.
  unfold _remove_cluster, call. frame. apply quiet__wait_gone.
Qed.

(** ** The life cycle, unfolded *)

Lemma setup_initialized args s :
  initialized (self s) = true -> setup args s = (Return (Some true), s, []).
Proof. intros H. unfold setup, bind, get_self, ret. simpl. now rewrite H. Qed.

Lemma run_bind_silent {A B} (m : M W A) (f : A -> M W B) s a s1 :
  m s = (Return a, s1, []) -> bind m f s = f a s1.
Proof.
  intros E. unfold bind. rewrite E.
  destruct (f a s1) as [[o s2] t2]. reflexivity.
Qed.

Lemma setup_uninitialized args s :
  initialized (self s) = false ->
  setup args s =
  bind _check_state (fun _ => setup_create) (record_name args s).
Proof.
  intros Hi. unfold setup.
  rewrite (run_bind_silent get_self _ s (self s) s eq_refl). rewrite Hi.
  rewrite (run_bind_silent _ _ s tt (record_name args s));
    [reflexivity | destruct args; reflexivity].
Qed.

Lemma setup_create_run s :
  setup_create s =
  (falls_off (outcome_of (_create_cluster s)),
   mark_initialized (state_of (_create_cluster s)),
   trace_of (_create_cluster s)).
Proof.
  unfold setup_create, bind at 1, try_finally.
  pose proof (halts__create_cluster s) as Hh.
  destruct (_create_cluster s) as [[o s2] t2].
  unfold outcome_of, state_of, trace_of, mark_initialized in *; simpl in *.
  destruct o; simpl; rewrite ?app_nil_r; try reflexivity.
  now contradiction Hh.
Qed.

(** an uninitialized [setup] whose state check does not return stops there,
    with the flag as it was *)
Lemma setup_check_aborts args s :
  initialized (self s) = false ->
  (forall u, outcome_of (_check_state (record_name args s)) <> Return u) ->
  let r0 := _check_state (record_name args s) in
  setup args s = (falls_off (outcome_of r0), state_of r0, trace_of r0).
Proof.
  intros Hi Hc r0. subst r0. rewrite (setup_uninitialized _ _ Hi).
  unfold bind.
  destruct (_check_state (record_name args s)) as [[o s1] t1].
  unfold outcome_of, state_of, trace_of in *; simpl in *.
  destruct o; try reflexivity.
  now contradiction (Hc a).
Qed.

(** an uninitialized [setup] whose state check returns runs the creation
    and marks the flag, whatever the creation does *)
Lemma setup_check_passes args s s1 t1 :
  initialized (self s) = false ->
  _check_state (record_name args s) = (Return tt, s1, t1) ->
  let r2 := _create_cluster s1 in
  setup args s =
  (falls_off (outcome_of r2), mark_initialized (state_of r2),
   (t1 ++ trace_of r2)%list).
Proof.
  intros Hi Hc r2. subst r2. rewrite (setup_uninitialized _ _ Hi).
  rewrite (run_bind _ _ _ _ _ _ Hc), setup_create_run. reflexivity.
Qed.

(** the three ways a call of [setup] can go *)
Lemma setup_cases args s :
  let r := setup args s in
  (initialized (self s) = true /\ r = (Return (Some true), s, [])) \/
  (initialized (self s) = false /\
   (forall u, outcome_of (_check_state (record_name args s)) <> Return u) /\
   (forall v, outcome_of r <> Return v) /\
   initialized (self (state_of r)) = false /\
   creations (trace_of r) = 0%nat) \/
  (initialized (self s) = false /\
   outcome_of (_check_state (record_name args s)) = Return tt /\
   outcome_of r =
     falls_off (outcome_of (_create_cluster
                              (state_of (_check_state (record_name args s))))) /\
   initialized (self (state_of r)) = true /\
   creations (trace_of r) = 1%nat).
Proof.
  intros r. subst r.
  destruct (initialized (self s)) eqn:Hi.
  { left. split; [reflexivity | now apply setup_initialized]. }
  right.
  destruct (quiet__check_state (record_name args s)) as [Eself Tq].
  destruct (_check_state (record_name args s)) as [[o s1] t1] eqn:Ec.
  unfold state_of, trace_of in Eself, Tq; simpl in Eself, Tq.
  assert (Hrec : initialized (self (record_name args s)) = false)
    by (destruct args; simpl; exact Hi).
  destruct o as [[]| e | code |].
  - right.
    rewrite (setup_check_passes args s s1 t1 Hi Ec).
    destruct (_create_cluster_frame s1) as [_ C1].
    unfold outcome_of, state_of, trace_of in *; simpl.
    repeat split; try reflexivity.
    rewrite creations_app, (creations_quiet _ Tq), C1. reflexivity.
  - left.
    assert (Hn : forall u, outcome_of (_check_state (record_name args s)) <> Return u)
      by (rewrite Ec; intros u; discriminate).
    rewrite (setup_check_aborts args s Hi Hn), Ec.
    unfold outcome_of, state_of, trace_of; simpl.
    repeat split; try discriminate; try congruence.
    now apply creations_quiet.
  - left.
    assert (Hn : forall u, outcome_of (_check_state (record_name args s)) <> Return u)
      by (rewrite Ec; intros u; discriminate).
    rewrite (setup_check_aborts args s Hi Hn), Ec.
    unfold outcome_of, state_of, trace_of; simpl.
    repeat split; try discriminate; try congruence.
    now apply creations_quiet.
  - exfalso. apply (halts__check_state (record_name args s)).
    now rewrite Ec.
Qed.

Lemma setup_creations_le args s :
  (creations (trace_of (setup args s)) <= 1)%nat.
Proof.
  destruct (setup_cases args s) as [[_ E] | [(_ & _ & _ & _ & E) | (_ & _ & _ & _ & E)]];
    rewrite E; unfold trace_of, creations; simpl; lia.
Qed.

(** ** C1: two calls of [setup] *)

(** C1. Calling [setup] twice in sequence invokes [_create_cluster] only
    once. Over the two calls the creation is entered at most once, whatever
    the first call does; and when the first call returns, so that the second
    one follows it, the initialized flag is set, the second call returns
    [True] at once with no event at all (no state check, no creation) and the
    state unchanged, and a cluster that started uninitialized has entered
    the creation exactly once. *)
Theorem setup_twice_creates_once (args1 args2 : list string) (s : St W) :
  let r1 := setup args1 s in
  let r2 := setup args2 (state_of r1) in
  (creations (trace_of r1) + creations (trace_of r2) <= 1)%nat /\
  (forall v, outcome_of r1 = Return v ->
     initialized (self (state_of r1)) = true /\
     r2 = (Return (Some true), state_of r1, []) /\
     (initialized (self s) = false -> creations (trace_of r1) = 1%nat)).
Proof.
  intros r1 r2. subst r1 r2.
  destruct (setup_cases args1 s)
    as [[Hi E] | [(Hi & _ & Hn & Hf & C) | (Hi & _ & _ & Ht & C)]].
  - rewrite E. unfold state_of, trace_of; simpl.
    rewrite (setup_initialized args2 s Hi). simpl.
    split; [unfold creations; simpl; lia|].
    intros v _. repeat split; [exact Hi | congruence].
  - split.
    + rewrite C. simpl. apply setup_creations_le.
    + intros v Hv. now contradiction (Hn v).
  - rewrite (setup_initialized args2 _ Ht).
    split.
    + rewrite C. unfold trace_of, creations; simpl. lia.
    + intros v _. repeat split; [exact Ht | intros _; exact C].
Qed.

(** ** C7: the flag after [setup] *)

(** C7. Once the state check has passed, [setup] leaves the initialized flag
    true whatever the cluster creation does: the outcome of [setup] is the
    outcome of [_create_cluster] (a return, an exception, or the exit through
    [pytest.exit]), the flag is true in every one of these cases, and any
    later call of [setup] returns at once without doing anything. *)
Theorem setup_marks_initialized (args : list string) (s : St W) :
  initialized (self s) = false ->
  outcome_of (_check_state (record_name args s)) = Return tt ->
  let r := setup args s in
  initialized (self (state_of r)) = true /\
  outcome_of r =
    falls_off (outcome_of (_create_cluster
                             (state_of (_check_state (record_name args s))))) /\
  forall args', setup args' (state_of r) = (Return (Some true), state_of r, []).
Proof.
  intros Hi Hc r. subst r.
  destruct (setup_cases args s)
    as [[Hi' _] | [(_ & Hn & _) | (_ & _ & Ho & Ht & _)]].
  - congruence.
  - now contradiction (Hn tt).
  - repeat split; [exact Ht | exact Ho |].
    intros args'. now apply setup_initialized.
Qed.

(** ** C8: the flag after [teardown] *)

Lemma try_finally_self {A} (body : M W A) (fin : M W unit) s c :
  self (state_of (body s)) = c ->
  (forall s1, self s1 = c -> self (state_of (fin s1)) = c) ->
  self (state_of (try_finally body fin s)) = c.
Proof.
  intros Hb Hf. unfold try_finally.
  destruct (body s) as [[o s1] t1]. unfold state_of in Hb; simpl in Hb.
  specialize (Hf s1 Hb). destruct (fin s1) as [[o2 s2] t2].
  unfold state_of in *; simpl in *.
  destruct o; destruct o2; simpl; assumption.
Qed.

Lemma state_bind_ret {A B} (m : M W A) (b : B) s :
  state_of (bind m (fun _ => ret b) s) = state_of (m s).
Proof.
  unfold bind, ret. destruct (m s) as [[o s1] t1]. destruct o; reflexivity.
Qed.

Lemma teardown_self fuel s :
  initialized (self s) = true -> self (state_of (teardown fuel s)) = self s.
Proof.
  intros Hi. unfold teardown.
  rewrite (run_bind_silent get_self _ s (self s) s eq_refl). rewrite Hi. simpl.
  rewrite state_bind_ret. apply try_finally_self.
  - match goal with
    | |- self (state_of (?b s)) = _ =>
        assert (Q : quiet not_creation b)
          by (repeat (frame_step; auto with frames);
              apply quiet__remove_cluster);
        apply (Q s)
    end.
  - intros s1 E1.
    rewrite (run_bind_silent get_self _ s1 (self s1) s1 eq_refl).
    rewrite (run_bind_silent (put_self _) _ s1 tt
               {| self := set_initialized (self s1) true; host := host s1 |}
               eq_refl).
    destruct (quiet__check_state
                {| self := set_initialized (self s1) true; host := host s1 |})
      as [E2 _].
    rewrite E2. simpl. rewrite E1. now apply set_initialized_id.
Qed.

(** C8. [teardown] on an initialized cluster leaves the initialized flag
    true: in every state the call can end in (returned, raised, exited, or
    still polling when the fuel ran out) the cluster object is the one it
    started with, flag included, so a further [setup] returns at once
    without doing anything. *)
Theorem teardown_keeps_initialized (fuel : nat) (s : St W) :
  initialized (self s) = true ->
  let r := teardown fuel s in
  initialized (self (state_of r)) = true /\
  self (state_of r) = self s /\
  forall args, setup args (state_of r) = (Return (Some true), state_of r, []).
Proof.
  intros Hi r. subst r.
  pose proof (teardown_self fuel s Hi) as E.
  assert (Ht : initialized (self (state_of (teardown fuel s))) = true)
    by now rewrite E.
  repeat split; [exact Ht | exact E |].
  intros args. now apply setup_initialized.
Qed.

(** ** C3: process matching *)

Lemma _cmdline_scan_spec c args :
  _cmdline_scan c args = true <->
  exists arg, In arg args /\ contains arg (name c).
Proof.
  induction args as [|a args IH]; simpl.
  - split; [discriminate | intros (arg & [] & _)].
  - destruct (Py.find a (name c) =? -1) eqn:E; simpl.
    + apply Z.eqb_eq in E. rewrite IH. split.
      * intros (arg & Hin & Hc). exists arg. split; [now right | exact Hc].
      * intros (arg & [<- | Hin] & Hc).
        -- apply find_spec in Hc. now contradiction Hc.
        -- now exists arg.
    + apply Z.eqb_neq in E. split; [intros _ | reflexivity].
      exists a. split; [now left | now apply find_spec].
Qed.

(** C3. [_cmdline_matches] answers true exactly when the main class of the
    Cassandra daemon is one of the arguments and some argument contains the
    cluster name as a substring; a command line that misses either does not
    match. *)
Theorem cmdline_matches_iff (c : CCMCluster) (cmdline : list string) :
  _cmdline_matches c cmdline = true <->
  In CassandraDaemon cmdline /\
  exists arg, In arg cmdline /\ contains arg (name c).
Proof.
  unfold _cmdline_matches.
  destruct (Py.str_in CassandraDaemon cmdline) eqn:E.
  - apply str_in_spec in E. rewrite _cmdline_scan_spec. tauto.
  - split; [discriminate|]. intros [H _]. apply str_in_spec in H. congruence.
Qed.

(** ** C5: node addresses *)

Lemma str_of_int_reads_back n :
  option_map Z.of_int (NilZero.int_of_string (Py.str_of_int n)) = Some n.
Proof.
  unfold Py.str_of_int. rewrite NilZero.isi.
  - simpl. now rewrite of_to.
  - destruct n; simpl; try discriminate.
    intros C; injection C as C. now apply Unsigned.to_uint_nonnil in C.
  - destruct n; simpl; try discriminate.
    intros C; injection C as C. now apply Unsigned.to_uint_nonnil in C.
Qed.

(** C5. For a node count of at least one and a node index [i] below it, the
    address generated for node [i], by [_mkaddr] and at position [i] of the
    host list of [hosts_cfg], is the configured prefix followed by the
    decimal digits of [i + 1] (digits that read back as [i + 1]). *)
Theorem node_address (c : CCMCluster) (i : Z) :
  1 <= nodes c ->
  0 <= i < nodes c ->
  _mkaddr c i = ip_prefix c ++ Py.str_of_int (i + 1) /\
  nth_error (hosts c) (Z.to_nat i) =
    Some (ip_prefix c ++ Py.str_of_int (i + 1)) /\
  option_map Z.of_int (NilZero.int_of_string (Py.str_of_int (i + 1))) =
    Some (i + 1).
Proof.
  intros Hn Hi. split; [reflexivity|]. split.
  - unfold hosts. rewrite nth_error_map, (range_nth _ _ Hi). reflexivity.
  - apply str_of_int_reads_back.
Qed.

(** ** C9 and C4: cluster creation *)

(** C9. With an empty name [_create_cluster] raises before it runs
    anything: the only event is its own entry, no process is opened and the
    host is untouched. *)
Theorem create_cluster_requires_name (s : St W) :
  name (self s) = EmptyString ->
  _create_cluster s =
  (Raise (Exception "Set name before calling create cluster" None), s,
   [Enter "_create_cluster"]).
Proof.
  intros H. unfold _create_cluster, bind, emit, get_self, raise. simpl.
  rewrite H. reflexivity.
Qed.

Lemma truthy_nonempty n : n <> EmptyString -> Py.truthy n = true.
Proof. destruct n; [congruence | reflexivity]. Qed.

(** When the subprocess of [ccm create] completes with a nonzero exit
    code, [_create_cluster] writes the captured standard output and standard
    error (decoded) to the operator, each followed by a flush, and calls
    [pytest.exit] with that code as its one positional argument: it does
    not raise. *)
Lemma run__create_cluster_nonzero
  (s : St W) (w' : W) (out err out_text err_text : string) (code : Z) :
  name (self s) <> EmptyString ->
  popen_communicate (popenargs (self s)) (host s) = (Completed out err code, w') ->
  code <> 0 ->
  bytes_decode out = Some out_text ->
  bytes_decode err = Some err_text ->
  _create_cluster s =
  (PytestExit code, {| self := self s; host := w' |},
   [Enter "_create_cluster"; Popen (popenargs (self s));
    StdoutWrite out_text; StdoutFlush; StderrWrite err_text; StderrFlush]).
Proof.
  intros Hn Hp Hc Ho He.
  unfold _create_cluster, bind, emit, get_self, on_host, decode,
    stdout_write, stdout_flush, stderr_write, stderr_flush, pytest_exit, ret.
  simpl. rewrite (truthy_nonempty _ Hn). simpl. rewrite Hp.
  apply Z.eqb_neq in Hc. rewrite Hc. simpl. rewrite Ho, He. reflexivity.
Qed.

(** captured output that the codec rejects: the decoding raises before
    anything is written, and [pytest.exit] is not reached *)
Lemma create_cluster_undecodable
  (s : St W) (w' : W) (out err : string) (code : Z) :
  name (self s) <> EmptyString ->
  popen_communicate (popenargs (self s)) (host s) = (Completed out err code, w') ->
  code <> 0 ->
  bytes_decode out = None ->
  _create_cluster s =
  (Raise UnicodeDecodeError, {| self := self s; host := w' |},
   [Enter "_create_cluster"; Popen (popenargs (self s))]).
Proof.
  intros Hn Hp Hc Ho.
  unfold _create_cluster, bind, emit, get_self, on_host, decode, raise.
  simpl. rewrite (truthy_nonempty _ Hn). simpl. rewrite Hp.
  apply Z.eqb_neq in Hc. rewrite Hc. simpl. rewrite Ho. reflexivity.
Qed.

(** ** C6: the loopback check *)

Lemma query_ret {A} (a : A) : query (W:=W) (ret a).
Proof. intros s. split; reflexivity. Qed.

Lemma query_raise {A} e : query (@raise W A e).
Proof. intros s. split; reflexivity. Qed.

Lemma query_get_host : query (W:=W) get_host.
Proof. intros s. split; reflexivity. Qed.

Lemma query_bind {A B} (m : M W A) (f : A -> M W B) :
  query m -> (forall a, query (f a)) -> query (bind m f).
Proof.
  intros Hm Hf s. unfold bind.
  destruct (Hm s) as [E1 T1]. destruct (m s) as [[o s1] t1].
  unfold state_of, trace_of in *; simpl in *. subst s1 t1.
  destruct o; try (split; reflexivity).
  destruct (Hf a s) as [E2 T2]. destruct (f a s) as [[o2 s2] t2].
  unfold state_of, trace_of in *; simpl in *. now subst.
Qed.

Lemma query_for_in {A S} (l : list A) (body : A -> S -> M W S) :
  (forall x acc, query (body x acc)) ->
  forall acc, query (for_in l acc body).
Proof.
  intros Hb. induction l as [|x l IH]; intros acc; simpl.
  - apply query_ret.
  - apply query_bind; [apply Hb | intros a; apply IH].
Qed.

(** [_loopbacks] only reads the host *)
Lemma _loopbacks_query : query (W:=W) _loopbacks.
Proof.
  unfold _loopbacks, _loopback_interfaces.
  apply query_bind.
  - apply query_bind; [apply query_get_host | intros w].
    apply query_for_in. intros iface acc.
    destruct (Py.startswith iface "lo"); apply query_ret.
  - intros ifaces. apply query_for_in. intros iface acc.
    apply query_bind; [apply query_get_host | intros w].
    destruct (netifaces_inet w iface); [|apply query_raise].
    apply query_for_in. intros b acc'. apply query_ret.
Qed.

Lemma run__loopbacks s lbs :
  outcome_of (_loopbacks s) = Return lbs -> _loopbacks s = (Return lbs, s, []).
Proof.
  intros H. destruct (_loopbacks_query s) as [E T].
  destruct (_loopbacks s) as [[o s1] t1].
  unfold outcome_of, state_of, trace_of in *; simpl in *. now subst.
Qed.

(** distinct nodes get distinct add-address commands *)
Lemma remediation_inj p c x y :
  remediation p c x = remediation p c y -> x = y.
Proof.
  unfold remediation, Platform._add_ip_cmd, Platform._mkiface, _mkaddr.
  destruct p as [lo | lo]; intros H.
  - do 4 apply append_inv_head in H.
    apply str_of_int_inj in H. lia.
  - apply append_inv_head in H. rewrite !append_assoc in H.
    apply append_inv_head in H.
    apply (split_at_first " ") in H; try apply str_of_int_no_space.
    now apply str_of_int_inj.
Qed.

Lemma run__platform s :
  _platform s =
  (Return (_platform_lookup sys_platform (cluster_platforms (self s))), s, []).
Proof. reflexivity. Qed.

Lemma run__mkiface s p x :
  _platform_lookup sys_platform (cluster_platforms (self s)) = Some p ->
  _mkiface x s = (Return (Platform._mkiface p x), s, []).
Proof.
  intros H. unfold _mkiface.
  rewrite (run_bind_silent _ _ _ _ _ (run__platform s)), H. reflexivity.
Qed.

Lemma run__add_ip_cmd s p iface ip_addr :
  _platform_lookup sys_platform (cluster_platforms (self s)) = Some p ->
  _add_ip_cmd iface ip_addr s =
  (Return (Platform._add_ip_cmd p iface ip_addr), s, []).
Proof.
  intros H. unfold _add_ip_cmd.
  rewrite (run_bind_silent _ _ _ _ _ (run__platform s)), H. reflexivity.
Qed.

(** the first loop of [_check_loopbacks] *)
Lemma check_loop s p lbs l acc :
  _platform_lookup sys_platform (cluster_platforms (self s)) = Some p ->
  for_in (W:=W) l acc (fun x missing =>
    bind (_mkiface x) (fun iface =>
    bind get_self (fun c =>
    let ip_addr := _mkaddr c x in
    if negb (Py.pair_in (iface, ip_addr) lbs) then
      bind (stderr_write ("Ip check failed " ++ Py.str_of_int x ++ "." ++ nl))
        (fun _ =>
      bind (_add_ip_cmd iface ip_addr) (fun cmd =>
      ret (missing ++ [cmd])%list))
    else ret missing))) s =
  (Return (acc ++ map (remediation p (self s))
                      (filter (is_missing p (self s) lbs) l))%list,
   s,
   map ip_check_failed (filter (is_missing p (self s) lbs) l)).
Proof.
  intros Hp. revert acc. induction l as [|x l IH]; intros acc; simpl.
  - unfold ret. now rewrite app_nil_r.
  - rewrite (run_bind _ _ s
               (if is_missing p (self s) lbs x
                then (acc ++ [remediation p (self s) x])%list else acc)
               s
               (if is_missing p (self s) lbs x
                then [ip_check_failed x] else [])).
    + rewrite IH. unfold outcome_of, state_of, trace_of; simpl.
      destruct (is_missing p (self s) lbs x); simpl;
        rewrite <- ?app_assoc; reflexivity.
    + rewrite (run_bind_silent _ _ _ _ _ (run__mkiface s p x Hp)).
      rewrite (run_bind_silent get_self _ s (self s) s eq_refl).
      cbv zeta. unfold is_missing, required_binding.
      destruct (negb (Py.pair_in (Platform._mkiface p x, _mkaddr (self s) x) lbs)).
      * unfold stderr_write.
        rewrite (run_bind (emit _) _ s tt s [_] eq_refl).
        rewrite (run_bind_silent _ _ _ _ _ (run__add_ip_cmd s p _ _ Hp)).
        reflexivity.
      * reflexivity.
Qed.

Lemma report_loop s (cmds : list string) :
  for_in (W:=W) cmds tt (fun cmd _ => stderr_write (tab ++ cmd ++ nl)) s =
  (Return tt, s, map remediation_line cmds).
Proof.
  induction cmds as [|cmd cmds IH]; [reflexivity|]. cbn [for_in map].
  unfold stderr_write at 1.
  rewrite (run_bind (emit _) _ s tt s [_] eq_refl). cbv beta.
  rewrite IH. reflexivity.
Qed.

(** the report of [_check_loopbacks] and its exit *)
Lemma run_report s (cmds : list string) :
  bind (W:=W) (A:=unit) (B:=unit)
    (stderr_write ("Missing network addresses." ++ nl ++
                   "You can run the following commands to resolve this:" ++
                   nl ++ nl))
    (fun _ =>
     bind (for_in cmds tt (fun cmd _ => stderr_write (tab ++ cmd ++ nl)))
       (fun _ => bind stderr_flush (fun _ => pytest_exit 1))) s =
  (PytestExit 1, s,
   ([missing_header] ++ map remediation_line cmds ++ [StderrFlush])%list).
Proof.
  unfold stderr_write at 1.
  rewrite (run_bind (emit _) _ s tt s [_] eq_refl). cbv beta.
  rewrite (run_bind _ _ _ _ _ _ (report_loop s cmds)). cbv beta.
  unfold stderr_flush.
  rewrite (run_bind (emit _) _ s tt s [_] eq_refl).
  unfold pytest_exit, outcome_of, state_of, trace_of.
  cbn [fst snd]. rewrite app_nil_r. reflexivity.
Qed.

Lemma missing_nodes_spec p c lbs x :
  In x (missing_nodes p c lbs) <->
  0 <= x < nodes c /\ ~ In (required_binding p c x) lbs.
Proof.
  unfold missing_nodes. rewrite filter_In, range_spec. unfold is_missing.
  rewrite negb_true_iff, <- not_true_iff_false, pair_in_spec. tauto.
Qed.

Lemma missing_nodes_NoDup p c lbs : NoDup (missing_nodes p c lbs).
Proof. unfold missing_nodes. apply NoDup_filter, range_NoDup. Qed.

Lemma run__check_loopbacks s p lbs :
  _platform_lookup sys_platform (cluster_platforms (self s)) = Some p ->
  _loopbacks s = (Return lbs, s, []) ->
  _check_loopbacks s =
  match missing_nodes p (self s) lbs with
  | [] => (Return tt, s, [])
  | ms =>
      (PytestExit 1, s,
       (map ip_check_failed ms ++ [missing_header] ++
        map remediation_line (map (remediation p (self s)) ms) ++
        [StderrFlush])%list)
  end.
Proof.
  intros Hp Hl. unfold _check_loopbacks.
  rewrite (run_bind_silent _ _ _ _ _ Hl).
  rewrite (run_bind_silent get_self _ s (self s) s eq_refl).
  rewrite (run_bind _ _ _ _ _ _ (check_loop s p lbs _ [] Hp)).
  cbv beta. rewrite app_nil_l.
  fold (missing_nodes p (self s) lbs).
  destruct (missing_nodes p (self s) lbs) as [|m ms] eqn:E.
  - reflexivity.
  - cbn [map]. rewrite (run_report s).
    unfold outcome_of, state_of, trace_of. reflexivity.
Qed.

(** C6. Given the host's bindings: when they contain the required binding of
    every node index below [nodes], [_check_loopbacks] returns and writes
    nothing; otherwise it leaves through [pytest.exit(1)] without raising,
    after reporting one add-address command for each missing node index: the
    reported commands are those of the missing indices, each index once, in
    order, and no command is reported twice. *)
Theorem check_loopbacks_spec
  (s : St W) (p : CCMPlatform) (loopbacks : list (string * string)) :
  _platform_lookup sys_platform (cluster_platforms (self s)) = Some p ->
  outcome_of (_loopbacks s) = Return loopbacks ->
  let c := self s in
  let ms := missing_nodes p c loopbacks in
  ((forall x, 0 <= x < nodes c -> In (required_binding p c x) loopbacks) ->
   _check_loopbacks s = (Return tt, s, [])) /\
  ((exists x, 0 <= x < nodes c /\ ~ In (required_binding p c x) loopbacks) ->
   _check_loopbacks s =
   (PytestExit 1, s,
    (map ip_check_failed ms ++ [missing_header] ++
     map remediation_line (map (remediation p c) ms) ++
     [StderrFlush])%list) /\
   NoDup ms /\
   (forall x, In x ms <->
              0 <= x < nodes c /\ ~ In (required_binding p c x) loopbacks) /\
   NoDup (map (remediation p c) ms)).
Proof.
  intros Hp Hl c ms. subst c ms. apply run__loopbacks in Hl.
  rewrite (run__check_loopbacks s p loopbacks Hp Hl). split.
  - intros Hall.
    destruct (missing_nodes p (self s) loopbacks) as [|m ms] eqn:E;
      [reflexivity|].
    assert (Hm : In m (missing_nodes p (self s) loopbacks))
      by (rewrite E; now left).
    apply missing_nodes_spec in Hm as [Hr Hn]. now contradiction (Hn (Hall m Hr)).
  - intros (x & Hr & Hn).
    assert (Hm : In x (missing_nodes p (self s) loopbacks))
      by (apply missing_nodes_spec; tauto).
    split; [|split; [|split]].
    + destruct (missing_nodes p (self s) loopbacks); [contradiction | reflexivity].
    + apply missing_nodes_NoDup.
    + intros y. apply missing_nodes_spec.
    + apply Injective_map_NoDup; [|apply missing_nodes_NoDup].
      intros a b. apply remediation_inj.
Qed.

(** ** C10: the aliases removed by [teardown] *)

Lemma run__rm_ip_addr s p iface ip_addr w' :
  _platform_lookup sys_platform (cluster_platforms (self s)) = Some p ->
  subprocess_call (Platform._rm_ip_cmd p iface ip_addr) (host s) = (0, w') ->
  _rm_ip_addr iface ip_addr s =
  (Return tt, {| self := self s; host := w' |},
   removal_events (Platform._rm_ip_cmd p iface ip_addr)).
Proof.
  intros Hp Hc. unfold _rm_ip_addr.
  rewrite (run_bind_silent _ _ _ _ _ (run__platform s)), Hp.
  unfold Platform_rm_ip_addr, stderr_write, stderr_flush, call, bind, emit,
    on_host, ret.
  cbv zeta. rewrite Hc. reflexivity.
Qed.

(** one turn of the loop of [_teardown_loopbacks] *)
Lemma run_removal s p x w' :
  _platform_lookup sys_platform (cluster_platforms (self s)) = Some p ->
  subprocess_call (removal p (self s) x) (host s) = (0, w') ->
  bind (_mkiface x) (fun iface =>
    bind get_self (fun c => _rm_ip_addr iface (_mkaddr c x))) s =
  (Return tt, {| self := self s; host := w' |},
   removal_events (removal p (self s) x)).
Proof.
  intros Hp Hc.
  rewrite (run_bind_silent _ _ _ _ _ (run__mkiface s p x Hp)).
  rewrite (run_bind_silent get_self _ s (self s) s eq_refl).
  now apply run__rm_ip_addr.
Qed.

Lemma removal_with_nodes p c n x :
  removal p (with_nodes c n) x = removal p c x.
Proof. reflexivity. Qed.

Lemma trace_bind_ret {A B} (m : M W A) (b : B) s :
  trace_of (bind m (fun _ => ret b) s) = trace_of (m s).
Proof.
  unfold bind, ret. destruct (m s) as [[o s1] t1].
  destruct o; unfold trace_of; simpl; rewrite ?app_nil_r; reflexivity.
Qed.

Lemma trace_try_finally {A} (body : M W A) (fin : M W unit) s :
  outcome_of (body s) <> OutOfFuel ->
  exists t3, trace_of (try_finally body fin s) = (trace_of (body s) ++ t3)%list.
Proof.
  intros Hh. unfold try_finally. destruct (body s) as [[o s1] t1].
  unfold outcome_of in Hh; simpl in Hh.
  destruct (fin s1) as [[o2 s2] t2].
  exists t2. destruct o; try contradiction; destruct o2; reflexivity.
Qed.

(** the body of the [try] statement of [teardown], once the cluster is
    removed *)
Lemma teardown_then_loopbacks fuel s0 s1 t0 :
  initialized (self s0) = true ->
  manage_interfaces (self s0) = true ->
  _remove_cluster fuel s0 = (Return tt, s1, t0) ->
  exists t3,
    trace_of (teardown fuel s0) =
    (t0 ++ trace_of (_teardown_loopbacks NUM_NODES s1) ++ t3)%list.
Proof.
  intros Hi Hm Hr. unfold teardown.
  rewrite (run_bind_silent get_self _ s0 (self s0) s0 eq_refl). rewrite Hi.
  cbn [negb]. rewrite trace_bind_ret.
  assert (Es : self s1 = self s0).
  { destruct (quiet__remove_cluster fuel s0) as [E _].
    rewrite Hr in E. exact E. }
  match goal with
  | |- context [try_finally ?b ?f] =>
      assert (Eb : b s0 =
                   (outcome_of (_teardown_loopbacks NUM_NODES s1),
                    state_of (_teardown_loopbacks NUM_NODES s1),
                    (t0 ++ trace_of (_teardown_loopbacks NUM_NODES s1))%list));
      [| destruct (trace_try_finally b f s0) as [t3 E3] ]
  end.
  - rewrite (run_bind _ _ _ _ _ _ Hr). cbv beta.
    rewrite (run_bind_silent get_self _ s1 (self s1) s1 eq_refl).
    rewrite Es, Hm. reflexivity.
  - rewrite Eb. apply halts__teardown_loopbacks.
  - exists t3. rewrite E3, Eb. unfold trace_of at 1. cbn [snd].
    now rewrite app_assoc.
Qed.

(** [_teardown_loopbacks] with its default argument, every removal
    succeeding: the three removals of indices 0, 1, 2 *)
Lemma run__teardown_loopbacks_default
  (s1 : St W) (p : CCMPlatform) (w1 w2 w3 : W) :
  _platform_lookup sys_platform (cluster_platforms (self s1)) = Some p ->
  let c := self s1 in
  subprocess_call (removal p c 0) (host s1) = (0, w1) ->
  subprocess_call (removal p c 1) w1 = (0, w2) ->
  subprocess_call (removal p c 2) w2 = (0, w3) ->
  _teardown_loopbacks NUM_NODES s1 =
  (Return tt, {| self := c; host := w3 |},
   (removal_events (removal p c 0) ++ removal_events (removal p c 1) ++
    removal_events (removal p c 2))%list).
Proof.
  intros Hp c H0 H1 H2.
  unfold _teardown_loopbacks.
  change (Py.range NUM_NODES) with [0; 1; 2]. cbn [for_in].
  rewrite (run_bind _ _ s1 tt {| self := c; host := w1 |}
             (removal_events (removal p c 0))).
  2:{ apply run_removal; assumption. }
  cbv beta.
  rewrite (run_bind _ _ {| self := c; host := w1 |} tt
             {| self := c; host := w2 |}
             (removal_events (removal p c 1))).
  2:{ apply (run_removal {| self := c; host := w1 |}); assumption. }
  cbv beta.
  rewrite (run_bind _ _ {| self := c; host := w2 |} tt
             {| self := c; host := w3 |}
             (removal_events (removal p c 2))).
  2:{ apply (run_removal {| self := c; host := w2 |}); assumption. }
  unfold ret, outcome_of, state_of, trace_of. cbn [fst snd].
  now rewrite app_nil_r.
Qed.

(** ** C2: the second pass of [_setup_loopbacks] *)

Lemma avoids_ret {A} e (a : A) : avoids e (ret a).
Proof. intros s; discriminate. Qed.

Lemma avoids_raise {A} e e' : e' <> e -> avoids e (@raise W A e').
Proof. intros H s C. injection C as C. contradiction. Qed.

Lemma avoids_pytest_exit {A} e code : avoids e (@pytest_exit W A code).
Proof. intros s; discriminate. Qed.

Lemma avoids_get_self e : avoids e get_self.
Proof. intros s; discriminate. Qed.

Lemma avoids_get_host e : avoids e get_host.
Proof. intros s; discriminate. Qed.

Lemma avoids_emit e ev : avoids e (emit ev).
Proof. intros s; discriminate. Qed.

Lemma avoids_on_host {A} e ev (f : W -> A * W) : avoids e (on_host ev f).
Proof. intros s. unfold on_host. destruct (f (host s)). discriminate. Qed.

(** a continuation need only avoid [e] on the values the first part can
    return *)
Lemma avoids_bind_post {A B} e (Q : A -> Prop) (m : M W A) (f : A -> M W B) :
  avoids e m ->
  (forall s a s1 t1, m s = (Return a, s1, t1) -> Q a) ->
  (forall a, Q a -> avoids e (f a)) ->
  avoids e (bind m f).
Proof.
  intros Hm HQ Hf s. unfold bind.
  specialize (Hm s). specialize (HQ s).
  destruct (m s) as [[o s1] t1].
  unfold outcome_of in *; simpl in *.
  destruct o; try discriminate.
  - specialize (Hf a (HQ a s1 t1 eq_refl) s1).
    destruct (f a s1) as [[o2 s2] t2]. exact Hf.
  - intros C. injection C as C. apply Hm. now rewrite C.
Qed.

Lemma avoids_bind {A B} e (m : M W A) (f : A -> M W B) :
  avoids e m -> (forall a, avoids e (f a)) -> avoids e (bind m f).
Proof.
  intros Hm Hf. apply (avoids_bind_post e (fun _ => True)); auto.
Qed.

Lemma avoids_for_in {A S} e (l : list A) (body : A -> S -> M W S) :
  (forall x acc, avoids e (body x acc)) ->
  forall acc, avoids e (for_in l acc body).
Proof.
  intros Hb. induction l as [|x l IH]; intros acc; simpl.
  - apply avoids_ret.
  - apply avoids_bind; [apply Hb | intros a; apply IH].
Qed.

Ltac avoid_step :=
  match goal with
  | |- avoids _ (bind _ _) => apply avoids_bind; [|intros ?]
  | |- avoids _ (for_in _ _ _) => apply avoids_for_in; intros ? ?
  | |- avoids _ (ret _) => apply avoids_ret
  | |- avoids _ (raise _) => apply avoids_raise; discriminate
  | |- avoids _ (pytest_exit _) => apply avoids_pytest_exit
  | |- avoids _ get_self => apply avoids_get_self
  | |- avoids _ get_host => apply avoids_get_host
  | |- avoids _ (emit _) => apply avoids_emit
  | |- avoids _ (on_host _ _) => apply avoids_on_host
  | |- avoids _ (if ?b then _ else _) => destruct b
  | |- avoids _ (match ?x with _ => _ end) => destruct x
  end.

Lemma bind_Return_inv {A B} (m : M W A) (f : A -> M W B) s b s2 t :
  bind m f s = (Return b, s2, t) ->
  exists a s1 t1 t2,
    m s = (Return a, s1, t1) /\ f a s1 = (Return b, s2, t2).
Proof.
  unfold bind. destruct (m s) as [[o s1] t1].
  destruct o; try discriminate.
  destruct (f a s1) as [[o2 s3] t2] eqn:E.
  intros H. injection H as -> -> _. now exists a, s1, t1, t2.
Qed.

(** a loop whose body can only return its accumulator returns the initial
    one *)
Lemma for_in_keeps {A S} (l : list A) (body : A -> S -> M W S) :
  (forall x acc s a s1 t1, body x acc s = (Return a, s1, t1) -> a = acc) ->
  forall acc s a s1 t1,
    for_in l acc body s = (Return a, s1, t1) -> a = acc.
Proof.
  intros Hb. induction l as [|x l IH]; intros acc s a s1 t1; simpl.
  - unfold ret. intros H. now injection H as <- _ _.
  - intros H. apply bind_Return_inv in H as (a' & s' & t' & t2 & H1 & H2).
    apply Hb in H1. subst a'. now apply IH in H2.
Qed.

(** the branch of [_setup_loopbacks] that would list the missing addresses
    and raise is never taken: [missing] is empty whenever the second loop
    returns *)
Lemma setup_loopbacks_never_lists : avoids missing_address _setup_loopbacks.
Proof.
  unfold _setup_loopbacks, missing_address.
  unfold _loopbacks, _loopback_interfaces, _mkiface, _add_ip_addr,
    _platform, Platform_add_ip_addr, lookup_a, stderr_write,
    stderr_flush, call.
  do 5 (apply avoids_bind; [solve [repeat avoid_step] | intros ?]).
  apply (avoids_bind_post _ (fun missing : list string => missing = [])).
  - repeat avoid_step.
  - intros s l s1 t1. apply for_in_keeps. clear.
    intros x acc s r s1 t1 H.
    apply bind_Return_inv in H as (iface & s2 & t2 & t3 & _ & H).
    apply bind_Return_inv in H as (c & s3 & t4 & t5 & _ & H).
    cbv zeta in H.
    destruct (negb (Py.pair_in (iface, _mkaddr c x) _)).
    + apply bind_Return_inv in H as (u & s4 & t6 & t7 & _ & H).
      apply bind_Return_inv in H as (a0 & s5 & t8 & t9 & H & _).
      discriminate.
    + unfold ret in H. now injection H as <- _ _.
  - intros missing ->. apply avoids_ret.
Qed.

(** ** Termination of the polling loop *)

Lemma run__inspect p (s : St W) :
  exists t, _inspect p s = (Return (seen_cmdline p), s, t).
Proof.
  unfold _inspect, seen_cmdline.
  destruct (String.eqb (pname p) "java"); [|now exists []].
  destruct (pcmdline p); [now exists [] | eexists; reflexivity].
Qed.

Lemma run_finder_loop c (ps : list Process) : forall acc (s : St W),
  self s = c ->
  exists t,
    for_in (W:=W) ps acc (fun p found =>
      bind (_inspect p) (fun cmdline =>
      bind get_self (fun c =>
      if _cmdline_matches c cmdline then ret (found ++ [p])%list
      else ret found))) s =
    (Return (acc ++ matching c ps)%list, s, t).
Proof.
  induction ps as [|p ps IH]; intros acc s Hc; cbn [for_in].
  - exists []. unfold ret, matching. simpl. now rewrite app_nil_r.
  - destruct (run__inspect p s) as [t1 E1].
    destruct (IH (if _cmdline_matches c (seen_cmdline p)
                  then (acc ++ [p])%list else acc) s Hc) as [t2 E2].
    exists (t1 ++ t2)%list.
    rewrite (run_bind _ _ s
               (if _cmdline_matches c (seen_cmdline p)
                then (acc ++ [p])%list else acc) s t1).
    + cbv beta. rewrite E2. unfold outcome_of, state_of, trace_of, matching.
      cbn [fst snd filter].
      destruct (_cmdline_matches c (seen_cmdline p));
        rewrite <- ?app_assoc; reflexivity.
    + rewrite (run_bind _ _ _ _ _ _ E1). cbv beta.
      rewrite (run_bind_silent get_self _ s (self s) s eq_refl), Hc.
      destruct (_cmdline_matches c (seen_cmdline p));
        unfold ret, outcome_of, state_of, trace_of; cbn [fst snd];
        now rewrite app_nil_r.
Qed.

(** [_cassandra_processes] is a query: it returns the matching processes of
    the table and leaves the state alone *)
Lemma run__cassandra_processes (s : St W) :
  exists t,
    _cassandra_processes s =
    (Return (matching (self s) (process_iter (host s))), s, t).
Proof.
  unfold _cassandra_processes.
  rewrite (run_bind_silent get_host _ s (host s) s eq_refl).
  destruct (run_finder_loop (self s) (process_iter (host s)) [] s eq_refl)
    as [t E].
  exists t. exact E.
Qed.

(** once the matching processes are gone after [k] sleeps, any fuel above
    [k] lets the loop return *)
Lemma _wait_gone_returns k : forall (s : St W) fuel,
  matching (self s) (process_iter (host (after_sleeps k s))) = [] ->
  (k < fuel)%nat ->
  outcome_of (_wait_gone fuel s) = Return tt.
Proof.
  induction k as [|k IH]; intros s fuel Hg Hf;
    (destruct fuel as [|fuel]; [lia|]); cbn [_wait_gone];
    destruct (run__cassandra_processes s) as [t E];
    rewrite (run_bind _ _ _ _ _ _ E); cbv beta.
  - simpl in Hg. rewrite Hg. reflexivity.
  - destruct (matching (self s) (process_iter (host s))) as [|q qs];
      [reflexivity|].
    change (0 <? Z.of_nat (List.length (q :: qs))) with true. cbv iota.
    unfold outcome_of at 1. cbn [fst].
    rewrite (run_bind _ _ s tt (after_sleeps 1 s) [Sleep] eq_refl).
    unfold outcome_of at 1. cbn [fst].
    apply IH; [|lia].
    unfold after_sleeps in *. cbn [self host] in *.
    rewrite Nat.iter_succ_r in Hg. exact Hg.
Qed.

Lemma bind_ends {A B} (m : M W A) (f : A -> M W B) s :
  outcome_of (m s) <> OutOfFuel ->
  (forall a, halts (f a)) ->
  outcome_of (bind m f s) <> OutOfFuel.
Proof.
  intros Hm Hf. unfold bind. destruct (m s) as [[o s1] t1].
  unfold outcome_of in *; simpl in *.
  destruct o; try discriminate; [|contradiction].
  specialize (Hf a s1). destruct (f a s1) as [[o2 s2] t2]. exact Hf.
Qed.

Lemma try_finally_ends {A} (body : M W A) (fin : M W unit) s :
  outcome_of (body s) <> OutOfFuel ->
  halts fin ->
  outcome_of (try_finally body fin s) <> OutOfFuel.
Proof.
  intros Hb Hf. unfold try_finally. destruct (body s) as [[o s1] t1].
  specialize (Hf s1). unfold outcome_of in *; simpl in *.
  destruct o; try contradiction;
    destruct (fin s1) as [[o2 s2] t2]; simpl in *;
    destruct o2; simpl; (discriminate || contradiction).
Qed.

(** [teardown] ends, with enough fuel, on a host where the processes of the
    cluster are gone within [k] sleeps of its removal *)
Lemma teardown_returns_with_fuel k fuel (s : St W) :
  (k < fuel)%nat ->
  let removed :=
    {| self := self s;
       host := snd (subprocess_call ("ccm remove " ++ name (self s)) (host s)) |} in
  matching (self s) (process_iter (host (after_sleeps k removed))) = [] ->
  outcome_of (teardown fuel s) <> OutOfFuel.
Proof.
  intros Hf removed Hg. unfold teardown.
  rewrite (run_bind_silent get_self _ s (self s) s eq_refl).
  destruct (negb (initialized (self s))); [discriminate|].
  assert (Hr : outcome_of (_remove_cluster fuel s) <> OutOfFuel).
  { unfold _remove_cluster.
    rewrite (run_bind_silent get_self _ s (self s) s eq_refl).
    unfold call, on_host, bind at 1.
    destruct (subprocess_call ("ccm remove " ++ name (self s)) (host s))
      as [rc w] eqn:Ec.
    destruct (negb (rc =? 0)); [discriminate|].
    pose proof (_wait_gone_returns k {| self := self s; host := w |} fuel) as Hw.
    subst removed. cbn [snd] in Hg. specialize (Hw Hg Hf).
    destruct (_wait_gone fuel {| self := self s; host := w |}) as [[o s1] t1].
    unfold outcome_of in *; cbn [fst] in *. rewrite Hw. discriminate. }
  apply bind_ends; [|intros u; apply halts_ret].
  apply try_finally_ends.
  - apply bind_ends; [exact Hr|].
    intros u. repeat (frame_step; auto with frames).
  - repeat (frame_step; auto with frames). apply halts__check_state.
Qed.

(** * Further properties of the controller *)

Lemma run_bind_raise {A B} (m : M W A) (f : A -> M W B) s e s1 t1 :
  m s = (Raise e, s1, t1) -> bind m f s = (Raise e, s1, t1).
Proof. intros E. unfold bind. now rewrite E. Qed.

Lemma run_bind_exit {A B} (m : M W A) (f : A -> M W B) s code s1 t1 :
  m s = (PytestExit code, s1, t1) -> bind m f s = (PytestExit code, s1, t1).
Proof. intros E. unfold bind. now rewrite E. Qed.

(** ** Node addresses are distinct *)

Lemma _mkaddr_inj c x y : _mkaddr c x = _mkaddr c y -> x = y.
Proof.
  unfold _mkaddr. intros H. apply append_inv_head, str_of_int_inj in H. lia.
Qed.

(** X1. The host list of [hosts_cfg] has [nodes] entries (none for a node
    count of zero or less) and no address occurs in it twice. *)
Theorem hosts_distinct (c : CCMCluster) :
  NoDup (hosts c) /\ List.length (hosts c) = Z.to_nat (nodes c).
Proof.
  unfold hosts. split.
  - apply Injective_map_NoDup; [|apply range_NoDup].
    intros x y. apply _mkaddr_inj.
  - now rewrite length_map, range_length.
Qed.

(** ** The empty cluster name *)

Lemma find_empty s : Py.find s EmptyString = 0.
Proof. unfold Py.find. destruct s; reflexivity. Qed.

(** X2. A cluster whose name is empty (the default of [CCMCluster()])
    matches every command line that holds the daemon's main class: the
    name test of [_cmdline_matches] filters nothing. *)
Theorem empty_name_matches_every_daemon (c : CCMCluster) (cmdline : list string) :
  name c = EmptyString ->
  _cmdline_matches c cmdline = Py.str_in CassandraDaemon cmdline.
Proof.
  intros Hn. unfold _cmdline_matches.
  destruct (Py.str_in CassandraDaemon cmdline) eqn:E; [|reflexivity].
  destruct cmdline as [|arg rest]; [discriminate|].
  simpl. now rewrite Hn, find_empty.
Qed.

(** ** Interface discovery *)

Lemma run_filter_loop prefix (l : list string) : forall acc (s : St W),
  for_in l acc (fun iface ifaces =>
    if Py.startswith iface prefix then ret (ifaces ++ [iface])%list
    else ret ifaces) s =
  (Return (acc ++ filter (fun iface => Py.startswith iface prefix) l)%list,
   s, []).
Proof.
  induction l as [|i l IH]; intros acc s; cbn [for_in filter].
  - unfold ret. now rewrite app_nil_r.
  - destruct (Py.startswith i prefix).
    + rewrite (run_bind_silent _ _ s (acc ++ [i])%list s eq_refl), IH.
      now rewrite <- app_assoc.
    + rewrite (run_bind_silent _ _ s acc s eq_refl). apply IH.
Qed.

Lemma run__loopback_interfaces prefix (s : St W) :
  _loopback_interfaces prefix s =
  (Return (filter (fun iface => Py.startswith iface prefix)
             (netifaces_interfaces (host s))), s, []).
Proof.
  unfold _loopback_interfaces.
  rewrite (run_bind_silent get_host _ s (host s) s eq_refl).
  apply (run_filter_loop prefix _ []).
Qed.

Lemma run_addr_loop (iface : string) (l : list string) : forall acc (s : St W),
  for_in l acc (fun b addrs => ret (addrs ++ [(iface, b)])%list) s =
  (Return (acc ++ map (pair iface) l)%list, s, []).
Proof.
  induction l as [|b l IH]; intros acc s; cbn [for_in map].
  - unfold ret. now rewrite app_nil_r.
  - rewrite (run_bind_silent _ _ s (acc ++ [(iface, b)])%list s eq_refl), IH.
    now rewrite <- app_assoc.
Qed.

Lemma run_pairs_loop (l : list string) : forall acc (s : St W),
  for_in l acc (fun iface addrs =>
    bind get_host (fun w =>
    match netifaces_inet w iface with
    | None => raise (KeyError "AF_INET")
    | Some netaddrs =>
        for_in netaddrs addrs
          (fun b addrs => ret (addrs ++ [(iface, b)])%list)
    end)) s =
  match bound_pairs (netifaces_inet (host s)) l with
  | Some pairs => (Return (acc ++ pairs)%list, s, [])
  | None => (Raise (KeyError "AF_INET"), s, [])
  end.
Proof.
  induction l as [|i l IH]; intros acc s; cbn [for_in bound_pairs].
  - unfold ret. now rewrite app_nil_r.
  - destruct (netifaces_inet (host s) i) as [netaddrs|] eqn:E.
    + rewrite (run_bind_silent _ _ s (acc ++ map (pair i) netaddrs)%list s).
      * rewrite IH.
        destruct (bound_pairs (netifaces_inet (host s)) l);
          [now rewrite <- app_assoc | reflexivity].
      * rewrite (run_bind_silent get_host _ s (host s) s eq_refl), E.
        apply run_addr_loop.
    + unfold bind at 1.
      rewrite (run_bind_silent get_host _ s (host s) s eq_refl), E.
      reflexivity.
Qed.

Lemma run__loopbacks_pairs (s : St W) :
  _loopbacks s =
  match bound_pairs (netifaces_inet (host s)) (lo_interfaces (host s)) with
  | Some pairs => (Return pairs, s, [])
  | None => (Raise (KeyError "AF_INET"), s, [])
  end.
Proof.
  unfold _loopbacks.
  rewrite (run_bind_silent _ _ _ _ _ (run__loopback_interfaces "lo" s)).
  apply (run_pairs_loop _ []).
Qed.

Lemma bound_pairs_Some inet l :
  (forall i, In i l -> inet i <> None) ->
  exists pairs,
    bound_pairs inet l = Some pairs /\
    forall i a, In (i, a) pairs <->
                In i l /\ exists addrs, inet i = Some addrs /\ In a addrs.
Proof.
  induction l as [|j l IH]; intros Hall; cbn [bound_pairs].
  - exists []. split; [reflexivity|]. intros i a. simpl. tauto.
  - destruct (inet j) as [addrs|] eqn:E;
      [|exfalso; now apply (Hall j (or_introl eq_refl))].
    destruct IH as (pairs & -> & Hp); [intros i Hi; apply Hall; now right|].
    eexists. split; [reflexivity|]. intros i a.
    rewrite in_app_iff, in_map_iff, Hp. split.
    + intros [(b & Eb & Hb) | (Hi & addrs' & Ea & Ha)].
      * injection Eb as <- <-. split; [now left | now exists addrs].
      * split; [now right | now exists addrs'].
    + intros ([<- | Hi] & addrs' & Ea & Ha).
      * left. exists a. split; [reflexivity|]. congruence.
      * right. split; [exact Hi | now exists addrs'].
Qed.

Lemma bound_pairs_None inet l i :
  In i l -> inet i = None -> bound_pairs inet l = None.
Proof.
  induction l as [|j l IH]; intros Hi Hn; [contradiction|].
  cbn [bound_pairs]. destruct Hi as [-> | Hi].
  - now rewrite Hn.
  - destruct (inet j); [|reflexivity]. now rewrite (IH Hi Hn).
Qed.

(** X3. When every interface whose name starts with [lo] has IPv4
    addresses, [_loopbacks] returns, without touching the host, exactly the
    pairs (interface, address) of those interfaces: nothing of another
    interface, and every address of every such interface. *)
Theorem loopbacks_spec (s : St W) :
  (forall i, In i (netifaces_interfaces (host s)) ->
             Py.startswith i "lo" = true ->
             netifaces_inet (host s) i <> None) ->
  exists lbs,
    _loopbacks s = (Return lbs, s, []) /\
    forall i a,
      In (i, a) lbs <->
      In i (netifaces_interfaces (host s)) /\
      Py.startswith i "lo" = true /\
      exists addrs, netifaces_inet (host s) i = Some addrs /\ In a addrs.
Proof.
  intros Hall. rewrite run__loopbacks_pairs.
  destruct (bound_pairs_Some (netifaces_inet (host s)) (lo_interfaces (host s)))
    as (pairs & -> & Hp).
  - intros i Hi. apply filter_In in Hi as [Hi Hs]. now apply Hall.
  - exists pairs. split; [reflexivity|]. intros i a.
    rewrite Hp. unfold lo_interfaces. rewrite filter_In. tauto.
Qed.

(** X4. One interface of the loopback family without an [AF_INET] entry
    makes [_loopbacks] raise [KeyError], and with it the whole state check,
    managed or not, before anything is written or run. *)
Theorem loopback_without_inet_KeyError (s : St W) (i : string) :
  In i (netifaces_interfaces (host s)) ->
  Py.startswith i "lo" = true ->
  netifaces_inet (host s) i = None ->
  _loopbacks s = (Raise (KeyError "AF_INET"), s, []) /\
  _check_state s = (Raise (KeyError "AF_INET"), s, [Enter "_check_state"]).
Proof.
  intros Hi Hs Hn.
  assert (E : _loopbacks s = (Raise (KeyError "AF_INET"), s, [])).
  { rewrite run__loopbacks_pairs.
    rewrite (bound_pairs_None _ _ i); [reflexivity | | exact Hn].
    unfold lo_interfaces. apply filter_In. now split. }
  split; [exact E|].
  unfold _check_state.
  rewrite (run_bind (emit _) _ s tt s [_] eq_refl). cbv beta.
  rewrite (run_bind_silent get_self _ s (self s) s eq_refl).
  assert (Eb : (if manage_interfaces (self s)
                then _setup_loopbacks else _check_loopbacks) s =
               (Raise (KeyError "AF_INET"), s, [])).
  { destruct (manage_interfaces (self s));
      unfold _setup_loopbacks, _check_loopbacks;
      apply (run_bind_raise _ _ _ _ _ _ E). }
  rewrite (run_bind_raise _ _ _ _ _ _ Eb). reflexivity.
Qed.


(** ** The process finder *)

Lemma matching_spec c ps p :
  In p (matching c ps) <->
  In p ps /\ pname p = "java" /\
  exists cmdline, pcmdline p = Some cmdline /\
                  _cmdline_matches c cmdline = true.
Proof.
  unfold matching, seen_cmdline. rewrite filter_In. split.
  - intros [Hin Hm]. split; [exact Hin|].
    destruct (String.eqb (pname p) "java") eqn:E; [|discriminate].
    apply String.eqb_eq in E. split; [exact E|].
    destruct (pcmdline p) as [cmdline|]; [|discriminate].
    now exists cmdline.
  - intros (Hin & Hj & cmdline & Hc & Hm). split; [exact Hin|].
    rewrite Hj, Hc. exact Hm.
Qed.

Lemma quiet_debug__cassandra_processes : quiet is_debug_log _cassandra_processes.
Proof. unfold _cassandra_processes, _inspect. frame. Qed.

(** X5. Whenever [_cassandra_processes] returns, it has left the cluster
    object and the host as they were, and what it yields is, in the order of
    the process table, exactly the processes named [java] whose command line
    could be read and matches the cluster; a process whose command line is
    denied is skipped with a debug record, which is all the call logs. *)
Theorem cassandra_processes_spec
  (s sf : St W) (found : list Process) (t : list event) :
  _cassandra_processes s = (Return found, sf, t) ->
  sf = s /\
  found = filter (fun p => _cmdline_matches (self s) (seen_cmdline p))
                 (process_iter (host s)) /\
  Forall is_debug_log t /\
  forall p,
    In p found <->
    In p (process_iter (host s)) /\ pname p = "java" /\
    exists cmdline, pcmdline p = Some cmdline /\
                    _cmdline_matches (self s) cmdline = true.
Proof.
  intros H.
  destruct (quiet_debug__cassandra_processes s) as [_ T].
  destruct (run__cassandra_processes s) as [t' E].
  rewrite E in H. injection H as <- <- <-.
  rewrite E in T.
  split; [reflexivity|]. split; [reflexivity|]. split; [exact T|].
  intros p. apply matching_spec.
Qed.

Lemma kills_app t1 t2 : kills (t1 ++ t2) = (kills t1 ++ kills t2)%list.
Proof.
  induction t1 as [|e t1 IH]; [reflexivity|].
  destruct e; simpl; rewrite IH; reflexivity.
Qed.

Lemma kills_none t : Forall not_kill t -> kills t = [].
Proof.
  induction 1 as [|e t He _ IH]; [reflexivity|].
  destruct e; simpl in *; try exact IH. contradiction.
Qed.

Lemma run__inspect_debug p (s : St W) :
  exists t, _inspect p s = (Return (seen_cmdline p), s, t) /\ kills t = [].
Proof.
  unfold _inspect, seen_cmdline.
  destruct (String.eqb (pname p) "java"); [|now exists []].
  destruct (pcmdline p); [now exists [] | eexists; split; reflexivity].
Qed.

Lemma run_kill_loop c (ps : list Process) : forall (s : St W),
  self s = c ->
  exists sf t,
    for_in ps tt (fun p _ =>
      bind (_inspect p) (fun cmdline =>
      bind get_self (fun c =>
      if _cmdline_matches c cmdline then
        bind (emit (Log "warn" ("Kill process " ++ Py.str_of_int (pid p))))
          (fun _ =>
           on_host (ProcessKill (pid p))
             (fun w => (tt, process_kill (pid p) w)))
      else ret tt))) s =
    (Return tt, sf, t) /\
    self sf = c /\
    kills t = map pid (matching c ps).
Proof.
  induction ps as [|p ps IH]; intros s Hc; cbn [for_in].
  - exists s, []. repeat split. exact Hc.
  - destruct (run__inspect_debug p s) as (t1 & E1 & K1).
    unfold matching. cbn [filter]. fold (matching c ps).
    destruct (_cmdline_matches c (seen_cmdline p)) eqn:Em.
    + set (s1 := {| self := self s; host := process_kill (pid p) (host s) |}).
      destruct (IH s1 Hc) as (sf & t2 & E2 & Hs & K2).
      exists sf.
      exists ((t1 ++ [Log "warn" ("Kill process " ++ Py.str_of_int (pid p));
                      ProcessKill (pid p)]) ++ t2)%list.
      split; [|split; [exact Hs|]].
      * rewrite (run_bind _ _ s tt s1
                   (t1 ++ [Log "warn" ("Kill process " ++ Py.str_of_int (pid p));
                           ProcessKill (pid p)])%list).
        -- cbv beta. rewrite E2. reflexivity.
        -- rewrite (run_bind _ _ _ _ _ _ E1). cbv beta.
           rewrite (run_bind_silent get_self _ s (self s) s eq_refl).
           rewrite Hc, Em. reflexivity.
      * rewrite !kills_app, K1, K2. reflexivity.
    + destruct (IH s Hc) as (sf & t2 & E2 & Hs & K2).
      exists sf, (t1 ++ t2)%list.
      split; [|split; [exact Hs|]].
      * rewrite (run_bind _ _ s tt s t1).
        -- cbv beta. rewrite E2. reflexivity.
        -- rewrite (run_bind _ _ _ _ _ _ E1). cbv beta.
           rewrite (run_bind_silent get_self _ s (self s) s eq_refl).
           rewrite Hc, Em. unfold ret, outcome_of, state_of, trace_of.
           cbn [fst snd]. now rewrite app_nil_r.
      * rewrite kills_app, K1, K2. reflexivity.
Qed.

(** X6. Whenever [_kill_all] returns, it has kept the cluster object and
    killed exactly the matching processes of the process table, each once,
    in the order of the table: no process that [_cassandra_processes] would
    not yield is killed. *)
Theorem kill_all_spec (s sf : St W) (t : list event) :
  _kill_all s = (Return tt, sf, t) ->
  self sf = self s /\
  kills t = map pid (matching (self s) (process_iter (host s))).
Proof.
  intros H. revert H. unfold _kill_all.
  rewrite (run_bind_silent get_host _ s (host s) s eq_refl).
  destruct (run_kill_loop (self s) (process_iter (host s)) s eq_refl)
    as (sf' & t' & E & Hs & K).
  rewrite E. intros H. injection H as <- <-. now split.
Qed.

(** ** A platform without adapter *)




(** ** Cluster removal *)

Lemma commands_app t1 t2 :
  commands (t1 ++ t2) = (commands t1 ++ commands t2)%list.
Proof.
  induction t1 as [|e t1 IH]; [reflexivity|].
  destruct e; simpl; rewrite IH; reflexivity.
Qed.

Lemma commands_none t : Forall not_shell t -> commands t = [].
Proof.
  induction 1 as [|e t He _ IH]; [reflexivity|].
  destruct e; simpl in *; try exact IH. contradiction.
Qed.

Lemma sleeps_app t1 t2 : sleeps (t1 ++ t2) = (sleeps t1 + sleeps t2)%nat.
Proof.
  induction t1 as [|e t1 IH]; [reflexivity|].
  destruct e; simpl; rewrite IH; reflexivity.
Qed.

Lemma debug_log_only t :
  Forall is_debug_log t -> sleeps t = O /\ commands t = [] /\ kills t = [].
Proof.
  induction 1 as [|e t He _ IH]; [repeat split|].
  destruct e; simpl in *; try contradiction. exact IH.
Qed.

Lemma St_eta (s : St W) : {| self := self s; host := host s |} = s.
Proof. destruct s. reflexivity. Qed.

Lemma after_sleeps_succ k (s : St W) :
  after_sleeps (S k) s = after_sleeps k (after_sleeps 1 s).
Proof.
  unfold after_sleeps. cbn [self host]. now rewrite Nat.iter_succ_r.
Qed.

(** the polling loop, when it returns: it slept as often as its trace
    says, ran no command, and the matching processes are gone *)
Lemma _wait_gone_clean fuel : forall (s sf : St W) t,
  _wait_gone fuel s = (Return tt, sf, t) ->
  sf = after_sleeps (sleeps t) s /\
  matching (self s) (process_iter (host sf)) = [] /\
  commands t = [].
Proof.
  induction fuel as [|fuel IH]; intros s sf t H; [discriminate|].
  cbn [_wait_gone] in H.
  destruct (run__cassandra_processes s) as [t1 E1].
  destruct (quiet_debug__cassandra_processes s) as [_ T1].
  rewrite E1 in T1. unfold trace_of in T1; cbn [snd] in T1.
  apply debug_log_only in T1 as (S1 & C1 & _).
  rewrite (run_bind _ _ _ _ _ _ E1) in H. cbv beta in H.
  destruct (matching (self s) (process_iter (host s))) as [|q qs] eqn:Em.
  - unfold ret, outcome_of, state_of, trace_of in H. cbn in H.
    injection H as <- <-. rewrite app_nil_r.
    rewrite S1, C1. unfold after_sleeps. cbn [Nat.iter].
    rewrite St_eta. repeat split. exact Em.
  - change (0 <? Z.of_nat (List.length (q :: qs))) with true in H.
    cbv iota in H.
    rewrite (run_bind _ _ s tt (after_sleeps 1 s) [Sleep] eq_refl) in H.
    cbv beta in H.
    destruct (_wait_gone fuel (after_sleeps 1 s)) as [[o s2] t2] eqn:E2.
    unfold outcome_of, state_of, trace_of in H. cbn [fst snd] in H.
    injection H as -> -> <-.
    destruct (IH _ _ _ E2) as (Hs & Hm & Hc).
    rewrite sleeps_app, commands_app, S1, C1.
    cbn [sleeps commands Nat.add app]. rewrite Hc, after_sleeps_succ.
    repeat split; assumption.
Qed.

(** X8. When [_remove_cluster] returns, [ccm remove] (for the cluster's
    name) exited with 0 and is the only command that was run, the cluster
    object is unchanged, the host is the one left by that command after as
    many sleeps as the run made, and no process of that host matches the
    cluster any more. *)
Theorem remove_cluster_leaves_host_clean
  (fuel : nat) (s sf : St W) (t : list event) :
  _remove_cluster fuel s = (Return tt, sf, t) ->
  let cmd := "ccm remove " ++ name (self s) in
  fst (subprocess_call cmd (host s)) = 0 /\
  commands t = [cmd] /\
  self sf = self s /\
  host sf = Nat.iter (sleeps t) time_sleep (snd (subprocess_call cmd (host s))) /\
  matching (self s) (process_iter (host sf)) = [].
Proof.
  intros H cmd. subst cmd. unfold _remove_cluster in H.
  rewrite (run_bind_silent get_self _ s (self s) s eq_refl) in H.
  unfold call, on_host, bind at 1 in H.
  destruct (subprocess_call ("ccm remove " ++ name (self s)) (host s))
    as [rc w] eqn:Ec.
  destruct (rc =? 0) eqn:Erc; cbn [negb] in H; [|discriminate].
  apply Z.eqb_eq in Erc. subst rc.
  destruct (_wait_gone fuel {| self := self s; host := w |})
    as [[o s2] t2] eqn:E2.
  injection H as -> -> <-.
  destruct (_wait_gone_clean _ _ _ _ E2) as (Hs & Hm & Hc).
  cbn [fst snd]. cbn [commands sleeps app]. rewrite Hc.
  repeat split; rewrite Hs; try reflexivity. rewrite Hs in Hm. exact Hm.
Qed.

(** X9. When [ccm remove] exits with a nonzero code, [teardown] neither
    polls nor removes any alias, and still runs the state check (its
    [finally] block). The error [Problem removing test cluster] is what the
    caller sees only if that state check returns; otherwise the outcome of
    the state check replaces it. *)
Theorem teardown_remove_fails
  (fuel : nat) (s : St W) (code : Z) (w' : W) :
  initialized (self s) = true ->
  subprocess_call ("ccm remove " ++ name (self s)) (host s) = (code, w') ->
  code <> 0 ->
  let s' := {| self := self s; host := w' |} in
  teardown fuel s =
  (match outcome_of (_check_state s') with
   | Return _ => Raise (Exception "Problem removing test cluster" None)
   | o => falls_off o
   end,
   state_of (_check_state s'),
   SubprocessCall ("ccm remove " ++ name (self s)) :: trace_of (_check_state s')).
Proof.
  intros Hi Hc Hn s'. unfold teardown.
  rewrite (run_bind_silent get_self _ s (self s) s eq_refl). rewrite Hi.
  cbn [negb].
  assert (Er : _remove_cluster fuel s =
               (Raise (Exception "Problem removing test cluster" None), s',
                [SubprocessCall ("ccm remove " ++ name (self s))])).
  { unfold _remove_cluster.
    rewrite (run_bind_silent get_self _ s (self s) s eq_refl).
    unfold call, on_host, bind. rewrite Hc.
    apply Z.eqb_neq in Hn. rewrite Hn. reflexivity. }
  match goal with
  | |- bind (try_finally ?B ?F) _ s = _ =>
      assert (Eb : B s =
                   (Raise (Exception "Problem removing test cluster" None), s',
                    [SubprocessCall ("ccm remove " ++ name (self s))]))
        by apply (run_bind_raise _ _ _ _ _ _ Er);
      assert (Ef : F s' = _check_state s')
  end.
  { rewrite (run_bind_silent get_self _ s' (self s') s' eq_refl).
    rewrite (run_bind_silent (put_self _) _ s' tt s'); [reflexivity|].
    unfold put_self, s'. cbn [self host].
    now rewrite (set_initialized_id _ Hi). }
  unfold bind at 1, try_finally. rewrite Eb, Ef.
  destruct (_check_state s') as [[o sf] t].
  unfold outcome_of, state_of, trace_of. cbn [fst snd].
  destruct o; reflexivity.
Qed.

(** ** What a run emits *)

Section Emits.

(** [P] holds of every event that is neither a kill nor a shell command *)
Variable P : event -> Prop.
Hypothesis P_base : forall e, not_kill e -> not_shell e -> P e.

Ltac emits := repeat (frame_step; try (apply P_base; exact I)); auto.

Lemma emits__check_loopbacks : quiet P _check_loopbacks.
Proof.
  unfold _check_loopbacks, _mkiface, _add_ip_cmd, _platform,
    stderr_write, stderr_flush.
  frame_step; [apply quiet__loopbacks|]. emits.
Qed.

Lemma emits__setup_loopbacks :
  (forall cmd, P (SubprocessCall cmd)) -> quiet P _setup_loopbacks.
Proof.
  intros Hs.
  unfold _setup_loopbacks, _mkiface, _add_ip_addr, _platform,
    Platform_add_ip_addr, call, lookup_a, stderr_write, stderr_flush.
  frame_step; [apply quiet__loopbacks|].
  do 2 (frame_step; [emits|]).
  frame_step; [apply quiet__loopbacks|]. emits.
Qed.

Lemma emits__teardown_loopbacks n :
  (forall cmd, P (SubprocessCall cmd)) -> quiet P (_teardown_loopbacks n).
Proof.
  intros Hs.
  unfold _teardown_loopbacks, _mkiface, _rm_ip_addr, _platform,
    Platform_rm_ip_addr, call, stderr_write, stderr_flush.
  emits.
Qed.

Lemma emits__cassandra_processes : quiet P _cassandra_processes.
Proof. unfold _cassandra_processes, _inspect. emits. Qed.

Lemma emits__kill_all :
  (forall victim, P (ProcessKill victim)) -> quiet P _kill_all.
Proof. intros Hk. unfold _kill_all, _inspect. emits. Qed.

Lemma emits__create_cluster : quiet P _create_cluster.
Proof.
  unfold _create_cluster, decode, stdout_write, stdout_flush,
    stderr_write, stderr_flush.
  emits.
Qed.

Lemma emits__wait_gone fuel : quiet P (_wait_gone fuel).
Proof.
  induction fuel as [|fuel IH]; cbn [_wait_gone].
  - emits.
  - frame_step; [apply emits__cassandra_processes|]. emits.
Qed.

Lemma emits__remove_cluster fuel :
  (forall cmd, P (SubprocessCall cmd)) -> quiet P (_remove_cluster fuel).
Proof.
  intros Hs. unfold _remove_cluster, call. emits. apply emits__wait_gone.
Qed.

End Emits.

(** ** Invariants of the cluster object *)

Local Abbreviation keeps := (keeps (W:=W)).

Lemma keeps_of_quiet {A} I P (m : M W A) : quiet P m -> keeps I P m.
Proof.
  intros Q s Hs. destruct (Q s) as [E T]. rewrite E. now split.
Qed.

Lemma keeps_bind {A B} I P (m : M W A) (f : A -> M W B) :
  keeps I P m -> (forall a, keeps I P (f a)) -> keeps I P (bind m f).
Proof.
  intros Hm Hf s Hs. unfold bind.
  destruct (Hm s Hs) as [E1 T1]. destruct (m s) as [[o s1] t1].
  unfold state_of, trace_of in *; simpl in *.
  destruct o; try (split; assumption).
  destruct (Hf a s1 E1) as [E2 T2]. destruct (f a s1) as [[o2 s2] t2].
  unfold state_of, trace_of in *; simpl in *.
  split; [exact E2 | apply Forall_app; split; assumption].
Qed.

(** what follows [get_self] need only be right for an object that
    satisfies the invariant *)
Lemma keeps_get_self {B} (I : CCMCluster -> Prop) P (f : CCMCluster -> M W B) :
  (forall c, I c -> keeps I P (f c)) -> keeps I P (bind get_self f).
Proof.
  intros Hf s Hs.
  rewrite (run_bind_silent get_self _ s (self s) s eq_refl).
  now apply Hf.
Qed.

Lemma keeps_put_self (I : CCMCluster -> Prop) P c :
  I c -> keeps I P (put_self c).
Proof. intros Hc s _. split; [exact Hc | constructor]. Qed.

Lemma keeps_ret {A} I P (a : A) : keeps I P (ret a).
Proof. apply keeps_of_quiet, quiet_ret. Qed.

Lemma keeps_try_finally {A} I P (body : M W A) (fin : M W unit) :
  keeps I P body -> keeps I P fin -> keeps I P (try_finally body fin).
Proof.
  intros Hb Hf s Hs. unfold try_finally.
  destruct (Hb s Hs) as [E1 T1]. destruct (body s) as [[o s1] t1].
  unfold state_of, trace_of in *; simpl in *.
  destruct (Hf s1 E1) as [E2 T2].
  destruct o; try (split; assumption);
    destruct (fin s1) as [[o2 s2] t2];
    unfold state_of, trace_of in *; simpl in *;
    destruct o2; simpl;
    (split; [assumption | apply Forall_app; split; assumption]).
Qed.

Lemma not_kill_base e : not_kill e -> not_shell e -> not_kill e.
Proof. auto. Qed.

Lemma not_shell_base e : not_kill e -> not_shell e -> not_shell e.
Proof. auto. Qed.

Lemma keeps_killall__check_state : keeps killall_off not_kill _check_state.
Proof.
  unfold _check_state.
  apply keeps_bind; [apply keeps_of_quiet, quiet_emit; exact I | intros _].
  apply keeps_get_self. intros c Hc.
  apply keeps_bind.
  - apply keeps_of_quiet. destruct (manage_interfaces c).
    + apply emits__setup_loopbacks; [exact not_kill_base | intros; exact I].
    + apply emits__check_loopbacks. exact not_kill_base.
  - intros _. apply keeps_get_self. intros c' Hc'.
    unfold killall_off in Hc'. rewrite Hc'. apply keeps_ret.
Qed.

Lemma keeps_unmanaged__check_state : keeps unmanaged not_shell _check_state.
Proof.
  unfold _check_state.
  apply keeps_bind; [apply keeps_of_quiet, quiet_emit; exact I | intros _].
  apply keeps_get_self. intros c Hc.
  unfold unmanaged in Hc. rewrite Hc.
  apply keeps_of_quiet.
  frame_step; [apply emits__check_loopbacks; exact not_shell_base|].
  frame_step; [apply quiet_get_self|].
  frame_step; [|apply quiet_ret].
  frame_step; [apply emits__cassandra_processes; exact not_shell_base|].
  frame_step; [|apply quiet_ret].
  frame_step; [apply quiet_emit; exact I|].
  apply emits__kill_all; [exact not_shell_base | intros; exact I].
Qed.

(** [setup] under an invariant of the cluster object that neither the name
    nor the flag affects *)
Lemma keeps__setup (I : CCMCluster -> Prop) P args :
  (forall c n, I c -> I (set_name c n)) ->
  (forall c, I c -> I (set_initialized c true)) ->
  keeps I P _check_state ->
  quiet P _create_cluster ->
  keeps I P (setup args).
Proof.
  intros Hname Hflag Hcheck Hcreate. unfold setup.
  apply keeps_get_self. intros c Hc.
  destruct (initialized c); [apply keeps_ret|].
  apply keeps_bind.
  { destruct args; [apply keeps_ret | apply keeps_put_self, Hname, Hc]. }
  intros _. apply keeps_bind; [exact Hcheck | intros _].
  apply keeps_bind; [|intros _; apply keeps_ret].
  apply keeps_try_finally; [now apply keeps_of_quiet|].
  apply keeps_get_self. intros c' Hc'. apply keeps_put_self, Hflag, Hc'.
Qed.

(** ** The commands of [teardown] *)

Lemma trace_bind_cases {A B} (m : M W A) (f : A -> M W B) s :
  trace_of (bind m f s) = trace_of (m s) \/
  exists a, outcome_of (m s) = Return a /\
            trace_of (bind m f s) =
            (trace_of (m s) ++ trace_of (f a (state_of (m s))))%list.
Proof.
  unfold bind. destruct (m s) as [[o s1] t1].
  destruct o; try (left; reflexivity).
  right. exists a. split; [reflexivity|].
  unfold state_of, trace_of. cbn [fst snd].
  destruct (f a s1) as [[o2 s2] t2]. reflexivity.
Qed.

Lemma trace_try_finally_cases {A} (body : M W A) (fin : M W unit) s :
  trace_of (try_finally body fin s) = trace_of (body s) \/
  trace_of (try_finally body fin s) =
  (trace_of (body s) ++ trace_of (fin (state_of (body s))))%list.
Proof.
  unfold try_finally. destruct (body s) as [[o s1] t1].
  unfold state_of, trace_of; cbn [fst snd].
  destruct o; try (left; reflexivity);
    right; destruct (fin s1) as [[o2 s2] t2]; destruct o2; reflexivity.
Qed.

Lemma remove_cluster_trace fuel (s : St W) :
  exists t,
    trace_of (_remove_cluster fuel s) =
    SubprocessCall ("ccm remove " ++ name (self s)) :: t /\
    Forall not_shell t.
Proof.
  unfold _remove_cluster.
  rewrite (run_bind_silent get_self _ s (self s) s eq_refl).
  unfold call, on_host, bind.
  destruct (subprocess_call ("ccm remove " ++ name (self s)) (host s))
    as [rc w].
  destruct (negb (rc =? 0)).
  - exists []. split; [reflexivity | constructor].
  - destruct (emits__wait_gone not_shell not_shell_base fuel
                {| self := self s; host := w |}) as [_ T].
    destruct (_wait_gone fuel {| self := self s; host := w |}) as [[o s1] t1].
    exists t1. split; [reflexivity | exact T].
Qed.

(** the shape of a run of [teardown] on an initialized cluster *)
Lemma teardown_trace fuel (s : St W) :
  initialized (self s) = true ->
  exists t,
    trace_of (teardown fuel s) =
    SubprocessCall ("ccm remove " ++ name (self s)) :: t /\
    (manage_interfaces (self s) = false -> Forall not_shell t).
Proof.
  intros Hi. unfold teardown.
  rewrite (run_bind_silent get_self _ s (self s) s eq_refl). rewrite Hi.
  cbn [negb]. rewrite trace_bind_ret.
  destruct (remove_cluster_trace fuel s) as (t1 & E1 & T1).
  destruct (quiet__remove_cluster fuel s) as [Es _].
  match goal with
  | |- context [try_finally (bind _ ?K) ?F] =>
      assert (HK : forall a, keeps unmanaged not_shell (K a));
      [| assert (HF : keeps unmanaged not_shell F) ]
  end.
  { intros a. apply keeps_get_self. intros c Hc.
    unfold unmanaged in Hc. rewrite Hc. apply keeps_ret. }
  { apply keeps_get_self. intros c Hc.
    apply keeps_bind; [apply keeps_put_self; exact Hc | intros _].
    apply keeps_unmanaged__check_state. }
  match goal with
  | |- context [try_finally ?B ?F] =>
      assert (HB : exists t2,
                 trace_of (B s) =
                 SubprocessCall ("ccm remove " ++ name (self s)) :: t2 /\
                 (manage_interfaces (self s) = false ->
                  Forall not_shell t2 /\ unmanaged (self (state_of (B s)))));
      [| destruct (trace_try_finally_cases B F s) as [E | E];
         destruct HB as (t2 & E2 & T2); rewrite E, E2 ]
  end.
  - match goal with
    | |- context [bind ?m ?K s] =>
        assert (Q : quiet not_creation (bind m K))
          by (repeat (frame_step; auto with frames);
              apply quiet__remove_cluster);
        assert (HI : manage_interfaces (self s) = false ->
                     unmanaged (self (state_of (bind m K s))))
          by (intros Hm; destruct (Q s) as [Eq _]; rewrite Eq; exact Hm);
        destruct (trace_bind_cases m K s) as [E | (a & Ea & E)]
    end.
    + exists t1. split; [now rewrite E, E1|].
      intros Hm. split; [exact T1 | now apply HI].
    + exists (t1 ++ trace_of
                      ((fun _ : unit =>
                          bind get_self (fun c =>
                            if manage_interfaces c
                            then _teardown_loopbacks NUM_NODES else ret tt)) a
                         (state_of (_remove_cluster fuel s))))%list.
      split; [now rewrite E, E1|].
      intros Hm. split; [|now apply HI].
      apply Forall_app. split; [exact T1|].
      refine (proj2 (HK a (state_of (_remove_cluster fuel s)) _)).
      unfold unmanaged. rewrite Es. exact Hm.
  - exists t2. split; [reflexivity | intros Hm; now apply T2].
  - eexists. split; [reflexivity|]. intros Hm.
    destruct (T2 Hm) as [T2' I2].
    apply Forall_app. split; [exact T2' | now apply HF].
Qed.

(** X12. On an initialized cluster with [manage_interfaces] unset, the
    only shell command of [teardown] is [ccm remove] for the cluster's
    name, whatever else happens in the run: no alias is removed and the
    state check of its [finally] block changes nothing on the host. *)
Theorem teardown_unmanaged_commands (fuel : nat) (s : St W) :
  initialized (self s) = true ->
  manage_interfaces (self s) = false ->
  commands (trace_of (teardown fuel s)) = ["ccm remove " ++ name (self s)].
Proof.
  intros Hi Hm. destruct (teardown_trace fuel s Hi) as (t & E & T).
  rewrite E. cbn [commands]. now rewrite (commands_none _ (T Hm)).
Qed.

(** ** The name of the cluster *)



(** X14. When the state check does not return, [setup] stops there with
    the outcome of the check: the creation is not entered and the
    initialized flag stays unset (so a later call checks again), while the
    name given to the call is already recorded. *)
Theorem setup_stops_at_failed_check (args : list string) (s : St W) :
  initialized (self s) = false ->
  outcome_of (_check_state (record_name args s)) <> Return tt ->
  let r0 := _check_state (record_name args s) in
  let r := setup args s in
  outcome_of r = falls_off (outcome_of r0) /\
  trace_of r = trace_of r0 /\
  creations (trace_of r) = 0%nat /\
  initialized (self (state_of r)) = false /\
  name (self (state_of r)) = hd (name (self s)) args.
Proof.
  intros Hi Hn r0 r. subst r0 r.
  assert (Hn' : forall u, outcome_of (_check_state (record_name args s))
                          <> Return u) by (intros []; exact Hn).
  rewrite (setup_check_aborts args s Hi Hn').
  destruct (quiet__check_state (record_name args s)) as [Es Tq].
  destruct (_check_state (record_name args s)) as [[o sc] tc].
  unfold outcome_of, state_of, trace_of in *. cbn [fst snd] in *.
  split; [reflexivity|]. split; [reflexivity|].
  split; [now apply creations_quiet|].
  rewrite Es. destruct args; cbn; auto.
Qed.

(** ** Managed loopbacks *)

Lemma bind_Return_split {A B} (m : M W A) (f : A -> M W B) s b s2 t :
  bind m f s = (Return b, s2, t) ->
  exists a s1 t1 t2,
    m s = (Return a, s1, t1) /\ f a s1 = (Return b, s2, t2) /\
    t = (t1 ++ t2)%list.
Proof.
  unfold bind. destruct (m s) as [[o s1] t1].
  destruct o; try discriminate.
  destruct (f a s1) as [[o2 s3] t2] eqn:E.
  intros H. injection H as -> -> <-. now exists a, s1, t1, t2.
Qed.

Lemma get_self_inv (s s1 : St W) c t :
  get_self s = (Return c, s1, t) -> c = self s /\ s1 = s /\ t = [].
Proof. unfold get_self. intros H. injection H as <- <- <-. auto. Qed.

(** the second loop of [_setup_loopbacks] returns only when it meets no
    missing binding, and then it has done nothing *)
Lemma verify_loop (s : St W) p lbs (l : list Z) :
  _platform_lookup sys_platform (cluster_platforms (self s)) = Some p ->
  forall acc a s' t',
  for_in l acc (fun x missing =>
    bind (_mkiface x) (fun iface =>
    bind get_self (fun c =>
    let ip_addr := _mkaddr c x in
    if negb (Py.pair_in (iface, ip_addr) lbs) then
      bind (stderr_write ("Ip check failed " ++ Py.str_of_int x ++ "." ++ nl))
        (fun _ =>
      bind lookup_a (fun a => ret (missing ++ [a])%list))
    else ret missing))) s = (Return a, s', t') ->
  s' = s /\ t' = [] /\ filter (is_missing p (self s) lbs) l = [].
Proof.
  intros Hp. induction l as [|x l IH]; intros acc a s' t' H; cbn [for_in] in H.
  - unfold ret in H. injection H as _ <- <-. auto.
  - apply bind_Return_split in H as (a1 & s1 & t1 & t2 & H1 & H2 & ->).
    rewrite (run_bind_silent _ _ _ _ _ (run__mkiface s p x Hp)) in H1.
    rewrite (run_bind_silent get_self _ s (self s) s eq_refl) in H1.
    cbv zeta in H1. cbn [filter]. unfold is_missing at 1, required_binding.
    destruct (negb (Py.pair_in (Platform._mkiface p x, _mkaddr (self s) x) lbs)).
    + unfold stderr_write, lookup_a, bind, emit, raise in H1. discriminate.
    + unfold ret in H1. injection H1 as <- <- <-.
      apply IH in H2. exact H2.
Qed.

(** X15. When [_setup_loopbacks] returns, the binding of every node index
    below [nodes] is among the host's loopbacks as [_loopbacks] reads them
    in the state the call ends in; the cluster object is unchanged. *)
Theorem setup_loopbacks_returns_means_bound
  (s sf : St W) (t : list event) (p : CCMPlatform) :
  _platform_lookup sys_platform (cluster_platforms (self s)) = Some p ->
  _setup_loopbacks s = (Return tt, sf, t) ->
  self sf = self s /\
  exists lbs,
    _loopbacks sf = (Return lbs, sf, []) /\
    forall x, 0 <= x < nodes (self s) ->
              In (required_binding p (self s) x) lbs.
Proof.
  intros Hp H. unfold _setup_loopbacks in H.
  apply bind_Return_split in H as (lbs0 & s1 & t1 & t2 & H1 & H & ->).
  destruct (_loopbacks_query s) as [Q1 _]. rewrite H1 in Q1.
  unfold state_of in Q1; cbn in Q1. subst s1.
  apply bind_Return_split in H as (c & s2 & t3 & t4 & H2 & H & ->).
  apply get_self_inv in H2 as (-> & -> & ->).
  apply bind_Return_split in H as ([] & s3 & t5 & t6 & H3 & H & ->).
  assert (E3 : self s3 = self s).
  { match type of H3 with
    | ?m s = _ =>
        assert (Q : quiet not_creation m)
          by (unfold stderr_write, stderr_flush;
              repeat (frame_step; auto with frames));
        destruct (Q s) as [E _]; rewrite H3 in E; exact E
    end. }
  apply bind_Return_split in H as (lbs2 & s4 & t7 & t8 & H4 & H & ->).
  destruct (_loopbacks_query s3) as [Q4 T4]. rewrite H4 in Q4, T4.
  unfold state_of in Q4; unfold trace_of in T4; cbn in Q4, T4. subst s4 t7.
  apply bind_Return_split in H as (c & s5 & t9 & t10 & H5 & H & ->).
  apply get_self_inv in H5 as (-> & -> & ->).
  apply bind_Return_split in H as (missing & s6 & t11 & t12 & H6 & H & ->).
  rewrite <- E3 in Hp.
  apply (verify_loop s3 p lbs2 _ Hp) in H6 as (-> & -> & Hnone).
  destruct missing as [|m ms].
  - unfold ret in H. injection H as <- _.
    split; [exact E3|]. exists lbs2. split; [exact H4|].
    intros x Hx. rewrite E3 in Hnone.
    destruct (Py.pair_in (required_binding p (self s) x) lbs2) eqn:Ein;
      [now apply pair_in_spec|].
    exfalso.
    assert (Hin : In x (filter (is_missing p (self s) lbs2)
                         (Py.range (nodes (self s))))).
    { apply filter_In. split; [now apply range_spec|].
      unfold is_missing. now rewrite Ein. }
    rewrite Hnone in Hin. contradiction.
  - unfold stderr_write, bind, emit, raise in H. discriminate.
Qed.









(** ** Removing the aliases *)




(** ** More on creation, teardown and matching *)

(** X18. When [ccm create] exits with 0, [_create_cluster] returns having
    written nothing: the captured output is dropped without being decoded,
    and the only effect on the host is the subprocess itself. *)
Theorem create_cluster_zero_exit
  (s : St W) (w' : W) (out err : string) :
  name (self s) <> EmptyString ->
  popen_communicate (popenargs (self s)) (host s) = (Completed out err 0, w') ->
  _create_cluster s =
  (Return tt, {| self := self s; host := w' |},
   [Enter "_create_cluster"; Popen (popenargs (self s))]).
Proof.
  intros Hn Hp.
  unfold _create_cluster, bind, emit, get_self, on_host, ret.
  simpl. rewrite (truthy_nonempty _ Hn). simpl. rewrite Hp. reflexivity.
Qed.

(** X19. [teardown] is not idempotent: since it leaves the flag set, a
    second [teardown] does not return at once but asks [ccm] again to
    remove the cluster of the same name. *)
Theorem teardown_twice_removes_twice (fuel fuel' : nat) (s : St W) :
  initialized (self s) = true ->
  let s1 := state_of (teardown fuel s) in
  exists t,
    trace_of (teardown fuel' s1) =
    SubprocessCall ("ccm remove " ++ name (self s)) :: t.
Proof.
  intros Hi s1. subst s1.
  pose proof (teardown_self fuel s Hi) as E.
  assert (Hi' : initialized (self (state_of (teardown fuel s))) = true)
    by now rewrite E.
  destruct (teardown_trace fuel' _ Hi') as (t & Et & _).
  exists t. now rewrite Et, E.
Qed.

Lemma contains_trans a b c : contains a b -> contains b c -> contains a c.
Proof.
  intros (p1 & q1 & ->) (p2 & q2 & ->).
  exists (p1 ++ p2), (q2 ++ q1). now rewrite !append_assoc.
Qed.

(** X20. Matching is by substring of the name: whatever command line
    matches a cluster matches every cluster whose name occurs inside that
    cluster's name (a cluster [sess] matches the processes of a cluster
    [sess2]). *)
Theorem cmdline_matches_shorter_name (c : CCMCluster) (longer : string)
  (cmdline : list string) :
  contains longer (name c) ->
  _cmdline_matches (set_name c longer) cmdline = true ->
  _cmdline_matches c cmdline = true.
Proof.
  unfold _cmdline_matches. intros Hsub.
  destruct (Py.str_in CassandraDaemon cmdline); [|discriminate].
  rewrite !_cmdline_scan_spec. intros (arg & Hin & Hc).
  exists arg. split; [exact Hin|].
  apply (contains_trans _ longer); assumption.
Qed.

Lemma run__kill_all (s : St W) :
  exists sf t,
    _kill_all s = (Return tt, sf, t) /\
    self sf = self s /\
    kills t = map pid (matching (self s) (process_iter (host s))).
Proof.
  unfold _kill_all.
  rewrite (run_bind_silent get_host _ s (host s) s eq_refl).
  apply run_kill_loop. reflexivity.
Qed.

(** X21. With [killall] set and interfaces not managed, a state check
    whose loopback check passes and which returns has killed exactly the
    processes that match the cluster, in the order of the process table;
    with none matching it has killed nothing. *)
Theorem check_state_kills_matching (s : St W) :
  manage_interfaces (self s) = false ->
  killall (self s) = true ->
  _check_loopbacks s = (Return tt, s, []) ->
  outcome_of (_check_state s) = Return tt ->
  kills (trace_of (_check_state s)) =
    map pid (matching (self s) (process_iter (host s))).
Proof.
  intros Hm Hk Hl _. unfold _check_state.
  rewrite (run_bind (emit _) _ s tt s [_] eq_refl). cbv beta.
  rewrite (run_bind_silent get_self _ s (self s) s eq_refl). rewrite Hm.
  rewrite (run_bind_silent _ _ _ _ _ Hl).
  rewrite (run_bind_silent get_self _ s (self s) s eq_refl). rewrite Hk.
  destruct (run__cassandra_processes s) as [t1 E1].
  destruct (quiet_debug__cassandra_processes s) as [_ T1].
  rewrite E1 in T1. unfold trace_of in T1; cbn [snd] in T1.
  apply debug_log_only in T1 as (_ & _ & K1).
  rewrite (run_bind _ _ _ _ _ _ E1). cbv beta.
  destruct (matching (self s) (process_iter (host s))) as [|q qs] eqn:Em.
  - unfold ret, outcome_of, state_of, trace_of. cbn [fst snd].
    rewrite !kills_app, K1. reflexivity.
  - change (negb (Z.of_nat (List.length (q :: qs)) =? 0)) with true.
    cbv iota.
    destruct (run__kill_all s) as (sf & t2 & E2 & _ & K2).
    rewrite Em in K2.
    rewrite (run_bind (emit _) _ s tt s [_] eq_refl). cbv beta.
    rewrite E2. unfold outcome_of, state_of, trace_of. cbn [fst snd].
    rewrite !kills_app, K1. cbn [app kills]. exact K2.
Qed.

(** ** C4: the exit status after a failed creation *)

(** whatever nonzero code [ccm create] exits with, the code is handed to
    [pytest.exit] as its message, and the test run ends with pytest's
    interrupted status *)
Lemma create_cluster_exit_status
  (s : St W) (w' : W) (out err out_text err_text : string) (code : Z) :
  name (self s) <> EmptyString ->
  popen_communicate (popenargs (self s)) (host s) = (Completed out err code, w') ->
  code <> 0 ->
  bytes_decode out = Some out_text ->
  bytes_decode err = Some err_text ->
  outcome_of (_create_cluster s) = PytestExit code /\
  session_exit_status (outcome_of (_create_cluster s)) = Some EXIT_INTERRUPTED.
Proof.
  intros Hn Hp Hc Ho He.
  rewrite (run__create_cluster_nonzero s w' out err out_text err_text code
             Hn Hp Hc Ho He).
  split; reflexivity.
Qed.

(** ** C10: the aliases [teardown] removes *)

Lemma teardown_after_body fuel (s0 sb : St W) tb :
  initialized (self s0) = true ->
  self sb = self s0 ->
  bind (_remove_cluster fuel) (fun _ =>
    bind get_self (fun c =>
    if manage_interfaces c then _teardown_loopbacks NUM_NODES else ret tt)) s0 =
  (Return tt, sb, tb) ->
  teardown fuel s0 =
  (falls_off (outcome_of (_check_state sb)), state_of (_check_state sb),
   (tb ++ trace_of (_check_state sb))%list).
Proof.
  intros Hi Hs Hb. unfold teardown.
  rewrite (run_bind_silent get_self _ s0 (self s0) s0 eq_refl). rewrite Hi.
  cbn [negb].
  match goal with
  | |- bind (try_finally ?B ?F) _ s0 = _ =>
      assert (Ef : F sb = _check_state sb)
  end.
  { rewrite (run_bind_silent get_self _ sb (self sb) sb eq_refl).
    rewrite (run_bind_silent (put_self _) _ sb tt sb); [reflexivity|].
    unfold put_self. rewrite set_initialized_id by (now rewrite Hs).
    now rewrite St_eta. }
  unfold bind at 1, try_finally. rewrite Hb, Ef.
  destruct (_check_state sb) as [[o sf] t].
  unfold outcome_of, state_of, trace_of. cbn [fst snd].
  destruct o; unfold ret, falls_off; cbn; rewrite ?app_nil_r; reflexivity.
Qed.

(** C10. The aliases [teardown] removes. [teardown] calls
    [_teardown_loopbacks] without argument, so with the module constant
    [NUM_NODES] and not with [self.nodes], and only behind its test of
    [manage_interfaces]. On an initialized cluster whose removal returned:
    with [manage_interfaces] unset the run is the cluster removal followed
    by the state check and [ccm remove] is its only command, so no alias is
    removed; with [manage_interfaces] set and the three removal commands
    succeeding, the run is exactly the cluster removal, the three removals
    of indices 0, 1, 2, and the state check, whatever [nodes] is. *)
Theorem teardown_alias_removals
  (fuel : nat) (s0 s1 : St W) (t0 : list event) :
  initialized (self s0) = true ->
  _remove_cluster fuel s0 = (Return tt, s1, t0) ->
  let c := self s0 in
  (manage_interfaces c = false ->
   teardown fuel s0 =
   (falls_off (outcome_of (_check_state s1)), state_of (_check_state s1),
    (t0 ++ trace_of (_check_state s1))%list) /\
   commands (trace_of (teardown fuel s0)) = ["ccm remove " ++ name c]) /\
  (manage_interfaces c = true ->
   forall (p : CCMPlatform) (w1 w2 w3 : W),
     _platform_lookup sys_platform (cluster_platforms c) = Some p ->
     subprocess_call (removal p c 0) (host s1) = (0, w1) ->
     subprocess_call (removal p c 1) w1 = (0, w2) ->
     subprocess_call (removal p c 2) w2 = (0, w3) ->
     let removals :=
       (removal_events (removal p c 0) ++ removal_events (removal p c 1) ++
        removal_events (removal p c 2))%list in
     let s3 := {| self := c; host := w3 |} in
     _teardown_loopbacks NUM_NODES s1 = (Return tt, s3, removals) /\
     teardown fuel s0 =
     (falls_off (outcome_of (_check_state s3)), state_of (_check_state s3),
      (t0 ++ removals ++ trace_of (_check_state s3))%list) /\
     commands removals = [removal p c 0; removal p c 1; removal p c 2] /\
     (forall n x, removal p (with_nodes c n) x = removal p c x)).
Proof.
  intros Hi Hr c.
  assert (Es : self s1 = c).
  { destruct (quiet__remove_cluster fuel s0) as [E _].
    rewrite Hr in E. exact E. }
  split.
  - intros Hm. split.
    + rewrite (teardown_after_body fuel s0 s1 t0 Hi Es); [reflexivity|].
      rewrite (run_bind _ _ _ _ _ _ Hr). cbv beta.
      rewrite (run_bind_silent get_self _ s1 (self s1) s1 eq_refl).
      rewrite Es. fold c. rewrite Hm.
      unfold ret, outcome_of, state_of, trace_of. cbn [fst snd].
      now rewrite app_nil_r.
    + destruct (teardown_trace fuel s0 Hi) as (t & E & T).
      rewrite E. cbn [commands]. now rewrite (commands_none _ (T Hm)).
  - intros Hm p w1 w2 w3 Hp H0 H1 H2 removals s3.
    assert (Hrun : _teardown_loopbacks NUM_NODES s1 =
                   (Return tt, s3, removals)).
    { subst removals s3. rewrite <- Es in *.
      now apply (run__teardown_loopbacks_default s1 p w1 w2 w3). }
    split; [exact Hrun|]. split; [|split].
    + rewrite (teardown_after_body fuel s0 s3 (t0 ++ removals)%list Hi eq_refl).
      * now rewrite <- app_assoc.
      * rewrite (run_bind _ _ _ _ _ _ Hr). cbv beta.
        rewrite (run_bind_silent get_self _ s1 (self s1) s1 eq_refl).
        rewrite Es. fold c. rewrite Hm, Hrun. reflexivity.
    + reflexivity.
    + intros n x. apply removal_with_nodes.
Qed.

(** ** Subprocesses and kills *)

Lemma popens_app t1 t2 : popens (t1 ++ t2) = (popens t1 ++ popens t2)%list.
Proof.
  induction t1 as [|e t1 IH]; [reflexivity|].
  destruct e; simpl; rewrite IH; reflexivity.
Qed.

Lemma popens_none t : Forall not_popen t -> popens t = [].
Proof.
  induction 1 as [|e t He _ IH]; [reflexivity|].
  destruct e; simpl in *; try exact IH. contradiction.
Qed.

Lemma quiet_not_popen__check_state : quiet not_popen _check_state.
Proof.
  unfold _check_state, _setup_loopbacks, _check_loopbacks, _mkiface,
    _add_ip_cmd, _add_ip_addr, _platform, Platform_add_ip_addr, call,
    lookup_a, stderr_write, stderr_flush, _cassandra_processes, _kill_all,
    _inspect.
  repeat (frame_step; try exact I); try apply quiet__loopbacks.
Qed.

(** the one subprocess of [_create_cluster] *)
Lemma create_cluster_popens (s : St W) :
  popens (trace_of (_create_cluster s)) =
  if Py.truthy (name (self s)) then [popenargs (self s)] else [].
Proof.
  unfold _create_cluster, bind, emit, get_self, on_host, decode,
    stdout_write, stdout_flush, stderr_write, stderr_flush, pytest_exit,
    raise, ret.
  cbn [fst snd].
  destruct (Py.truthy (name (self s))); cbn [negb]; [|reflexivity].
  destruct (popen_communicate (popenargs (self s)) (host s)) as [r w].
  destruct r as [out err rc|]; [|reflexivity].
  destruct (negb (rc =? 0)); [|reflexivity].
  destruct (bytes_decode out); [|reflexivity].
  destruct (bytes_decode err); reflexivity.
Qed.

Lemma quiet_not_popen_kill__check_state : quiet not_popen_kill _check_state.
Proof.
  unfold _check_state, _setup_loopbacks, _check_loopbacks, _mkiface,
    _add_ip_cmd, _add_ip_addr, _platform, Platform_add_ip_addr, call,
    lookup_a, stderr_write, stderr_flush, _cassandra_processes, _kill_all,
    _inspect, not_popen_kill.
  repeat (frame_step; try discriminate); try apply quiet__loopbacks.
Qed.

Lemma quiet_not_popen_kill__wait_gone fuel :
  quiet not_popen_kill (_wait_gone fuel).
Proof.
  induction fuel as [|fuel IH]; cbn [_wait_gone].
  - frame.
  - unfold _cassandra_processes, _inspect, not_popen_kill in *.
    repeat (frame_step; try discriminate); exact IH.
Qed.

Lemma keeps_not_popen_kill__teardown fuel :
  keeps (fun _ => True) not_popen_kill (teardown fuel).
Proof.
  unfold teardown. apply keeps_get_self. intros c _.
  destruct (negb (initialized c)); [apply keeps_ret|].
  apply keeps_bind; [|intros _; apply keeps_ret].
  apply keeps_try_finally.
  - apply keeps_of_quiet.
    unfold _remove_cluster, _teardown_loopbacks, _mkiface, _rm_ip_addr,
      _platform, Platform_rm_ip_addr, call, stderr_write, stderr_flush.
    repeat (frame_step; try (unfold not_popen_kill; discriminate)).
    apply quiet_not_popen_kill__wait_gone.
  - apply keeps_get_self. intros c' _.
    apply keeps_bind; [now apply keeps_put_self | intros _].
    apply keeps_of_quiet, quiet_not_popen_kill__check_state.
Qed.


(** the subprocess of [ccm create] is killed only when waiting for it
    raised *)
Lemma create_cluster_popen_kill (s : St W) :
  In PopenKill (trace_of (_create_cluster s)) ->
  name (self s) <> EmptyString /\
  fst (popen_communicate (popenargs (self s)) (host s)) = CommunicateRaised.
Proof.
  unfold _create_cluster, bind, emit, get_self, on_host, decode,
    stdout_write, stdout_flush, stderr_write, stderr_flush, pytest_exit,
    raise, ret.
  cbn [fst snd].
  destruct (name (self s)) as [|a n] eqn:En; cbn [Py.truthy negb].
  { cbn. intros [H|[]]. discriminate H. }
  destruct (popen_communicate (popenargs (self s)) (host s)) as [r w].
  intros H. split; [discriminate|]. cbn [fst].
  destruct r as [out err rc|]; [exfalso|reflexivity].
  revert H.
  destruct (negb (rc =? 0)); [|cbn; intuition discriminate].
  destruct (bytes_decode out); [|cbn; intuition discriminate].
  destruct (bytes_decode err); cbn; intuition discriminate.
Qed.

Lemma not_popen_kill_In t : Forall not_popen_kill t -> ~ In PopenKill t.
Proof.
  intros F H. rewrite Forall_forall in F. now apply (F _ H).
Qed.

(** X10. With [killall] unset, [kill()] is never called on a process of the
    process table: not by the state check, not by [setup], not by
    [teardown], whatever processes the host runs. The state check and
    [teardown] kill no subprocess of their own either. The one kill [setup]
    can still perform is that of its own [ccm create] subprocess, and it
    does so only when the cluster was not initialized, the state check
    returned, the name is not empty and waiting for the subprocess raised. *)
Theorem no_kill_without_killall (args : list string) (fuel : nat) (s : St W) :
  killall (self s) = false ->
  (kills (trace_of (_check_state s)) = [] /\
   kills (trace_of (setup args s)) = [] /\
   kills (trace_of (teardown fuel s)) = []) /\
  (~ In PopenKill (trace_of (_check_state s)) /\
   ~ In PopenKill (trace_of (teardown fuel s))) /\
  (In PopenKill (trace_of (setup args s)) ->
   initialized (self s) = false /\
   exists s1 t1,
     _check_state (record_name args s) = (Return tt, s1, t1) /\
     name (self s1) <> EmptyString /\
     fst (popen_communicate (popenargs (self s1)) (host s1)) =
       CommunicateRaised).
Proof.
  intros Hk. split; [|split].
  - split; [|split]; apply kills_none.
    + now apply keeps_killall__check_state.
    + apply (keeps__setup killall_off not_kill args); auto.
      * apply keeps_killall__check_state.
      * apply emits__create_cluster. exact not_kill_base.
    + assert (K : keeps killall_off not_kill (teardown fuel)).
      { unfold teardown. apply keeps_get_self. intros c Hc.
        destruct (negb (initialized c)); [apply keeps_ret|].
        apply keeps_bind; [|intros _; apply keeps_ret].
        apply keeps_try_finally.
        - apply keeps_of_quiet.
          frame_step;
            [apply emits__remove_cluster;
               [exact not_kill_base | intros; exact I]|].
          frame_step; [apply quiet_get_self|].
          frame_step; [|apply quiet_ret].
          apply emits__teardown_loopbacks;
            [exact not_kill_base | intros; exact I].
        - apply keeps_get_self. intros c' Hc'.
          apply keeps_bind; [apply keeps_put_self; exact Hc' | intros _].
          apply keeps_killall__check_state. }
      now apply K.
  - split; apply not_popen_kill_In.
    + apply quiet_not_popen_kill__check_state.
    + now apply keeps_not_popen_kill__teardown.
  - intros Hin.
    destruct (initialized (self s)) eqn:Hi.
    { rewrite (setup_initialized args s Hi) in Hin. contradiction Hin. }
    split; [reflexivity|].
    destruct (quiet_not_popen_kill__check_state (record_name args s))
      as [_ Tq].
    destruct (_check_state (record_name args s)) as [[o s1] t1] eqn:Ec.
    unfold trace_of in Tq; cbn [snd] in Tq.
    assert (Habort :
      (forall u, o <> Return u) -> False).
    { intros Hn.
      assert (Hn' : forall u,
                 outcome_of (_check_state (record_name args s)) <> Return u)
        by (rewrite Ec; exact Hn).
      rewrite (setup_check_aborts args s Hi Hn'), Ec in Hin.
      exact (not_popen_kill_In _ Tq Hin). }
    destruct o as [[]| e | code |];
      try (exfalso; apply Habort; intros u; discriminate).
    exists s1, t1. split; [reflexivity|].
    rewrite (setup_check_passes args s s1 t1 Hi Ec) in Hin.
    unfold trace_of at 1 in Hin; cbn [snd] in Hin.
    apply in_app_or in Hin as [Hin|Hin].
    + contradiction (not_popen_kill_In _ Tq Hin).
    + now apply create_cluster_popen_kill.
Qed.

(** X11. With [manage_interfaces] unset, neither [setup] nor the state
    check calls [subprocess.call], and the state check starts no subprocess.
    The only subprocess [setup] starts is the one [Popen] of [ccm create]
    for the recorded name, itself run through the shell, and it starts it
    exactly when the cluster was not yet initialized, the state check
    returned and the name is not empty. *)
Theorem setup_unmanaged_runs_no_command (args : list string) (s : St W) :
  manage_interfaces (self s) = false ->
  (commands (trace_of (setup args s)) = [] /\
   commands (trace_of (_check_state s)) = []) /\
  popens (trace_of (_check_state s)) = [] /\
  popens (trace_of (setup args s)) =
    (if initialized (self s) then []
     else match outcome_of (_check_state (record_name args s)) with
          | Return _ =>
              let c := self (record_name args s) in
              if Py.truthy (name c) then [popenargs c] else []
          | _ => []
          end).
Proof.
  intros Hm. split; [|split].
  - split; apply commands_none.
    + apply (keeps__setup unmanaged not_shell args); auto.
      * apply keeps_unmanaged__check_state.
      * apply emits__create_cluster. exact not_shell_base.
    + now apply keeps_unmanaged__check_state.
  - apply popens_none, quiet_not_popen__check_state.
  - destruct (initialized (self s)) eqn:Hi.
    { now rewrite (setup_initialized args s Hi). }
    destruct (quiet_not_popen__check_state (record_name args s))
      as [Es Tq].
    destruct (_check_state (record_name args s)) as [[o s1] t1] eqn:Ec.
    unfold state_of, trace_of in Es, Tq; cbn [fst snd] in Es, Tq.
    assert (Habort :
      (forall u, o <> Return u) ->
      popens (trace_of (setup args s)) = []).
    { intros Hn.
      assert (Hn' : forall u,
                 outcome_of (_check_state (record_name args s)) <> Return u)
        by (rewrite Ec; exact Hn).
      rewrite (setup_check_aborts args s Hi Hn'), Ec.
      now apply popens_none. }
    destruct o as [[]| e | code |];
      try (unfold outcome_of; cbn [fst]; apply Habort; intros u; discriminate).
    rewrite (setup_check_passes args s s1 t1 Hi Ec).
    unfold trace_of at 1, outcome_of. cbn [fst snd].
    rewrite popens_app, (popens_none _ Tq), create_cluster_popens, Es.
    reflexivity.
Qed.
End Verification.

(** * Runs on the simulated host *)

(** ** C2: what the second pass does when a binding is still missing *)

(** the cluster of the session, managing its interfaces *)
Example managed_on_silent_host_events :
  stderr_lines
    (trace_of (_setup_loopbacks
                 (mkSt (with_manage_interfaces sess_cluster true)
                       linux_silent_ifconfig))) =
  [ "Ip check failed 0." ++ nl; "Add ip address to loopback: 0" ++ nl;
    "Running: sudo ifconfig lo:auth_test0 127.0.5.1 netmask 255.0.0.0 up" ++ nl;
    "Ip check failed 1." ++ nl; "Add ip address to loopback: 1" ++ nl;
    "Running: sudo ifconfig lo:auth_test1 127.0.5.2 netmask 255.0.0.0 up" ++ nl;
    "Ip check failed 2." ++ nl; "Add ip address to loopback: 2" ++ nl;
    "Running: sudo ifconfig lo:auth_test2 127.0.5.3 netmask 255.0.0.0 up" ++ nl;
    "Ip check failed 0." ++ nl ].
Proof. vm_compute. reflexivity. Qed.

(** C2. With [manage_interfaces] set, the state check runs
    [_setup_loopbacks], which tries to create every missing binding and then
    verifies again. On a host where the three bindings are still missing
    after the attempt, the second pass does not collect them and raise the
    error that lists them: it stops at the first one with [NameError] for
    the name [a], having reported node 0 only, and neither the line
    [Missing network addresses: ...] nor the exception
    [CCM setup exception: missing address] is ever produced. *)
Theorem setup_loopbacks_second_pass_NameError :
  let s := mkSt (with_manage_interfaces sess_cluster true)
                linux_silent_ifconfig in
  missing_nodes (CCMPlatformLinux "lo:auth_test") (self s)
    [("lo", "127.0.0.1")] = [0; 1; 2] /\
  outcome_of (_loopbacks (state_of (_setup_loopbacks s))) =
    Return [("lo", "127.0.0.1")] /\
  outcome_of (_setup_loopbacks s) = Raise (NameError "a") /\
  outcome_of (_check_state s) = Raise (NameError "a") /\
  last (stderr_lines (trace_of (_setup_loopbacks s))) EmptyString =
    "Ip check failed 0." ++ nl /\
  outcome_of (_setup_loopbacks s) <> Raise missing_address.
Proof.
  cbv zeta. repeat split; try (vm_compute; reflexivity).
  apply setup_loopbacks_never_lists.
Qed.

(** ** Witnesses *)

Lemma setup_twice_creates_once_witness :
  let s := mkSt CCMCluster_default linux_ready in
  let r1 := setup ["sess"] s in
  let r2 := setup ["sess"] (state_of r1) in
  outcome_of r1 = Return None /\
  (creations (trace_of r1) + creations (trace_of r2) <= 1)%nat /\
  initialized (self (state_of r1)) = true /\
  r2 = (Return (Some true), state_of r1, []) /\
  creations (trace_of r1) = 1%nat.
Proof.
  cbv zeta.
  destruct (setup_twice_creates_once ["sess"] ["sess"]
              (mkSt CCMCluster_default linux_ready)) as [Hle Hseq].
  destruct (Hseq None eq_refl) as (Hi & Hr & Hc).
  split; [reflexivity|]. split; [exact Hle|]. split; [exact Hi|].
  split; [exact Hr | exact (Hc eq_refl)].
Defined.

Lemma cmdline_matches_iff_witness :
  _cmdline_matches sess_cluster
    ["java"; "-Dcassandra.config=/home/t/.ccm/sess"; CassandraDaemon] = true /\
  _cmdline_matches sess_cluster
    ["java"; "-Dcassandra.config=/home/t/.ccm/other"; CassandraDaemon] = false.
Proof.
  split.
  - apply (proj2 (cmdline_matches_iff sess_cluster
                    ["java"; "-Dcassandra.config=/home/t/.ccm/sess";
                     CassandraDaemon])).
    split.
    + right. right. left. reflexivity.
    + exists "-Dcassandra.config=/home/t/.ccm/sess". split.
      * right. left. reflexivity.
      * exists "-Dcassandra.config=/home/t/.ccm/", EmptyString. reflexivity.
  - reflexivity.
Defined.

Lemma node_address_witness :
  1 <= nodes CCMCluster_default /\
  0 <= 2 < nodes CCMCluster_default /\
  _mkaddr CCMCluster_default 2 = "127.0.5.3" /\
  nth_error (hosts CCMCluster_default) 2 = Some "127.0.5.3".
Proof.
  assert (H1 : 1 <= nodes CCMCluster_default) by (simpl; unfold NUM_NODES; lia).
  assert (H2 : 0 <= 2 < nodes CCMCluster_default)
    by (simpl; unfold NUM_NODES; lia).
  destruct (node_address CCMCluster_default 2 H1 H2) as (Ha & Hn & _).
  split; [exact H1|]. split; [exact H2|]. split; [exact Ha | exact Hn].
Defined.

Lemma check_loopbacks_spec_witness :
  let s := mkSt CCMCluster_default linux_gap in
  let p := CCMPlatformLinux "lo:auth_test" in
  let lbs := [("lo", "127.0.0.1"); ("lo:auth_test0", "127.0.5.1");
              ("lo:auth_test2", "127.0.5.3")] in
  _platform_lookup (sys_platform (W:=SimHost "linux"))
    (cluster_platforms (self s)) = Some p /\
  outcome_of (_loopbacks s) = Return lbs /\
  missing_nodes p (self s) lbs = [1] /\
  _check_loopbacks s =
  (PytestExit 1, s,
   [ip_check_failed 1; missing_header;
    remediation_line
      "sudo ifconfig lo:auth_test1 127.0.5.2 netmask 255.0.0.0 up";
    StderrFlush]).
Proof.
  cbv zeta. split; [reflexivity|]. split; [reflexivity|].
  split; [reflexivity|].
  destruct (check_loopbacks_spec (HW:=SimHost_Host "linux")
              (mkSt CCMCluster_default linux_gap)
              (CCMPlatformLinux "lo:auth_test")
              [("lo", "127.0.0.1"); ("lo:auth_test0", "127.0.5.1");
               ("lo:auth_test2", "127.0.5.3")] eq_refl eq_refl)
    as [_ Hmiss].
  destruct Hmiss as (Hrun & _).
  - exists 1. split; [simpl; unfold NUM_NODES; lia|].
    simpl. intros [C | [C | [C | []]]]; discriminate.
  - exact Hrun.
Defined.

Lemma setup_marks_initialized_witness :
  let s := mkSt CCMCluster_default linux_ccm_fails in
  initialized (self s) = false /\
  outcome_of (_check_state (record_name ["sess"] s)) = Return tt /\
  outcome_of (setup ["sess"] s) = PytestExit 2 /\
  initialized (self (state_of (setup ["sess"] s))) = true.
Proof.
  cbv zeta. split; [reflexivity|]. split; [reflexivity|].
  destruct (setup_marks_initialized (HW:=SimHost_Host "linux") ["sess"]
              (mkSt CCMCluster_default linux_ccm_fails) eq_refl eq_refl)
    as (Hi & Ho & _).
  split; [exact Ho | exact Hi].
Defined.

Lemma teardown_keeps_initialized_witness :
  let s := mkSt (set_initialized sess_cluster true) linux_ready in
  initialized (self s) = true /\
  outcome_of (teardown 5 s) = Return None /\
  initialized (self (state_of (teardown 5 s))) = true /\
  setup ["again"] (state_of (teardown 5 s)) =
    (Return (Some true), state_of (teardown 5 s), []).
Proof.
  cbv zeta.
  destruct (teardown_keeps_initialized (HW:=SimHost_Host "linux") 5
              (mkSt (set_initialized sess_cluster true) linux_ready) eq_refl)
    as (Hi & _ & Hs).
  split; [reflexivity|]. split; [reflexivity|].
  split; [exact Hi | exact (Hs ["again"])].
Defined.

Lemma create_cluster_requires_name_witness :
  let s := mkSt CCMCluster_default linux_ready in
  name (self s) = EmptyString /\
  _create_cluster s =
  (Raise (Exception "Set name before calling create cluster" None), s,
   [Enter "_create_cluster"]).
Proof.
  cbv zeta. split; [reflexivity|].
  exact (create_cluster_requires_name (HW:=SimHost_Host "linux")
           (mkSt CCMCluster_default linux_ready) eq_refl).
Defined.

(** ** Other runs *)

(** a failed state check leaves the flag unset, and the next call checks
    again *)
Example setup_after_failed_check :
  let s := mkSt CCMCluster_default linux_bare in
  outcome_of (setup ["sess"] s) = PytestExit 1 /\
  initialized (self (state_of (setup ["sess"] s))) = false /\
  creations (trace_of (setup ["sess"] s)) = 0%nat.
Proof. vm_compute. repeat split. Qed.

(** creation that raises still marks the flag *)
Example setup_without_name :
  let s := mkSt CCMCluster_default linux_ready in
  outcome_of (setup [] s) =
    Raise (Exception "Set name before calling create cluster" None) /\
  initialized (self (state_of (setup [] s))) = true.
Proof. vm_compute. repeat split. Qed.

(** with one poll of fuel the loop of [_remove_cluster] is still waiting *)
Example teardown_out_of_fuel :
  outcome_of (teardown 1 (mkSt (set_initialized sess_cluster true) linux_ready))
  = OutOfFuel.
Proof. vm_compute. reflexivity. Qed.

(** the module-level fixture object does not manage interfaces, so its
    own [teardown] removes no alias *)
Example ccm_cluster_teardown_commands :
  commands (trace_of (teardown 5
              (mkSt (set_initialized (set_name ccm_cluster "sess") true)
                    linux_ready))) =
  ["ccm remove sess"].
Proof. vm_compute. reflexivity. Qed.

(** ** Witnesses of the further properties *)

Lemma empty_name_matches_every_daemon_witness :
  name CCMCluster_default = EmptyString /\
  _cmdline_matches CCMCluster_default
    ["java"; "-Dcassandra.config=/home/t/.ccm/other"; CassandraDaemon] = true.
Proof.
  split; [reflexivity|].
  rewrite (empty_name_matches_every_daemon CCMCluster_default _ eq_refl).
  reflexivity.
Defined.

Lemma loopbacks_spec_witness :
  let s := mkSt CCMCluster_default linux_gap in
  exists lbs,
    _loopbacks s = (Return lbs, s, []) /\
    In ("lo:auth_test2", "127.0.5.3") lbs /\
    ~ In ("lo:auth_test1", "127.0.5.2") lbs.
Proof.
  intros s.
  assert (H : forall i, In i (netifaces_interfaces (host s)) ->
                        Py.startswith i "lo" = true ->
                        netifaces_inet (host s) i <> None).
  { intros i Hi _. cbn in Hi.
    destruct Hi as [<- | [<- | [<- | []]]]; cbv; discriminate. }
  destruct (loopbacks_spec s H) as (lbs & E & Hin).
  exists lbs. split; [exact E|]. split.
  - apply Hin. split; [cbn; tauto|]. split; [reflexivity|].
    exists ["127.0.5.3"]. split; [reflexivity | now left].
  - intros C. apply Hin in C as (C & _). cbn in C.
    destruct C as [C | [C | [C | []]]]; discriminate.
Defined.

Lemma loopback_without_inet_KeyError_witness :
  let s := mkSt CCMCluster_default linux_lo_without_inet in
  In "lo1" (netifaces_interfaces (host s)) /\
  netifaces_inet (host s) "lo1" = None /\
  outcome_of (_check_state s) = Raise (KeyError "AF_INET").
Proof.
  intros s.
  assert (Hi : In "lo1" (netifaces_interfaces (host s))) by (cbn; tauto).
  assert (Hn : netifaces_inet (host s) "lo1" = None) by reflexivity.
  destruct (loopback_without_inet_KeyError s "lo1" Hi eq_refl Hn) as [_ E].
  split; [exact Hi|]. split; [exact Hn|]. now rewrite E.
Defined.


Lemma remove_cluster_leaves_host_clean_witness :
  let s := mkSt sess_cluster linux_ready in
  let sf := mkSt sess_cluster (sim_sleep linux_ready) in
  _remove_cluster 5 s =
    (Return tt, sf, [SubprocessCall "ccm remove sess"; Sleep]) /\
  matching (self s) (process_iter (host s)) <> [] /\
  matching (self s) (process_iter (host sf)) = [].
Proof.
  intros s sf.
  assert (H : _remove_cluster 5 s =
              (Return tt, sf, [SubprocessCall "ccm remove sess"; Sleep]))
    by (vm_compute; reflexivity).
  pose proof (remove_cluster_leaves_host_clean 5 s sf _ H) as R.
  cbv zeta in R. destruct R as (_ & _ & _ & _ & Hm).
  split; [exact H|]. split; [discriminate | exact Hm].
Defined.

Lemma teardown_remove_fails_witness :
  let s := mkSt (set_initialized sess_cluster true) linux_mixed in
  initialized (self s) = true /\
  subprocess_call "ccm remove sess" (host s) = (1, linux_mixed) /\
  outcome_of (teardown 5 s) =
    Raise (Exception "Problem removing test cluster" None) /\
  trace_of (teardown 5 s) =
    [SubprocessCall "ccm remove sess"; Enter "_check_state"].
Proof.
  intros s.
  assert (Hi : initialized (self s) = true) by reflexivity.
  assert (Hc : subprocess_call ("ccm remove " ++ name (self s)) (host s) =
               (1, linux_mixed)) by reflexivity.
  assert (Hn : 1 <> 0) by discriminate.
  pose proof (teardown_remove_fails 5 s 1 linux_mixed Hi Hc Hn) as R.
  cbv zeta in R.
  split; [exact Hi|]. split; [exact Hc|]. rewrite R.
  split; vm_compute; reflexivity.
Defined.

Lemma no_kill_without_killall_witness :
  let s := mkSt (set_initialized sess_cluster true) linux_mixed in
  killall (self s) = false /\
  matching (self s) (process_iter (host s)) <> [] /\
  kills (trace_of (teardown 5 s)) = [] /\
  ~ In PopenKill (trace_of (teardown 5 s)).
Proof.
  intros s.
  destruct (no_kill_without_killall (HW:=SimHost_Host "linux") [] 5 s eq_refl)
    as ((_ & _ & H) & (_ & H') & _).
  split; [reflexivity|]. split; [discriminate|]. split; [exact H | exact H'].
Defined.

Lemma setup_unmanaged_runs_no_command_witness :
  let s := mkSt CCMCluster_default linux_ready in
  manage_interfaces (self s) = false /\
  commands (trace_of (setup ["sess"] s)) = [] /\
  popens (trace_of (setup ["sess"] s)) = [ccm_create_sess].
Proof.
  intros s.
  destruct (setup_unmanaged_runs_no_command (HW:=SimHost_Host "linux")
              ["sess"] s eq_refl) as ((H & _) & _ & H').
  split; [reflexivity|]. split; [exact H|].
  rewrite H'. vm_compute. reflexivity.
Defined.

Lemma teardown_unmanaged_commands_witness :
  let s := mkSt (set_initialized sess_cluster true) linux_ready in
  initialized (self s) = true /\
  manage_interfaces (self s) = false /\
  commands (trace_of (teardown 5 s)) = ["ccm remove sess"].
Proof.
  intros s. split; [reflexivity|]. split; [reflexivity|].
  exact (teardown_unmanaged_commands (HW:=SimHost_Host "linux") 5 s
           eq_refl eq_refl).
Defined.


Lemma setup_stops_at_failed_check_witness :
  let s := mkSt CCMCluster_default linux_bare in
  initialized (self s) = false /\
  outcome_of (_check_state (record_name ["sess"] s)) = PytestExit 1 /\
  outcome_of (setup ["sess"] s) = PytestExit 1 /\
  initialized (self (state_of (setup ["sess"] s))) = false /\
  name (self (state_of (setup ["sess"] s))) = "sess".
Proof.
  intros s.
  assert (Hi : initialized (self s) = false) by reflexivity.
  assert (Hc : outcome_of (_check_state (record_name ["sess"] s)) =
               PytestExit 1) by reflexivity.
  assert (Hn : outcome_of (_check_state (record_name ["sess"] s)) <> Return tt)
    by (rewrite Hc; discriminate).
  pose proof (setup_stops_at_failed_check ["sess"] s Hi Hn) as R.
  cbv zeta in R. destruct R as (Ho & _ & _ & Hf & Hname).
  split; [exact Hi|]. split; [exact Hc|]. split; [now rewrite Ho, Hc|].
  split; [exact Hf | exact Hname].
Defined.

Lemma setup_loopbacks_returns_means_bound_witness :
  let s := mkSt (with_manage_interfaces sess_cluster true)
                linux_ifconfig_works in
  let p := CCMPlatformLinux "lo:auth_test" in
  outcome_of (_setup_loopbacks s) = Return tt /\
  missing_nodes p (self s) [("lo", "127.0.0.1")] = [0; 1; 2] /\
  exists lbs,
    outcome_of (_loopbacks (state_of (_setup_loopbacks s))) = Return lbs /\
    missing_nodes p (self s) lbs = [].
Proof.
  intros s p.
  assert (Hp : _platform_lookup (sys_platform (W:=SimHost "linux"))
                 (cluster_platforms (self s)) = Some p) by reflexivity.
  assert (H : _setup_loopbacks s =
              (Return tt, state_of (_setup_loopbacks s),
               trace_of (_setup_loopbacks s)))
    by (vm_compute; reflexivity).
  destruct (setup_loopbacks_returns_means_bound s _ _ p Hp H)
    as (_ & lbs & El & Hall).
  split; [reflexivity|]. split; [reflexivity|].
  exists lbs. split; [now rewrite El|].
  destruct (missing_nodes p (self s) lbs) as [|m ms] eqn:Em; [reflexivity|].
  exfalso.
  assert (Hin : In m (missing_nodes p (self s) lbs)) by (rewrite Em; now left).
  apply missing_nodes_spec in Hin as [Hr Hn]. exact (Hn (Hall m Hr)).
Defined.



Lemma create_cluster_zero_exit_witness :
  let s := mkSt sess_cluster linux_ready in
  name (self s) <> EmptyString /\
  _create_cluster s =
  (Return tt, s, [Enter "_create_cluster"; Popen ccm_create_sess]).
Proof.
  intros s.
  assert (Hn : name (self s) <> EmptyString) by discriminate.
  assert (Hc : popen_communicate (popenargs (self s)) (host s) =
               (Completed EmptyString EmptyString 0, linux_ready))
    by reflexivity.
  split; [exact Hn|].
  exact (create_cluster_zero_exit s linux_ready _ _ Hn Hc).
Defined.

Lemma teardown_twice_removes_twice_witness :
  let s := mkSt (set_initialized sess_cluster true) linux_ready in
  initialized (self s) = true /\
  outcome_of (teardown 5 s) = Return None /\
  exists t,
    trace_of (teardown 5 (state_of (teardown 5 s))) =
    SubprocessCall "ccm remove sess" :: t.
Proof.
  intros s.
  assert (Hi : initialized (self s) = true) by reflexivity.
  pose proof (teardown_twice_removes_twice 5 5 s Hi) as R. cbv zeta in R.
  split; [exact Hi|]. split; [reflexivity | exact R].
Defined.

Lemma cmdline_matches_shorter_name_witness :
  contains "sess2" (name sess_cluster) /\
  _cmdline_matches sess_cluster
    ["java"; "-Dcassandra.config=/home/t/.ccm/sess2"; CassandraDaemon] = true.
Proof.
  assert (Hc : contains "sess2" (name sess_cluster))
    by (exists EmptyString, "2"; reflexivity).
  assert (Hm : _cmdline_matches (set_name sess_cluster "sess2")
                 ["java"; "-Dcassandra.config=/home/t/.ccm/sess2";
                  CassandraDaemon] = true) by reflexivity.
  split; [exact Hc|].
  exact (cmdline_matches_shorter_name sess_cluster "sess2" _ Hc Hm).
Defined.

Lemma check_state_kills_matching_witness :
  let s := mkSt (with_killall sess_cluster true) linux_mixed in
  manage_interfaces (self s) = false /\
  killall (self s) = true /\
  _check_loopbacks s = (Return tt, s, []) /\
  outcome_of (_check_state s) = Return tt /\
  kills (trace_of (_check_state s)) = [4001; 4003].
Proof.
  intros s.
  assert (Hm : manage_interfaces (self s) = false) by reflexivity.
  assert (Hk : killall (self s) = true) by reflexivity.
  assert (Hl : _check_loopbacks s = (Return tt, s, []))
    by (vm_compute; reflexivity).
  assert (Hr : outcome_of (_check_state s) = Return tt)
    by (vm_compute; reflexivity).
  pose proof (check_state_kills_matching s Hm Hk Hl Hr) as H.
  split; [exact Hm|]. split; [exact Hk|]. split; [exact Hl|].
  split; [exact Hr|]. rewrite H. reflexivity.
Defined.

Lemma cassandra_processes_spec_witness :
  let s := mkSt sess_cluster linux_mixed in
  let found := [cassandra_node 1 "sess"; cassandra_node 3 "sess"] in
  let t := [Log "debug" "Unable to access commandline of java process"] in
  _cassandra_processes s = (Return found, s, t) /\
  found = filter (fun p => _cmdline_matches (self s) (seen_cmdline p))
                 (process_iter (host s)) /\
  Forall is_debug_log t.
Proof.
  intros s found t.
  assert (E : _cassandra_processes s = (Return found, s, t))
    by (vm_compute; reflexivity).
  destruct (cassandra_processes_spec s s found t E) as (_ & Hf & Ht & _).
  split; [exact E|]. split; [exact Hf | exact Ht].
Defined.

Lemma kill_all_spec_witness :
  let s := mkSt sess_cluster linux_mixed in
  let r := _kill_all s in
  r = (Return tt, state_of r, trace_of r) /\
  self (state_of r) = sess_cluster /\
  kills (trace_of r) = [4001; 4003].
Proof.
  intros s r.
  assert (E : r = (Return tt, state_of r, trace_of r))
    by (vm_compute; reflexivity).
  destruct (kill_all_spec s (state_of r) (trace_of r) E) as [Hs Hk].
  split; [exact E|]. split; [exact Hs|]. rewrite Hk. reflexivity.
Defined.

(** ** The exit status after a failed creation, on a concrete host *)

(** C4. [ccm create] exits with 1 for the cluster [sess]. [_create_cluster]
    writes the captured output and calls [pytest.exit(1)] without raising;
    the 1 is the message argument of [pytest.exit], no [returncode] is
    passed, and the test run ends with pytest's interrupted status 2, not
    with the exit code 1 of the subprocess. *)
Theorem create_cluster_exit_code_is_message :
  let s := mkSt sess_cluster linux_ccm_exits_1 in
  fst (popen_communicate (popenargs (self s)) (host s)) =
    Completed "starting" "node1: address in use" 1 /\
  _create_cluster s =
  (PytestExit 1, s,
   [Enter "_create_cluster"; Popen ccm_create_sess;
    StdoutWrite "starting"; StdoutFlush;
    StderrWrite "node1: address in use"; StderrFlush]) /\
  session_exit_status (outcome_of (_create_cluster s)) = Some 2 /\
  session_exit_status (outcome_of (_create_cluster s)) <> Some 1.
Proof.
  cbv zeta. split; [reflexivity|]. split; [reflexivity|].
  split; [reflexivity | discriminate].
Qed.

(** the same for the cluster's own life cycle: [setup] ends the run with
    status 2 *)
Example setup_exit_status_after_failed_creation :
  let s := mkSt CCMCluster_default linux_ccm_exits_1 in
  outcome_of (setup ["sess"] s) = PytestExit 1 /\
  session_exit_status (outcome_of (setup ["sess"] s)) = Some EXIT_INTERRUPTED.
Proof. split; reflexivity. Qed.

(** ** The fixture's object and the aliases *)

(** The object behind the fixture, [CCMCluster(manage_interfaces=False)],
    given five nodes: its [teardown] runs [ccm remove] and no other
    command, so it removes the alias of no node, not those of three. *)
Lemma teardown_fixture_object_removes_no_alias :
  let c := with_nodes (set_initialized (set_name ccm_cluster "sess") true) 5 in
  let p := CCMPlatformLinux "lo:auth_test" in
  let r := teardown 5 (mkSt c linux_ready) in
  nodes c <> NUM_NODES /\
  _platform_lookup "linux" (cluster_platforms c) = Some p /\
  commands (trace_of r) = ["ccm remove sess"] /\
  ~ (In (removal p c 0) (commands (trace_of r)) /\
     In (removal p c 1) (commands (trace_of r)) /\
     In (removal p c 2) (commands (trace_of r))) /\
  (forall x, ~ In (removal p c x) (commands (trace_of r))).
Proof.
  cbv zeta.
  assert (E : commands (trace_of (teardown 5
                (mkSt (with_nodes
                         (set_initialized (set_name ccm_cluster "sess") true) 5)
                      linux_ready))) = ["ccm remove sess"])
    by (vm_compute; reflexivity).
  rewrite E.
  assert (N : forall x,
             ~ In (removal (CCMPlatformLinux "lo:auth_test")
                     (with_nodes
                        (set_initialized (set_name ccm_cluster "sess") true) 5)
                     x) ["ccm remove sess"]).
  { intros x [H|[]]. unfold removal in H. cbn in H. discriminate H. }
  split; [discriminate|]. split; [reflexivity|]. split; [reflexivity|].
  split; [|exact N].
  intros (H & _). exact (N 0 H).
Qed.

Lemma teardown_alias_removals_witness :
  let c := with_nodes
             (with_manage_interfaces (set_initialized sess_cluster true) true)
             5 in
  let s0 := mkSt c linux_ready in
  let s1 := mkSt c (sim_sleep linux_ready) in
  initialized c = true /\
  manage_interfaces c = true /\
  nodes c = 5 /\
  _remove_cluster 5 s0 =
    (Return tt, s1, [SubprocessCall "ccm remove sess"; Sleep]) /\
  commands (trace_of (_teardown_loopbacks NUM_NODES s1)) =
    ["sudo ifconfig lo:auth_test0 down";
     "sudo ifconfig lo:auth_test1 down";
     "sudo ifconfig lo:auth_test2 down"] /\
  commands (trace_of (teardown 5 s0)) =
    ["ccm remove sess";
     "sudo ifconfig lo:auth_test0 down";
     "sudo ifconfig lo:auth_test1 down";
     "sudo ifconfig lo:auth_test2 down";
     "sudo ifconfig lo:auth_test3 127.0.5.4 netmask 255.0.0.0 up"].
Proof.
  intros c s0 s1.
  assert (Hi : initialized (self s0) = true) by reflexivity.
  assert (Hm : manage_interfaces (self s0) = true) by reflexivity.
  assert (Hr : _remove_cluster 5 s0 =
               (Return tt, s1, [SubprocessCall "ccm remove sess"; Sleep]))
    by (vm_compute; reflexivity).
  pose proof (teardown_alias_removals 5 s0 s1 _ Hi Hr) as H.
  cbv zeta in H. destruct H as [_ H].
  assert (Hp : _platform_lookup (sys_platform (W:=SimHost "linux"))
                 (cluster_platforms (self s0)) =
               Some (CCMPlatformLinux "lo:auth_test")) by reflexivity.
  assert (H0 : subprocess_call
                 (removal (CCMPlatformLinux "lo:auth_test") (self s0) 0)
                 (host s1) = (0, sim_sleep linux_ready))
    by (vm_compute; reflexivity).
  assert (H1 : subprocess_call
                 (removal (CCMPlatformLinux "lo:auth_test") (self s0) 1)
                 (sim_sleep linux_ready) = (0, sim_sleep linux_ready))
    by (vm_compute; reflexivity).
  assert (H2 : subprocess_call
                 (removal (CCMPlatformLinux "lo:auth_test") (self s0) 2)
                 (sim_sleep linux_ready) = (0, sim_sleep linux_ready))
    by (vm_compute; reflexivity).
  destruct (H Hm _ _ _ _ Hp H0 H1 H2) as (Et & Etd & _ & _).
  split; [exact Hi|]. split; [exact Hm|]. split; [reflexivity|].
  split; [exact Hr|]. split.
  - rewrite Et. vm_compute. reflexivity.
  - rewrite Etd. vm_compute. reflexivity.
Defined.

(** with [killall] unset, [setup] still kills its own subprocess when
    waiting for it raises *)
Example setup_kills_its_subprocess :
  let s := mkSt CCMCluster_default linux_ccm_wait_raises in
  killall (self s) = false /\
  In PopenKill (trace_of (setup ["sess"] s)) /\
  kills (trace_of (setup ["sess"] s)) = [].
Proof.
  cbv zeta. split; [reflexivity|]. split; [|reflexivity].
  vm_compute. tauto.
Qed.
